(** * Claude Chat API with MongoDB ([src/main.py]): conversation continuity
      and history assembly

    A shallow embedding of the Flask handler [chat] and of the three store
    helpers it calls ([crear_conversacion], [agregar_mensaje],
    [obtener_historial_conversacion]), followed by the properties of the
    specification that concern them.

    Modelling conventions.
    - A Python [str] is a [string]; every [ascii] stands for one code point,
      so the alphabet of the model is the code points below 256.
    - The two MongoDB collections are lists of records in insertion order.
      [find_one] and [update_one] act on the first matching document,
      [find(...).sort('timestamp', 1)] is a stable sort of the matching
      documents, [count_documents] counts them.  Store operations do not
      fail once the collection handles are set.
    - [uuid.uuid4()], [datetime.now()] and the completion client are outside
      the program.  They are oracles indexed by the number of calls made so
      far; the state carries the three counters (the list of prompts sent
      doubles as the counter of the completion client).
    - A Python exception is the outcome [Lanza]; the handler's
      [except Exception] turns it into a 500 answer and keeps the writes
      made before it.
    - Identifiers ([uid], [conversation_id]) are strings in the store.  The
      code also serves a request whose [uid] is not a JSON string, or whose
      [conversation_id] is truthy and not a JSON string: it writes the value
      into store documents and uses it as a query.  Such a request is
      outside the model: [chat] and [new_conversation] answer [None] for it
      when it reaches the store, and [Some] answer and state for every other
      request ([chat_definido], [new_conversation_definido]).  Properties of
      requests that reach the store are therefore properties of requests
      with string identifiers ([cuerpo_texto]), and they say so.  What lines
      229-250 do with a [conversation_id] that is a query operator is
      modelled apart ([chat_hasta_prompt]).
    - [print] calls are not modelled. *)

From Stdlib Require Import String Ascii List ZArith Lia Bool Arith.
From Stdlib Require Import Sorted Permutation.
Import ListNotations.

Open Scope string_scope.
Open Scope list_scope.

(** ** Python strings *)

Module PyStr.

(** [str.isspace] on the code points below 256: TAB, LF, VT, FF, CR, the
    four separators FS GS RS US, SPACE, NEL and NBSP. *)
Definition is_space (c : ascii) : bool :=
  let n := nat_of_ascii c in
  (((9 <=? n) && (n <=? 13)) || ((28 <=? n) && (n <=? 32))
   || (n =? 133) || (n =? 160))%nat.

Fixpoint lstrip (s : string) : string :=
  match s with
  | EmptyString => EmptyString
  | String c r => if is_space c then lstrip r else s
  end.

Fixpoint rstrip (s : string) : string :=
  match s with
  | EmptyString => EmptyString
  | String c r =>
      match rstrip r with
      | EmptyString => if is_space c then EmptyString else String c EmptyString
      | r' => String c r'
      end
  end.

(** [s.strip()] *)
Definition strip (s : string) : string := rstrip (lstrip s).

(** [s[:n]] *)
Fixpoint slice_to (n : nat) (s : string) : string :=
  match n, s with
  | S n', String c r => String c (slice_to n' r)
  | _, _ => EmptyString
  end.

(** [p in s] for two strings: [p] occurs in [s] as a substring. *)
Fixpoint contains (p s : string) : bool :=
  prefix p s ||
  match s with
  | EmptyString => false
  | String _ r => contains p r
  end.

(** Every character is white space. *)
Fixpoint all_space (s : string) : bool :=
  match s with
  | EmptyString => true
  | String c r => is_space c && all_space r
  end.

(** [n] copies of the character [c]: ["c" * n]. *)
Fixpoint repeat_char (c : ascii) (n : nat) : string :=
  match n with
  | O => EmptyString
  | S n' => String c (repeat_char c n')
  end.

End PyStr.

(** ** Request bodies: the value returned by [request.get_json()]

    Numbers are integers; the handler only ever looks at the truth value of
    a number, which for a float is the same test against zero. *)

#[local] Set Warnings "-register-all".

Inductive json : Type :=
| JNull
| JBool (b : bool)
| JNum (z : Z)
| JStr (s : string)
| JArr (l : list json)
| JObj (kv : list (string * json)).

(** Python truth value of a decoded JSON value: [None], [False], [0], [""],
    [[]] and [{}] are false. *)
Definition truthy (j : json) : bool :=
  match j with
  | JNull => false
  | JBool b => b
  | JNum z => negb (z =? 0)%Z
  | JStr s => negb (s =? "")
  | JArr l => match l with [] => false | _ => true end
  | JObj kv => match kv with [] => false | _ => true end
  end.

(** [d.get(k)] on the items of a dict; [None] when the key is absent. *)
Fixpoint dict_get (k : string) (kv : list (string * json)) : option json :=
  match kv with
  | [] => None
  | (k', v) :: r => if k' =? k then Some v else dict_get k r
  end.

(** The dict without the key [k]. *)
Fixpoint dict_del (k : string) (kv : list (string * json))
  : list (string * json) :=
  match kv with
  | [] => []
  | (k', v) :: r => if k' =? k then dict_del k r else (k', v) :: dict_del k r
  end.

Definition is_str (s : string) (j : json) : bool :=
  match j with
  | JStr t => t =? s
  | _ => false
  end.

(** [field in data] for a string [field]: key membership in a dict, element
    membership in a list, substring test in a string, and [TypeError]
    ([None] here) on a bool or a number. *)
Definition py_in (field : string) (data : json) : option bool :=
  match data with
  | JObj kv => Some (match dict_get field kv with Some _ => true | None => false end)
  | JArr l => Some (existsb (is_str field) l)
  | JStr s => Some (PyStr.contains field s)
  | JNull | JBool _ | JNum _ => None
  end.

(** ** Documents *)

Inductive Rol : Type := user | assistant.

(** An element of the [messages] argument of the completion call. *)
Record Entrada : Type := mkEntrada {
  role : Rol;
  content : string
}.

(** A document of [mensajes_collection]. *)
Record Mensaje : Type := mkMensaje {
  msg_id : string;
  msg_conversation_id : string;
  msg_uid : string;
  msg_role : Rol;
  msg_content : string;
  msg_timestamp : Z
}.

(** A document of [conversaciones_collection]. *)
Record Conversacion : Type := mkConversacion {
  conv_conversation_id : string;
  conv_uid : string;
  conv_created_at : Z;
  conv_updated_at : Z;
  conv_message_count : nat;
  conv_title : string;
  conv_status : string
}.

(** The module globals and the world around them. *)
Record Estado : Type := mkEstado {
  claude_ok : bool;            (* [claude_client] is set *)
  db_ok : bool;                (* [db is not None] *)
  colecciones_ok : bool;       (* the two collection handles are set *)
  conversaciones : list Conversacion;
  mensajes : list Mensaje;
  uuid_idx : nat;              (* calls of [uuid.uuid4()] so far *)
  reloj_idx : nat;             (* calls of [datetime.now()] so far *)
  enviados : list (list Entrada) (* prompts sent to the completion client *)
}.

Definition set_conversaciones (l : list Conversacion) (st : Estado) : Estado :=
  mkEstado (claude_ok st) (db_ok st) (colecciones_ok st) l (mensajes st)
           (uuid_idx st) (reloj_idx st) (enviados st).

Definition set_mensajes (l : list Mensaje) (st : Estado) : Estado :=
  mkEstado (claude_ok st) (db_ok st) (colecciones_ok st) (conversaciones st) l
           (uuid_idx st) (reloj_idx st) (enviados st).

Definition set_uuid_idx (n : nat) (st : Estado) : Estado :=
  mkEstado (claude_ok st) (db_ok st) (colecciones_ok st) (conversaciones st)
           (mensajes st) n (reloj_idx st) (enviados st).

Definition set_reloj_idx (n : nat) (st : Estado) : Estado :=
  mkEstado (claude_ok st) (db_ok st) (colecciones_ok st) (conversaciones st)
           (mensajes st) (uuid_idx st) n (enviados st).

Definition set_enviados (l : list (list Entrada)) (st : Estado) : Estado :=
  mkEstado (claude_ok st) (db_ok st) (colecciones_ok st) (conversaciones st)
           (mensajes st) (uuid_idx st) (reloj_idx st) l.

(** ** The document store *)

Module Mongo.

(** [conversaciones_collection.find_one({'conversation_id': cid})] *)
Fixpoint find_one (cid : string) (l : list Conversacion) : option Conversacion :=
  match l with
  | [] => None
  | c :: r => if conv_conversation_id c =? cid then Some c else find_one cid r
  end.

(** [conversaciones_collection.update_one({'conversation_id': cid}, {'$set': ...})]:
    the first matching document is rewritten by [f], the others are kept. *)
Fixpoint update_one (cid : string) (f : Conversacion -> Conversacion)
         (l : list Conversacion) : list Conversacion :=
  match l with
  | [] => []
  | c :: r =>
      if conv_conversation_id c =? cid then f c :: r
      else c :: update_one cid f r
  end.

(** [mensajes_collection.find({'conversation_id': cid})] *)
Definition find (cid : string) (l : list Mensaje) : list Mensaje :=
  filter (fun m => msg_conversation_id m =? cid) l.

(** [mensajes_collection.count_documents({'conversation_id': cid})] *)
Definition count_documents (cid : string) (l : list Mensaje) : nat :=
  length (find cid l).

(** [.sort('timestamp', 1)]: ascending, documents with equal timestamps stay
    in insertion order. *)
Fixpoint insert_ts (m : Mensaje) (l : list Mensaje) : list Mensaje :=
  match l with
  | [] => [m]
  | x :: r =>
      if (msg_timestamp m <=? msg_timestamp x)%Z then m :: l
      else x :: insert_ts m r
  end.

Fixpoint sort_ts (l : list Mensaje) : list Mensaje :=
  match l with
  | [] => []
  | m :: r => insert_ts m (sort_ts r)
  end.

End Mongo.

(** Ascending order of timestamps. *)
Definition ts_le (a b : Mensaje) : Prop :=
  (msg_timestamp a <= msg_timestamp b)%Z.

(** What identifies a conversation and its owner. *)
Definition conv_clave (c : Conversacion) : string * string :=
  (conv_conversation_id c, conv_uid c).

(** ** Outcomes of a call and HTTP answers *)

(** A call either returns a value or raises; both leave a state behind. *)
Inductive Resultado (A : Type) : Type :=
| Retorna (a : A) (st : Estado)
| Lanza (st : Estado).

Arguments Retorna {A} a st.
Arguments Lanza {A} st.

(** The texts of the ['error'] field. *)
Inductive ErrorMsg : Type :=
| ErrClaudeNoConfigurado                (* 'Claude no configurado' *)
| ErrMongoNoConfigurado                 (* 'MongoDB no configurado' *)
| ErrDatosJsonRequeridos                (* 'Datos JSON requeridos' *)
| ErrCampoRequerido (field : string)    (* f'Campo "{field}" requerido' *)
| ErrMensajeVacio                       (* 'Mensaje no puede estar vacio' *)
| ErrConversacionNoEncontrada           (* 'Conversacion no encontrada' *)
| ErrSinAcceso                          (* 'No tienes acceso a esta conversacion' *)
| ErrExcepcion.                         (* [str(e)] of a caught exception *)

(** The success envelope of [/chat]. *)
Record ChatOk : Type := mkChatOk {
  r_conversation_id : string;
  r_message : string;
  r_response : string;
  r_message_count : nat;
  r_is_new_conversation : bool;
  r_timestamp : Z
}.

Inductive Cuerpo : Type :=
| Fallo (e : ErrorMsg)     (* {'success': False, 'error': e} *)
| Exito (r : ChatOk).      (* {'success': True, ...} *)

Record Respuesta : Type := mkRespuesta {
  status : nat;
  cuerpo : Cuerpo
}.

Definition fallo (code : nat) (e : ErrorMsg) : Respuesta :=
  mkRespuesta code (Fallo e).

(** ** The program *)

Section Programa.

(** [uuid4 n] is the text of the [n]-th identifier drawn, [now n] the [n]-th
    reading of the clock, [claude n prompt] the text of the reply to the
    [n]-th completion call, [None] when the call (or reading
    [response.content[0].text]) raises. *)
Variable uuid4 : nat -> string.
Variable now : nat -> Z.
Variable claude : nat -> list Entrada -> option string.

(** ['Nueva conversación'] (o with acute accent is code point 243). *)
Definition titulo_inicial : string :=
  String.append "Nueva conversaci" (String (ascii_of_nat 243) "n").

(** Lines 66-84. *)
Definition crear_conversacion (uid : string) (st : Estado) : Resultado string :=
  if negb (colecciones_ok st) then Lanza st
  else
    let conversation_id := uuid4 (uuid_idx st) in
    let conversacion :=
      mkConversacion conversation_id uid
                     (now (reloj_idx st)) (now (S (reloj_idx st)))
                     0 titulo_inicial "active" in
    Retorna conversation_id
      (set_conversaciones (conversaciones st ++ [conversacion])
         (set_reloj_idx (2 + reloj_idx st)
            (set_uuid_idx (S (uuid_idx st)) st))).

(** Line 127:
    [mensaje_usuario[:50] + "..." if len(mensaje_usuario) > 50 else mensaje_usuario]. *)
Definition titulo (mensaje_usuario : string) : string :=
  if (50 <? String.length mensaje_usuario)%nat
  then String.append (PyStr.slice_to 50 mensaje_usuario) "..."
  else mensaje_usuario.

(** The [$set] of lines 120-133 applied to one document. *)
Definition aplicar_update (timestamp : Z) (nuevo_count : nat)
           (mensaje_usuario : string) (c : Conversacion) : Conversacion :=
  mkConversacion (conv_conversation_id c) (conv_uid c) (conv_created_at c)
                 timestamp nuevo_count
                 (if (nuevo_count =? 2)%nat then titulo mensaje_usuario
                  else conv_title c)
                 (conv_status c).

(** Lines 87-133.  The function has no [return] statement: its value is
    Python's [None]. *)
Definition agregar_mensaje
           (conversation_id mensaje_usuario respuesta_claude uid : string)
           (st : Estado) : Resultado json :=
  if negb (colecciones_ok st) then Lanza st
  else
    let timestamp := now (reloj_idx st) in
    let mensajes_nuevos :=
      [ mkMensaje (uuid4 (uuid_idx st)) conversation_id uid
                  user mensaje_usuario timestamp;
        mkMensaje (uuid4 (S (uuid_idx st))) conversation_id uid
                  assistant respuesta_claude timestamp ] in
    let almacenados := mensajes st ++ mensajes_nuevos in
    let nuevo_count := Mongo.count_documents conversation_id almacenados in
    Retorna JNull
      (set_conversaciones
         (Mongo.update_one conversation_id
            (aplicar_update timestamp nuevo_count mensaje_usuario)
            (conversaciones st))
         (set_mensajes almacenados
            (set_reloj_idx (S (reloj_idx st))
               (set_uuid_idx (2 + uuid_idx st) st)))).

Definition a_entrada (m : Mensaje) : Entrada :=
  mkEntrada (msg_role m) (msg_content m).

(** Lines 136-154. *)
Definition obtener_historial_conversacion (conversation_id : string)
           (st : Estado) : list Entrada :=
  if negb (colecciones_ok st) then []
  else map a_entrada (Mongo.sort_ts (Mongo.find conversation_id (mensajes st))).

(** Lines 243-250: the prompt, the stored history followed by the new user
    message. *)
Definition historial_enviado (conversation_id mensaje : string) (st : Estado)
  : list Entrada :=
  obtener_historial_conversacion conversation_id st
  ++ [mkEntrada user mensaje].

(** Lines 203-209: the loop over [required_fields]. *)
Inductive Campos : Type :=
| CamposPresentes
| CampoFalta (field : string)
| CampoTypeError.

Fixpoint validar_campos (required_fields : list string) (data : json) : Campos :=
  match required_fields with
  | [] => CamposPresentes
  | field :: r =>
      match py_in field data with
      | None => CampoTypeError
      | Some false => CampoFalta field
      | Some true => validar_campos r data
      end
  end.

(** Lines 243-278: from the assembly of the history to the success envelope,
    for the resolved [conversation_id]. *)
Definition completar (data_conversation_id : json)
           (conversation_id mensaje uid : string) (st : Estado)
  : Respuesta * Estado :=
  let historial := historial_enviado conversation_id mensaje st in
  let st1 := set_enviados (enviados st ++ [historial]) st in
  match claude (length (enviados st)) historial with
  | None => (fallo 500 ErrExcepcion, st1)
  | Some respuesta =>
      match agregar_mensaje conversation_id mensaje respuesta uid st1 with
      | Lanza st2 => (fallo 500 ErrExcepcion, st2)
      | Retorna _ st2 =>
          let nuevo_count :=
            Mongo.count_documents conversation_id (mensajes st2) in
          (mkRespuesta 200
             (Exito (mkChatOk conversation_id mensaje respuesta nuevo_count
                              (negb (truthy data_conversation_id))
                              (now (reloj_idx st2)))),
           set_reloj_idx (S (reloj_idx st2)) st2)
      end
  end.

(** Lines 224-241: a falsy [conversation_id] creates a conversation, any
    other one must exist and belong to [uid].

    The store holds identifiers as strings, so the function covers the
    requests whose identifiers are JSON strings.  It has no answer ([None])
    where the code goes on with another value: a [uid] that is not a string
    and would be written to the store (the code creates the conversation),
    and a truthy [conversation_id] that is not a string and is used as a
    query (the code answers 404 when nothing matches, and goes on when the
    value is a query operator that matches).  A [uid] that is not a string
    differs from every stored one. *)
Definition resolver (data_conversation_id uid : json) (mensaje : string)
           (st : Estado) : option (Respuesta * Estado) :=
  if negb (truthy data_conversation_id) then
    match uid with
    | JStr u =>
        match crear_conversacion u st with
        | Lanza st1 => Some (fallo 500 ErrExcepcion, st1)
        | Retorna conversation_id st1 =>
            Some (completar data_conversation_id conversation_id mensaje u st1)
        end
    | _ => None
    end
  else
    match data_conversation_id with
    | JStr conversation_id =>
        if negb (colecciones_ok st) then Some (fallo 500 ErrExcepcion, st)
        else
          match Mongo.find_one conversation_id (conversaciones st) with
          | None => Some (fallo 404 ErrConversacionNoEncontrada, st)
          | Some conversacion =>
              match uid with
              | JStr u =>
                  if negb (conv_uid conversacion =? u)
                  then Some (fallo 403 ErrSinAcceso, st)
                  else Some (completar data_conversation_id conversation_id
                                       mensaje u st)
              | _ => Some (fallo 403 ErrSinAcceso, st)
              end
          end
    | _ => None
    end.

(** [data.get('conversation_id')] as a Python value. *)
Definition get_conversation_id (kv : list (string * json)) : json :=
  match dict_get "conversation_id" kv with
  | Some j => j
  | None => JNull
  end.

(** Lines 178-285: the handler of [POST /chat], applied to the decoded
    request body. *)
Definition chat (data : json) (st : Estado) : option (Respuesta * Estado) :=
  if negb (claude_ok st) then Some (fallo 500 ErrClaudeNoConfigurado, st)
  else if negb (db_ok st) then Some (fallo 500 ErrMongoNoConfigurado, st)
  else if negb (truthy data) then Some (fallo 400 ErrDatosJsonRequeridos, st)
  else
    match validar_campos ["uid"; "message"] data with
    | CampoTypeError => Some (fallo 500 ErrExcepcion, st)
    | CampoFalta field => Some (fallo 400 (ErrCampoRequerido field), st)
    | CamposPresentes =>
        match data with
        | JObj kv =>
            match dict_get "uid" kv, dict_get "message" kv with
            | Some uid, Some (JStr mensaje) =>
                if PyStr.strip mensaje =? ""
                then Some (fallo 400 ErrMensajeVacio, st)
                else resolver (get_conversation_id kv) uid mensaje st
            | _, _ =>
                (* [data['message'].strip()] on a value that is not a string *)
                Some (fallo 500 ErrExcepcion, st)
            end
        | _ =>
            (* [data['uid']] on a list or a string *)
            Some (fallo 500 ErrExcepcion, st)
        end
    end.


Definition estado_de {A : Type} (r : Resultado A) : Estado :=
  match r with
  | Retorna _ st => st
  | Lanza st => st
  end.



End Programa.

(** ** A concrete world, for the examples *)

Module Ejemplo.

(** The [n]-th identifier is [n + 1] letters [x]: identifiers never repeat
    and are never empty. *)
Definition uuid4 (n : nat) : string := PyStr.repeat_char "x"%char (S n).

Definition now (n : nat) : Z := Z.of_nat n.

Definition claude (n : nat) (prompt : list Entrada) : option string :=
  Some "Hi".

(** Everything configured, both collections empty. *)
Definition vacio : Estado := mkEstado true true true [] [] 0 0 [].

(** One conversation ["x"] of user ["u1"], no messages yet. *)
Definition conv_x : Conversacion :=
  mkConversacion "x" "u1" 0 1 0 titulo_inicial "active".

Definition con_x : Estado := mkEstado true true true [conv_x] [] 1 2 [].

(** The same conversation after its first turn. *)
Definition con_historia : Estado :=
  mkEstado true true true
           [mkConversacion "x" "u1" 0 2 2 "Hello" "active"]
           [ mkMensaje "xx" "x" "u1" user "Hello" 2;
             mkMensaje "xxx" "x" "u1" assistant "Hi" 2 ]
           3 4 [[mkEntrada user "Hello"]].

(** The items of [{uid, message}] and of [{uid, message, conversation_id}]. *)
Definition campos (uid mensaje : string) : list (string * json) :=
  [("uid", JStr uid); ("message", JStr mensaje)].

Definition campos_cid (uid mensaje conversation_id : string)
  : list (string * json) :=
  [("uid", JStr uid); ("message", JStr mensaje);
   ("conversation_id", JStr conversation_id)].

(** A completion client that is down. *)
Definition claude_caido (n : nat) (prompt : list Entrada) : option string :=
  None.

(** Two users: [con_historia] after user ["u2"] opened a conversation with
    the message ["Secreto"]. *)
Definition dos_usuarios : Estado :=
  mkEstado true true true
           [ mkConversacion "x" "u1" 0 2 2 "Hello" "active";
             mkConversacion "xxxx" "u2" 4 6 2 "Secreto" "active" ]
           [ mkMensaje "xx" "x" "u1" user "Hello" 2;
             mkMensaje "xxx" "x" "u1" assistant "Hi" 2;
             mkMensaje "xxxxx" "xxxx" "u2" user "Secreto" 6;
             mkMensaje "xxxxxx" "xxxx" "u2" assistant "Hi" 6 ]
           6 8 [[mkEntrada user "Hello"]; [mkEntrada user "Secreto"]].

End Ejemplo.

(** ** Identifiers that are not strings

    The handlers pass [data['uid']] and [data.get('conversation_id')] on to
    the store as they come, whatever their JSON type.  The store of the model
    holds strings, so [chat] and [new_conversation] have an answer exactly
    for the requests that stay within it: the properties of requests that
    reach the store are stated for bodies whose [uid] is a string and whose
    [conversation_id] is absent, falsy or a string. *)

(** A [conversation_id] within the model: absent or falsy (a conversation is
    created), or a string. *)
Definition id_texto (j : json) : Prop :=
  truthy j = false \/ exists s, j = JStr s.

(** A request body within the model: a dict whose [uid] is a string and
    whose [conversation_id] is within the model. *)
Definition cuerpo_texto (data : json) : Prop :=
  exists kv u,
    data = JObj kv
    /\ dict_get "uid" kv = Some (JStr u)
    /\ id_texto (get_conversation_id kv).

(** *** A [conversation_id] that is a query operator

    Lines 230 and 142-144 build the filter [{'conversation_id': v}] from the
    value [v] of the body.  What matters of a filter on a store of string
    identifiers is which identifiers it matches.  For a string [cid] the
    filter matches the documents whose [conversation_id] is [cid]; for the
    object [{"$ne": s}] it matches those whose [conversation_id] differs
    from [s]. *)
Definition Filtro : Type := string -> bool.

(** [{'conversation_id': cid}] *)
Definition filtro_texto (cid : string) : Filtro := fun x => x =? cid.

(** [{'conversation_id': {'$ne': s}}] *)
Definition filtro_ne (s : string) : Filtro := fun x => negb (x =? s).

Module MongoFiltro.

(** [conversaciones_collection.find_one(filtro)] *)
Fixpoint find_one (f : Filtro) (l : list Conversacion) : option Conversacion :=
  match l with
  | [] => None
  | c :: r => if f (conv_conversation_id c) then Some c else find_one f r
  end.

(** [mensajes_collection.find(filtro)] *)
Definition find (f : Filtro) (l : list Mensaje) : list Mensaje :=
  filter (fun m => f (msg_conversation_id m)) l.

End MongoFiltro.

(** Lines 229-250 for a body with strings [uid] and [message], the message
    not blank, and a truthy [conversation_id] whose filter is [f], the
    services being configured: the body passes the tests of lines 182-220
    and the else branch of line 225 is taken.  The result is what happens up
    to the completion call of line 255: either the code of the answer that
    ends the request (500 for the exception of a missing collection, 404,
    403), or the conversation that [find_one] resolved and the prompt that
    is sent. *)
Definition chat_hasta_prompt (f : Filtro) (uid mensaje : string)
           (st : Estado) : nat + Conversacion * list Entrada :=
  if negb (colecciones_ok st) then inl 500
  else
    match MongoFiltro.find_one f (conversaciones st) with
    | None => inl 404
    | Some conversacion =>
        if negb (conv_uid conversacion =? uid) then inl 403
        else
          let historial :=
            map a_entrada (Mongo.sort_ts (MongoFiltro.find f (mensajes st))) in
          inr (conversacion, historial ++ [mkEntrada user mensaje])
    end.

(** ** The other routes

    The documents these routes return are shown without their [_id], which
    the model of the store does not carry; [serializar_documento] only
    rewrites that field. *)

(** [conversaciones_collection.find({'uid': uid}, sort=[('updated_at', -1)])]:
    the documents of one owner, latest update first, documents with equal
    [updated_at] in insertion order. *)
Module MongoConv.

Definition find (uid : string) (l : list Conversacion) : list Conversacion :=
  filter (fun c => conv_uid c =? uid) l.

Fixpoint insert_updated (c : Conversacion) (l : list Conversacion)
  : list Conversacion :=
  match l with
  | [] => [c]
  | x :: r =>
      if (conv_updated_at x <=? conv_updated_at c)%Z then c :: l
      else x :: insert_updated c r
  end.

Fixpoint sort_updated (l : list Conversacion) : list Conversacion :=
  match l with
  | [] => []
  | c :: r => insert_updated c (sort_updated r)
  end.

End MongoConv.

(** Descending order of [updated_at]. *)
Definition updated_ge (a b : Conversacion) : Prop :=
  (conv_updated_at b <= conv_updated_at a)%Z.

(** The texts of the ['error'] field of the conversation routes. *)
Inductive ErrorVista : Type :=
| ErrVistaMongo             (* 'MongoDB no configurado' *)
| ErrParametroUid           (* 'Parametro uid requerido' *)
| ErrCampoUid               (* 'Campo uid requerido' *)
| ErrVistaNoEncontrada      (* 'Conversacion no encontrada' *)
| ErrVistaSinAcceso         (* 'No tienes acceso a esta conversacion' *)
| ErrVistaExcepcion.        (* [str(e)] of a caught exception *)

(** Body of [GET /conversations]. *)
Inductive CuerpoLista : Type :=
| ListaFallo (e : ErrorVista)
| ListaExito (uid : string) (conversations : list Conversacion) (total : nat).

(** Body of [GET /conversations/<conversation_id>]: the conversation with its
    ['messages']. *)
Inductive CuerpoDetalle : Type :=
| DetalleFallo (e : ErrorVista)
| DetalleExito (conversation : Conversacion) (messages : list Mensaje).

(** Body of [POST /conversations/new]; ['conversation'] is [null] when
    [find_one] finds nothing. *)
Inductive CuerpoNueva : Type :=
| NuevaFallo (e : ErrorVista)
| NuevaExito (conversation_id : string) (conversation : option Conversacion).

(** What a view function does: it answers, or an exception leaves it (the
    framework then answers on its own). *)
Inductive Vista (A : Type) : Type :=
| Responde (code : nat) (body : A)
| Escapa.

Arguments Responde {A} code body.
Arguments Escapa {A}.

(** Body of [GET /]. *)
Record Home : Type := mkHome {
  h_claude_status : string;
  h_mongodb_status : string;
  h_stats_conversaciones : nat;
  h_stats_mensajes : nat
}.

(** Lines 157-175.  [count_documents({})] counts every document. *)
Definition home (st : Estado) : Home :=
  mkHome (if claude_ok st then "active" else "inactive")
         (if db_ok st then "connected" else "disconnected")
         (if colecciones_ok st then length (conversaciones st) else 0)
         (if colecciones_ok st then length (mensajes st) else 0).

(** Lines 288-326.  [uid] is [request.args.get('uid')]. *)
Definition get_conversations (uid : option string) (st : Estado)
  : nat * CuerpoLista :=
  if negb (colecciones_ok st) then (500, ListaFallo ErrVistaMongo)
  else
    match uid with
    | None => (400, ListaFallo ErrParametroUid)
    | Some u =>
        if u =? "" then (400, ListaFallo ErrParametroUid)
        else
          let conversaciones_serializadas :=
            MongoConv.sort_updated (MongoConv.find u (conversaciones st)) in
          (200, ListaExito u conversaciones_serializadas
                           (length conversaciones_serializadas))
    end.

(** Lines 329-383.  [conversation_id] is the path segment, [uid] is
    [request.args.get('uid')]. *)
Definition get_conversation (conversation_id : string) (uid : option string)
           (st : Estado) : nat * CuerpoDetalle :=
  if negb (colecciones_ok st) then (500, DetalleFallo ErrVistaMongo)
  else
    match uid with
    | None => (400, DetalleFallo ErrParametroUid)
    | Some u =>
        if u =? "" then (400, DetalleFallo ErrParametroUid)
        else
          match Mongo.find_one conversation_id (conversaciones st) with
          | None => (404, DetalleFallo ErrVistaNoEncontrada)
          | Some conversacion =>
              if negb (conv_uid conversacion =? u)
              then (403, DetalleFallo ErrVistaSinAcceso)
              else
                (200, DetalleExito conversacion
                        (Mongo.sort_ts
                           (Mongo.find conversation_id (mensajes st))))
          end
    end.

Section Vistas.

Variable uuid4 : nat -> string.
Variable now : nat -> Z.
Variable claude : nat -> list Entrada -> option string.

(** Lines 386-421.  The test of line 396 stands before the [try]: a
    [TypeError] of ['uid' not in data] leaves the function.  As in [chat], a
    [uid] that is not a string is outside the model: the code creates a
    conversation with that value as owner, the function has no answer
    ([None]). *)
Definition new_conversation (data : json) (st : Estado)
  : option (Vista CuerpoNueva * Estado) :=
  if negb (colecciones_ok st)
  then Some (Responde 500 (NuevaFallo ErrVistaMongo), st)
  else if negb (truthy data)
  then Some (Responde 400 (NuevaFallo ErrCampoUid), st)
  else
    match py_in "uid" data with
    | None => Some (Escapa, st)
    | Some false => Some (Responde 400 (NuevaFallo ErrCampoUid), st)
    | Some true =>
        match data with
        | JObj kv =>
            match dict_get "uid" kv with
            | Some (JStr uid) =>
                match crear_conversacion uuid4 now uid st with
                | Lanza st1 =>
                    Some (Responde 500 (NuevaFallo ErrVistaExcepcion), st1)
                | Retorna conversation_id st1 =>
                    Some (Responde 200
                            (NuevaExito conversation_id
                               (Mongo.find_one conversation_id
                                               (conversaciones st1))),
                          st1)
                end
            | Some _ => None
            | None => Some (Responde 500 (NuevaFallo ErrVistaExcepcion), st)
            end
        | _ =>
            (* [data['uid']] on a list or a string *)
            Some (Responde 500 (NuevaFallo ErrVistaExcepcion), st)
        end
    end.

(** The requests that write to the store. *)
Inductive Peticion : Type :=
| PChat (data : json)
| PNueva (data : json).

Definition atender (p : Peticion) (st : Estado) : option Estado :=
  match p with
  | PChat data => option_map snd (chat uuid4 now claude data st)
  | PNueva data => option_map snd (new_conversation data st)
  end.

(** The states the server goes through from [st0], one request after the
    other, as long as the requests are within the model: a step exists for
    every request that [atender] answers, which includes every request with
    string identifiers ([atender_definido]); a request that brings a [uid] or
    a [conversation_id] of another type to the store has no step. *)
Inductive Alcanzable (st0 : Estado) : Estado -> Prop :=
| alc_inicio : Alcanzable st0 st0
| alc_paso (st st' : Estado) (p : Peticion) :
    Alcanzable st0 st -> atender p st = Some st' -> Alcanzable st0 st'.

(** A request with string identifiers: the [uid] of the body is a string
    and, for [/chat], the [conversation_id] is absent, falsy or a string. *)
Definition peticion_texto (p : Peticion) : Prop :=
  match p with
  | PChat data => cuerpo_texto data
  | PNueva data =>
      exists kv u, data = JObj kv /\ dict_get "uid" kv = Some (JStr u)
  end.

(** The requests of a list, served one after the other. *)
Fixpoint ejecutar (ps : list Peticion) (st : Estado) : option Estado :=
  match ps with
  | [] => Some st
  | p :: r =>
      match atender p st with
      | Some st1 => ejecutar r st1
      | None => None
      end
  end.

End Vistas.

(** ** Invariants of the store *)

(** Roles in turns: user, assistant, user, assistant, ... *)
Fixpoint alterna (l : list Rol) : bool :=
  match l with
  | [] => true
  | user :: assistant :: r => alterna r
  | _ => false
  end.

(** The same, with one more user message at the end. *)
Fixpoint prompt_alterna (l : list Rol) : bool :=
  match l with
  | [user] => true
  | user :: assistant :: r => prompt_alterna r
  | _ => false
  end.

(** Every identifier held in the store. *)
Definition ids_almacenados (st : Estado) : list string :=
  map conv_conversation_id (conversaciones st) ++ map msg_id (mensajes st).

(** The fields of a conversation that no request changes. *)
Definition conv_fijo (c : Conversacion) : string * string * Z * string :=
  (conv_conversation_id c, conv_uid c, conv_created_at c, conv_status c).

Record Consistente (uuid4 : nat -> string) (st : Estado) : Prop := {
  ids_dibujados :
    forall x, In x (ids_almacenados st) ->
              exists k, k < uuid_idx st /\ x = uuid4 k;
  ids_distintos : NoDup (ids_almacenados st);
  mensajes_referencian :
    forall m, In m (mensajes st) ->
              exists c, Mongo.find_one (msg_conversation_id m)
                                       (conversaciones st) = Some c;
  cuentas :
    forall cid c, Mongo.find_one cid (conversaciones st) = Some c ->
                  conv_message_count c
                  = Mongo.count_documents cid (mensajes st);
  duenos :
    forall m c, In m (mensajes st) ->
                Mongo.find_one (msg_conversation_id m) (conversaciones st)
                = Some c ->
                msg_uid m = conv_uid c;
  alternan :
    forall cid, alterna (map msg_role (Mongo.find cid (mensajes st))) = true;
  titulos :
    forall cid c, Mongo.find_one cid (conversaciones st) = Some c ->
                  conv_title c
                  = match Mongo.find cid (mensajes st) with
                    | [] => titulo_inicial
                    | m :: _ => titulo (msg_content m)
                    end
}.

Record Cronologico (now : nat -> Z) (st : Estado) : Prop := {
  tiempos :
    forall m, In m (mensajes st) ->
              exists k, k < reloj_idx st /\ msg_timestamp m = now k;
  en_orden : StronglySorted ts_le (mensajes st);
  prompts :
    forall p, In p (enviados st) -> prompt_alterna (map role p) = true
}.

(** Every stored message belongs to a stored conversation and carries the
    [uid] of its owner. *)
Definition mensajes_con_dueno (st : Estado) : Prop :=
  forall m, In m (mensajes st) ->
            exists c, In c (conversaciones st)
                      /\ conv_conversation_id c = msg_conversation_id m
                      /\ conv_uid c = msg_uid m.

(** The [message_count] of every stored conversation is the number of stored
    messages with its identifier, an even number. *)
Definition cuentas_al_dia (st : Estado) : Prop :=
  forall c, In c (conversaciones st) ->
            conv_message_count c
            = Mongo.count_documents (conv_conversation_id c) (mensajes st)
            /\ Nat.even (conv_message_count c) = true.

(** A conversation without messages has the default title, one with messages
    the title of line 127 for its first message, a user message. *)
Definition titulos_al_dia (st : Estado) : Prop :=
  forall c, In c (conversaciones st) ->
            match Mongo.find (conv_conversation_id c) (mensajes st) with
            | [] => conv_title c = titulo_inicial
            | m :: _ => conv_title c = titulo (msg_content m)
                        /\ msg_role m = user
            end.

(** Every stored conversation was last updated at an earlier reading of the
    clock. *)
Definition actualizadas_antes (now : nat -> Z) (st : Estado) : Prop :=
  forall c, In c (conversaciones st) ->
            exists k, k < reloj_idx st /\ conv_updated_at c = now k.

(** * Properties *)

(** ** Strings *)

Lemma length_append (a b : string) :
  String.length (String.append a b) = String.length a + String.length b.
Proof.
  induction a as [|c a IH]; simpl; [reflexivity | now rewrite IH].
Qed.

Lemma length_slice_to (n : nat) (s : string) :
  n <= String.length s -> String.length (PyStr.slice_to n s) = n.
Proof.
  revert s; induction n as [|n IH]; intros s Hn.
  - reflexivity.
  - destruct s as [|c r]; simpl in *; [lia | rewrite IH; lia].
Qed.

Lemma length_repeat_char (c : ascii) (n : nat) :
  String.length (PyStr.repeat_char c n) = n.
Proof.
  induction n as [|n IH]; simpl; [reflexivity | now rewrite IH].
Qed.

(** ** The store *)

Lemma insert_ts_perm (m : Mensaje) (l : list Mensaje) :
  Permutation (m :: l) (Mongo.insert_ts m l).
Proof.
  induction l as [|x r IH]; simpl.
  - apply Permutation_refl.
  - destruct (msg_timestamp m <=? msg_timestamp x)%Z.
    + apply Permutation_refl.
    + eapply perm_trans; [apply perm_swap | apply perm_skip, IH].
Qed.

Lemma sort_ts_perm (l : list Mensaje) : Permutation l (Mongo.sort_ts l).
Proof.
  induction l as [|m r IH]; simpl.
  - apply perm_nil.
  - eapply perm_trans; [apply perm_skip, IH | apply insert_ts_perm].
Qed.

Lemma insert_ts_hdrel (a m : Mensaje) (l : list Mensaje) :
  ts_le a m -> HdRel ts_le a l -> HdRel ts_le a (Mongo.insert_ts m l).
Proof.
  intros Ham Hal. destruct l as [|x r]; simpl.
  - now constructor.
  - destruct (msg_timestamp m <=? msg_timestamp x)%Z.
    + now constructor.
    + constructor. now inversion Hal.
Qed.

Lemma insert_ts_sorted (m : Mensaje) (l : list Mensaje) :
  Sorted ts_le l -> Sorted ts_le (Mongo.insert_ts m l).
Proof.
  induction 1 as [|x r Hr IH Hx]; simpl.
  - repeat constructor.
  - destruct (msg_timestamp m <=? msg_timestamp x)%Z eqn:E.
    + constructor; [now constructor |].
      constructor. apply Z.leb_le in E. exact E.
    + constructor; [exact IH |].
      apply insert_ts_hdrel; [| exact Hx].
      apply Z.leb_gt in E. unfold ts_le. lia.
Qed.

Lemma sort_ts_sorted (l : list Mensaje) : Sorted ts_le (Mongo.sort_ts l).
Proof.
  induction l as [|m r IH]; simpl.
  - constructor.
  - now apply insert_ts_sorted.
Qed.

(** Documents already in ascending order come back in insertion order. *)
Lemma sort_ts_ordenada (l : list Mensaje) :
  Sorted ts_le l -> Mongo.sort_ts l = l.
Proof.
  induction 1 as [|m r Hr IH Hm]; simpl; [reflexivity |].
  rewrite IH. destruct Hm as [|x r' Hmx]; simpl; [reflexivity |].
  unfold ts_le in Hmx. apply Z.leb_le in Hmx. now rewrite Hmx.
Qed.

Lemma find_app (cid : string) (l1 l2 : list Mensaje) :
  Mongo.find cid (l1 ++ l2) = Mongo.find cid l1 ++ Mongo.find cid l2.
Proof. unfold Mongo.find. apply filter_app. Qed.

Lemma count_documents_app (cid : string) (l1 l2 : list Mensaje) :
  Mongo.count_documents cid (l1 ++ l2)
  = Mongo.count_documents cid l1 + Mongo.count_documents cid l2.
Proof.
  unfold Mongo.count_documents. now rewrite find_app, length_app.
Qed.

Lemma find_none (cid : string) (l : list Mensaje) :
  (forall m, In m l -> msg_conversation_id m <> cid) -> Mongo.find cid l = [].
Proof.
  induction l as [|m r IH]; intros H; simpl; [reflexivity |].
  destruct (msg_conversation_id m =? cid) eqn:E.
  - apply String.eqb_eq in E. exfalso. apply (H m); [now left | exact E].
  - apply IH. intros x Hx. apply H. now right.
Qed.

Lemma find_one_update_one_same
      (cid : string) (f : Conversacion -> Conversacion) (l : list Conversacion) :
  (forall c, conv_conversation_id (f c) = conv_conversation_id c) ->
  Mongo.find_one cid (Mongo.update_one cid f l)
  = option_map f (Mongo.find_one cid l).
Proof.
  intros Hf. induction l as [|c r IH]; simpl; [reflexivity |].
  destruct (conv_conversation_id c =? cid) eqn:E; simpl.
  - now rewrite Hf, E.
  - now rewrite E.
Qed.

Lemma find_one_update_one_other
      (cid cid' : string) (f : Conversacion -> Conversacion)
      (l : list Conversacion) :
  cid <> cid' ->
  (forall c, conv_conversation_id (f c) = conv_conversation_id c) ->
  Mongo.find_one cid (Mongo.update_one cid' f l) = Mongo.find_one cid l.
Proof.
  intros Hne Hf. induction l as [|c r IH]; simpl; [reflexivity |].
  destruct (conv_conversation_id c =? cid') eqn:E; simpl.
  - rewrite Hf. apply String.eqb_eq in E.
    destruct (conv_conversation_id c =? cid) eqn:E'; [| reflexivity].
    apply String.eqb_eq in E'. congruence.
  - now rewrite IH.
Qed.

Lemma length_update_one
      (cid : string) (f : Conversacion -> Conversacion) (l : list Conversacion) :
  length (Mongo.update_one cid f l) = length l.
Proof.
  induction l as [|c r IH]; simpl; [reflexivity |].
  destruct (conv_conversation_id c =? cid); simpl; now rewrite ?IH.
Qed.

Lemma find_one_app_some (cid : string) (l1 l2 : list Conversacion) (c : Conversacion) :
  Mongo.find_one cid l1 = Some c -> Mongo.find_one cid (l1 ++ l2) = Some c.
Proof.
  induction l1 as [|x r IH]; simpl; [discriminate |].
  destruct (conv_conversation_id x =? cid); [trivial | exact IH].
Qed.

Lemma find_one_app_last (cid : string) (l : list Conversacion) (c : Conversacion) :
  conv_conversation_id c = cid ->
  exists c', Mongo.find_one cid (l ++ [c]) = Some c'.
Proof.
  intros Hc. induction l as [|x r IH]; simpl.
  - subst cid. rewrite String.eqb_refl. now exists c.
  - destruct (conv_conversation_id x =? cid); [now exists x | exact IH].
Qed.

(** ** [agregar_mensaje] *)

Section Agregar.

Variable uuid4 : nat -> string.
Variable now : nat -> Z.

Lemma aplicar_update_id (ts : Z) (n : nat) (mu : string) (c : Conversacion) :
  conv_conversation_id (aplicar_update ts n mu c) = conv_conversation_id c.
Proof. reflexivity. Qed.

(** What a call leaves in the state once the collections are set. *)
Lemma agregar_mensaje_estado (cid mu rc uid : string) (st : Estado) :
  colecciones_ok st = true ->
  let ts := now (reloj_idx st) in
  let almacenados :=
    mensajes st
    ++ [ mkMensaje (uuid4 (uuid_idx st)) cid uid user mu ts;
         mkMensaje (uuid4 (S (uuid_idx st))) cid uid assistant rc ts ] in
  agregar_mensaje uuid4 now cid mu rc uid st
  = Retorna JNull
      (mkEstado (claude_ok st) (db_ok st) (colecciones_ok st)
         (Mongo.update_one cid
            (aplicar_update ts (Mongo.count_documents cid almacenados) mu)
            (conversaciones st))
         almacenados (2 + uuid_idx st) (S (reloj_idx st)) (enviados st)).
Proof.
  intros Hc. destruct st; simpl in Hc; subst. reflexivity.
Qed.

Lemma agregar_mensaje_sin_colecciones (cid mu rc uid : string) (st : Estado) :
  colecciones_ok st = false ->
  agregar_mensaje uuid4 now cid mu rc uid st = Lanza st.
Proof.
  intros Hc. unfold agregar_mensaje. now rewrite Hc.
Qed.

Lemma count_documents_turno (cid cid' uid i1 i2 mu rc : string) (ts : Z)
      (l : list Mensaje) :
  Mongo.count_documents cid
    (l ++ [ mkMensaje i1 cid' uid user mu ts;
            mkMensaje i2 cid' uid assistant rc ts ])
  = Mongo.count_documents cid l + (if cid' =? cid then 2 else 0).
Proof.
  rewrite count_documents_app. f_equal.
  unfold Mongo.count_documents, Mongo.find. simpl.
  destruct (cid' =? cid); reflexivity.
Qed.



(** C5.  A call of [agregar_mensaje] appends exactly two documents to the
    message collection: first the user's message, then the assistant's reply,
    both for the given conversation and owner and with one and the same
    timestamp. *)
Theorem agregar_mensaje_inserta_par (cid mu rc uid : string) (st : Estado) :
  colecciones_ok st = true ->
  exists v st' id_u id_a ts,
    agregar_mensaje uuid4 now cid mu rc uid st = Retorna v st'
    /\ mensajes st'
       = mensajes st ++ [ mkMensaje id_u cid uid user mu ts;
                          mkMensaje id_a cid uid assistant rc ts ]
    /\ length (mensajes st') = 2 + length (mensajes st).
Proof.
  intros Hc. rewrite (agregar_mensaje_estado _ _ _ _ _ Hc).
  do 5 eexists. split; [reflexivity |]. cbn [mensajes]. split; [reflexivity |].
  rewrite length_app. simpl. lia.
Qed.



(** C9.  When [agregar_mensaje] sets the title (the recomputed count is 2),
    the stored title is the user text itself if it has at most 50 characters
    and otherwise its first 50 characters followed by the three characters
    ["..."]; for a user text of 60 letters [a] the stored title has length
    53. *)
Theorem titulo_truncado (cid mu rc uid : string) (st : Estado)
        (c : Conversacion) :
  colecciones_ok st = true ->
  Mongo.find_one cid (conversaciones st) = Some c ->
  let st' := estado_de (agregar_mensaje uuid4 now cid mu rc uid st) in
  Mongo.count_documents cid (mensajes st') = 2 ->
  exists c',
    Mongo.find_one cid (conversaciones st') = Some c'
    /\ (String.length mu <= 50 -> conv_title c' = mu)
    /\ (50 < String.length mu ->
        conv_title c' = String.append (PyStr.slice_to 50 mu) "..."
        /\ String.length (conv_title c') = 53)
    /\ (mu = PyStr.repeat_char "a"%char 60 ->
        String.length (conv_title c') = 53).
Proof.
  intros Hc Hf st' Hn.
  assert (Hst : exists c', Mongo.find_one cid (conversaciones st') = Some c'
                           /\ conv_title c' = titulo mu).
  { revert Hn. subst st'. rewrite (agregar_mensaje_estado _ _ _ _ _ Hc).
    cbn [estado_de conversaciones mensajes]. intros Hn.
    rewrite find_one_update_one_same by (intros; apply aplicar_update_id).
    rewrite Hf. cbn [option_map]. eexists. split; [reflexivity |].
    unfold aplicar_update. cbn [conv_title]. now rewrite Hn. }
  destruct Hst as [c' [Hf' Ht']]. exists c'. split; [exact Hf' |].
  assert (Hlong : 50 < String.length mu ->
                  conv_title c' = String.append (PyStr.slice_to 50 mu) "..."
                  /\ String.length (conv_title c') = 53).
  { intros Hl. rewrite Ht'. unfold titulo.
    rewrite (proj2 (Nat.ltb_lt 50 (String.length mu)) Hl).
    split; [reflexivity |].
    rewrite length_append, length_slice_to by lia. reflexivity. }
  repeat split.
  - intros Hl. rewrite Ht'. unfold titulo.
    now rewrite (proj2 (Nat.ltb_ge 50 (String.length mu)) Hl).
  - now apply Hlong.
  - now apply Hlong.
  - intros Hmu. apply Hlong. rewrite Hmu, length_repeat_char. lia.
Qed.

End Agregar.

(** ** The handler [chat] *)

Section Chat.

Variable uuid4 : nat -> string.
Variable now : nat -> Z.
Variable claude : nat -> list Entrada -> option string.

Ltac no_es_200 H Hs :=
  injection H as <- <-; simpl in Hs; discriminate Hs.

Lemma completar_exito (dcid : json) (cid mensaje u : string) (st : Estado)
      (resp : Respuesta) (st' : Estado) :
  completar uuid4 now claude dcid cid mensaje u st = (resp, st') ->
  status resp = 200 ->
  colecciones_ok st = true
  /\ exists respuesta,
      claude (length (enviados st)) (historial_enviado cid mensaje st)
      = Some respuesta
      /\ let st1 :=
           set_enviados (enviados st ++ [historial_enviado cid mensaje st]) st in
         let st2 :=
           estado_de (agregar_mensaje uuid4 now cid mensaje respuesta u st1) in
         resp = mkRespuesta 200
                  (Exito (mkChatOk cid mensaje respuesta
                            (Mongo.count_documents cid (mensajes st2))
                            (negb (truthy dcid)) (now (reloj_idx st2))))
         /\ st' = set_reloj_idx (S (reloj_idx st2)) st2.
Proof.
  unfold completar.
  intros H Hs.
  destruct (claude (length (enviados st)) (historial_enviado cid mensaje st))
    as [respuesta|] eqn:Hcl; [| no_es_200 H Hs].
  destruct (colecciones_ok st) eqn:Hc.
  - split; [reflexivity |]. exists respuesta. split; [reflexivity |].
    rewrite agregar_mensaje_estado in * by exact Hc.
    cbn [estado_de]. injection H as <- <-. split; reflexivity.
  - rewrite agregar_mensaje_sin_colecciones in H by exact Hc.
    no_es_200 H Hs.
Qed.

Lemma completar_no_400 (dcid : json) (cid mensaje u : string) (st : Estado) :
  status (fst (completar uuid4 now claude dcid cid mensaje u st)) <> 400.
Proof.
  unfold completar.
  destruct (claude _ _); [| simpl; discriminate].
  destruct (agregar_mensaje _ _ _ _ _ _ _); simpl; discriminate.
Qed.

Lemma resolver_no_400 (dcid uid : json) (mensaje : string) (st : Estado)
      (resp : Respuesta) (st' : Estado) :
  resolver uuid4 now claude dcid uid mensaje st = Some (resp, st') ->
  status resp <> 400.
Proof.
  unfold resolver. intros H.
  destruct (negb (truthy dcid)).
  - destruct uid; try discriminate H.
    destruct (crear_conversacion _ _ _ _) as [cid st1|st1].
    + injection H as H.
      pose proof (completar_no_400 dcid cid mensaje s st1) as Hn.
      rewrite H in Hn. exact Hn.
    + injection H as <- <-. simpl. discriminate.
  - destruct dcid; try discriminate H.
    destruct (negb (colecciones_ok st));
      [injection H as <- <-; simpl; discriminate |].
    destruct (Mongo.find_one s (conversaciones st)) as [c|];
      [| injection H as <- <-; simpl; discriminate].
    destruct uid; try (injection H as <- <-; simpl; discriminate).
    destruct (negb (conv_uid c =? s0));
      [injection H as <- <-; simpl; discriminate |].
    injection H as H.
    pose proof (completar_no_400 (JStr s) s mensaje s0 st) as Hn.
    rewrite H in Hn. exact Hn.
Qed.

(** A request body that is a dict reaches [resolver] exactly when both
    required keys are present and the message is a string that is not
    blank. *)
Lemma chat_dict (kv : list (string * json)) (st : Estado) :
  claude_ok st = true -> db_ok st = true ->
  chat uuid4 now claude (JObj kv) st
  = match dict_get "uid" kv, dict_get "message" kv with
    | None, _ =>
        Some (fallo 400 (match kv with
                         | [] => ErrDatosJsonRequeridos
                         | _ => ErrCampoRequerido "uid"
                         end), st)
    | Some _, None =>
        Some (fallo 400 (ErrCampoRequerido "message"), st)
    | Some uid, Some (JStr mensaje) =>
        if PyStr.strip mensaje =? ""
        then Some (fallo 400 ErrMensajeVacio, st)
        else resolver uuid4 now claude (get_conversation_id kv) uid mensaje st
    | Some _, Some _ => Some (fallo 500 ErrExcepcion, st)
    end.
Proof.
  intros Hcl Hdb. unfold chat. rewrite Hcl, Hdb. cbn [negb].
  destruct kv as [|p kv']; [reflexivity |].
  cbn [truthy negb validar_campos py_in].
  destruct (dict_get "uid" (p :: kv')) as [uid|]; [| reflexivity].
  destruct (dict_get "message" (p :: kv')) as [m|]; [| reflexivity].
  destruct m; reflexivity.
Qed.

Lemma chat_exito_inv (data : json) (st : Estado) (resp : Respuesta)
      (st' : Estado) :
  chat uuid4 now claude data st = Some (resp, st') ->
  status resp = 200 ->
  exists kv u mensaje cid st1,
    data = JObj kv
    /\ dict_get "uid" kv = Some (JStr u)
    /\ dict_get "message" kv = Some (JStr mensaje)
    /\ PyStr.strip mensaje <> ""
    /\ ((truthy (get_conversation_id kv) = false
         /\ crear_conversacion uuid4 now u st = Retorna cid st1)
        \/ (get_conversation_id kv = JStr cid /\ cid <> "" /\ st1 = st
            /\ exists c, Mongo.find_one cid (conversaciones st) = Some c
                         /\ conv_uid c = u))
    /\ completar uuid4 now claude (get_conversation_id kv) cid mensaje u st1
       = (resp, st').
Proof.
  intros H Hs.
  destruct (claude_ok st) eqn:Hcl;
    [| unfold chat in H; rewrite Hcl in H; no_es_200 H Hs].
  destruct (db_ok st) eqn:Hdb;
    [| unfold chat in H; rewrite Hcl, Hdb in H; no_es_200 H Hs].
  destruct data as [| b | z | s | l | kv].
  1-5: unfold chat in H; rewrite Hcl, Hdb in H; cbn [negb] in H.
  - no_es_200 H Hs.
  - destruct (negb (truthy (JBool b))); no_es_200 H Hs.
  - destruct (negb (truthy (JNum z))); no_es_200 H Hs.
  - destruct (negb (truthy (JStr s))); [no_es_200 H Hs |].
    destruct (validar_campos _ _); no_es_200 H Hs.
  - destruct (negb (truthy (JArr l))); [no_es_200 H Hs |].
    destruct (validar_campos _ _); no_es_200 H Hs.
  - rewrite chat_dict in H by assumption.
    destruct (dict_get "uid" kv) as [uid|] eqn:Hu; [| no_es_200 H Hs].
    destruct (dict_get "message" kv) as [m|] eqn:Hm; [| no_es_200 H Hs].
    destruct m as [| | | mensaje | |]; try no_es_200 H Hs.
    destruct (PyStr.strip mensaje =? "") eqn:Hb; [no_es_200 H Hs |].
    apply String.eqb_neq in Hb.
    unfold resolver in H.
    destruct (truthy (get_conversation_id kv)) eqn:Ht; cbn [negb] in H.
    + destruct (get_conversation_id kv) as [| | | cid | |] eqn:Hg;
        try discriminate H.
      destruct (negb (colecciones_ok st)); [no_es_200 H Hs |].
      destruct (Mongo.find_one cid (conversaciones st)) as [c|] eqn:Hf;
        [| no_es_200 H Hs].
      destruct uid as [| | | u | |]; try no_es_200 H Hs.
      destruct (conv_uid c =? u) eqn:Hcu; cbn [negb] in H; [| no_es_200 H Hs].
      apply String.eqb_eq in Hcu. injection H as H.
      exists kv, u, mensaje, cid, st. rewrite Hg.
      repeat split; try reflexivity; try assumption.
      right. repeat split; try reflexivity.
      * intros ->. discriminate Ht.
      * now exists c.
    + destruct uid as [| | | u | |]; try discriminate H.
      destruct (crear_conversacion uuid4 now u st) as [cid st1|st1] eqn:Hcr;
        [| no_es_200 H Hs].
      injection H as H.
      exists kv, u, mensaje, cid, st1.
      repeat split; try reflexivity; try assumption.
      left. split; [exact Ht | exact Hcr].
Qed.

Lemma crear_conversacion_retorna (u : string) (st : Estado) (cid : string)
      (st1 : Estado) :
  crear_conversacion uuid4 now u st = Retorna cid st1 ->
  colecciones_ok st = true
  /\ cid = uuid4 (uuid_idx st)
  /\ st1 = mkEstado (claude_ok st) (db_ok st) true
             (conversaciones st
              ++ [mkConversacion cid u (now (reloj_idx st))
                                 (now (S (reloj_idx st))) 0 titulo_inicial
                                 "active"])
             (mensajes st) (S (uuid_idx st)) (2 + reloj_idx st) (enviados st).
Proof.
  unfold crear_conversacion. destruct st as [a b c l m i r e]; simpl.
  destruct c; simpl; [| discriminate].
  intros H. injection H as <- <-. repeat split.
Qed.

(** The state a successful turn leaves behind. *)
Lemma completar_exito_estado (dcid : json) (cid mensaje u : string)
      (st : Estado) (resp : Respuesta) (st' : Estado) :
  completar uuid4 now claude dcid cid mensaje u st = (resp, st') ->
  status resp = 200 ->
  exists respuesta,
    let ts := now (reloj_idx st) in
    colecciones_ok st = true
    /\ cuerpo resp
       = Exito (mkChatOk cid mensaje respuesta
                  (Mongo.count_documents cid (mensajes st'))
                  (negb (truthy dcid)) (now (S (reloj_idx st))))
    /\ mensajes st'
       = mensajes st
         ++ [ mkMensaje (uuid4 (uuid_idx st)) cid u user mensaje ts;
              mkMensaje (uuid4 (S (uuid_idx st))) cid u assistant respuesta ts ]
    /\ conversaciones st'
       = Mongo.update_one cid
           (aplicar_update ts (Mongo.count_documents cid (mensajes st')) mensaje)
           (conversaciones st)
    /\ enviados st' = enviados st ++ [historial_enviado cid mensaje st]
    /\ uuid_idx st' = 2 + uuid_idx st.
Proof.
  intros H Hs.
  destruct (completar_exito _ _ _ _ _ _ _ H Hs) as [Hc [respuesta [_ Hr]]].
  cbv zeta in Hr. rewrite agregar_mensaje_estado in Hr by exact Hc.
  cbn [estado_de] in Hr. destruct Hr as [-> ->].
  exists respuesta. cbv zeta. split; [exact Hc |].
  destruct st as [a b c l m i r e]. repeat split.
Qed.

Lemma obtener_historial_ordenado (cid : string) (st : Estado) :
  colecciones_ok st = true ->
  exists previos,
    obtener_historial_conversacion cid st = map a_entrada previos
    /\ Permutation previos (Mongo.find cid (mensajes st))
    /\ Sorted ts_le previos
    /\ (Sorted ts_le (Mongo.find cid (mensajes st)) ->
        previos = Mongo.find cid (mensajes st)).
Proof.
  intros Hc. unfold obtener_historial_conversacion. rewrite Hc. cbn [negb].
  eexists. split; [reflexivity |]. split; [| split].
  - apply Permutation_sym, sort_ts_perm.
  - apply sort_ts_sorted.
  - apply sort_ts_ordenada.
Qed.

(** X24.  In every successful [/chat] request with string identifiers (the
    [uid] a string, the [conversation_id] absent, falsy or a string) the
    prompt sent to the completion client is the stored history of the
    resolved conversation in ascending order of timestamps, nothing left out
    and nothing added (and in insertion order when the stored timestamps
    already ascend), with the request's own user message as last element;
    for a conversation that this request created (its identifier not yet
    used by any stored message) the prompt is the one-element list of that
    user message. *)
Theorem prompt_es_historial_y_mensaje (kv : list (string * json))
        (u : string) (st : Estado) (resp : Respuesta) (st' : Estado) :
  dict_get "uid" kv = Some (JStr u) ->
  id_texto (get_conversation_id kv) ->
  chat uuid4 now claude (JObj kv) st = Some (resp, st') ->
  status resp = 200 ->
  exists r previos,
    cuerpo resp = Exito r
    /\ dict_get "message" kv = Some (JStr (r_message r))
    /\ Permutation previos (Mongo.find (r_conversation_id r) (mensajes st))
    /\ Sorted ts_le previos
    /\ (Sorted ts_le (Mongo.find (r_conversation_id r) (mensajes st)) ->
        previos = Mongo.find (r_conversation_id r) (mensajes st))
    /\ enviados st'
       = enviados st
         ++ [map a_entrada previos ++ [mkEntrada user (r_message r)]]
    /\ (r_is_new_conversation r = true ->
        (forall m, In m (mensajes st) ->
                   msg_conversation_id m <> uuid4 (uuid_idx st)) ->
        enviados st' = enviados st ++ [[mkEntrada user (r_message r)]]).
Proof.
  intros _ _ H Hs.
  destruct (chat_exito_inv _ _ _ _ H Hs)
    as (kv' & u' & mensaje & cid & st1 & Hkv & Hu & Hm & Hb & Hres & Hcomp).
  injection Hkv as <-.
  destruct (completar_exito_estado _ _ _ _ _ _ _ Hcomp Hs)
    as (respuesta & Hc1 & Hcuerpo & _ & _ & Henv & _).
  assert (Hst1 : mensajes st1 = mensajes st /\ enviados st1 = enviados st).
  { destruct Hres as [[_ Hcr] | (_ & _ & -> & _)]; [| now split].
    apply crear_conversacion_retorna in Hcr. destruct Hcr as (_ & _ & ->).
    now split. }
  destruct Hst1 as [Hmens Henv1].
  destruct (obtener_historial_ordenado cid st1 Hc1)
    as (previos & Hh & Hp & Hsort & Hest).
  rewrite Hmens in Hp, Hest.
  assert (Hsent : enviados st'
                  = enviados st ++ [map a_entrada previos ++ [mkEntrada user mensaje]]).
  { rewrite Henv, Henv1. unfold historial_enviado. now rewrite Hh. }
  eexists. exists previos. split; [exact Hcuerpo |]. cbn [r_message
    r_conversation_id r_is_new_conversation].
  repeat split; try assumption.
  intros Hnew Hfresh. rewrite Hsent.
  destruct Hres as [[_ Hcr] | (Hg & Hne & _ & _)].
  - apply crear_conversacion_retorna in Hcr. destruct Hcr as (_ & -> & _).
    rewrite (find_none _ _ Hfresh) in Hp.
    apply Permutation_sym, Permutation_nil in Hp. now subst previos.
  - rewrite Hg in Hnew. cbn [truthy] in Hnew.
    apply String.eqb_neq in Hne. rewrite Hne in Hnew. discriminate Hnew.
Qed.

(** C4, as the code has it.  [agregar_mensaje] returns no value (Python's
    [None]); the [message_count] of a successful [/chat] answer is what the
    handler itself counts in the message collection after the call, and it
    agrees with the [message_count] that [agregar_mensaje] stored in the
    conversation. *)
Theorem message_count_de_la_respuesta (data : json) (st : Estado)
        (resp : Respuesta) (st' : Estado) :
  chat uuid4 now claude data st = Some (resp, st') ->
  status resp = 200 ->
  (forall cid mu rc uid st0 v st1,
      agregar_mensaje uuid4 now cid mu rc uid st0 = Retorna v st1 -> v = JNull)
  /\ exists r c',
      cuerpo resp = Exito r
      /\ r_message_count r
         = Mongo.count_documents (r_conversation_id r) (mensajes st')
      /\ Mongo.find_one (r_conversation_id r) (conversaciones st') = Some c'
      /\ conv_message_count c' = r_message_count r.
Proof.
  intros H Hs. split.
  - intros cid mu rc uid st0 v st1. unfold agregar_mensaje.
    destruct (negb (colecciones_ok st0)); [discriminate |].
    intros H0. now injection H0 as <- _.
  - destruct (chat_exito_inv _ _ _ _ H Hs)
      as (kv & u & mensaje & cid & st1 & -> & Hu & Hm & Hb & Hres & Hcomp).
    destruct (completar_exito_estado _ _ _ _ _ _ _ Hcomp Hs)
      as (respuesta & Hc1 & Hcuerpo & _ & Hconv & _ & _).
    assert (Hf : exists c, Mongo.find_one cid (conversaciones st1) = Some c).
    { destruct Hres as [[_ Hcr] | (_ & _ & -> & c & Hf & _)]; [| now exists c].
      apply crear_conversacion_retorna in Hcr. destruct Hcr as (_ & Hcid & ->).
      cbn [conversaciones]. now apply find_one_app_last. }
    destruct Hf as [c Hf].
    eexists. eexists. split; [exact Hcuerpo |].
    cbn [r_message_count r_conversation_id]. split; [reflexivity |].
    rewrite Hconv.
    rewrite find_one_update_one_same by (intros; apply aplicar_update_id).
    rewrite Hf. cbn [option_map]. split; reflexivity.
Qed.

Lemma strip_vacio (s : string) :
  PyStr.strip s = "" <-> PyStr.all_space s = true.
Proof.
  assert (R : forall t, PyStr.rstrip t = "" <-> PyStr.all_space t = true).
  { induction t as [|c r IH]; simpl; [tauto |].
    destruct (PyStr.rstrip r) eqn:E.
    - destruct (PyStr.is_space c); simpl.
      + split; intros _; [now apply IH | reflexivity].
      + split; discriminate.
    - split; [discriminate |]. intros H.
      apply andb_true_iff in H. destruct H as [_ H].
      apply IH in H. discriminate H. }
  unfold PyStr.strip. rewrite R. clear R.
  induction s as [|c r IH]; simpl; [tauto |].
  destruct (PyStr.is_space c) eqn:E; simpl.
  - exact IH.
  - rewrite E. simpl. tauto.
Qed.

(** C6, as the code has it.  With both services configured, a [/chat]
    request whose body is a JSON object is answered 400 exactly when the key
    [uid] is missing, the key [message] is missing, or the message is a
    string that is blank once stripped.  The value of [uid] is not looked
    at: an empty [uid] is accepted. *)
Theorem chat_400_sii (kv : list (string * json)) (st : Estado) :
  claude_ok st = true ->
  db_ok st = true ->
  (exists resp st',
      chat uuid4 now claude (JObj kv) st = Some (resp, st')
      /\ status resp = 400)
  <-> (dict_get "uid" kv = None
       \/ dict_get "message" kv = None
       \/ exists m, dict_get "message" kv = Some (JStr m)
                    /\ PyStr.strip m = "").
Proof.
  intros Hcl Hdb. rewrite chat_dict by assumption.
  destruct (dict_get "uid" kv) as [uid|].
  2:{ split; [now left |]. intros _. do 2 eexists. split; reflexivity. }
  destruct (dict_get "message" kv) as [m|].
  2:{ split; [right; now left |]. intros _. do 2 eexists. split; reflexivity. }
  destruct m as [| b | z | m | l | o];
    try (split;
         [ intros (resp & st' & H & Hs); injection H as <- <-; discriminate Hs
         | intros [H | [H | (m' & H & _)]]; discriminate H ]).
  destruct (PyStr.strip m =? "") eqn:Hb.
  - apply String.eqb_eq in Hb. split.
    + intros _. right; right. now exists m.
    + intros _. do 2 eexists. split; reflexivity.
  - apply String.eqb_neq in Hb. split.
    + intros (resp & st' & H & Hs). exfalso.
      apply resolver_no_400 in H. contradiction.
    + intros [H | [H | (m' & H & Hm')]]; try discriminate H.
      injection H as <-. contradiction.
Qed.

Lemma update_one_claves (cid : string) (f : Conversacion -> Conversacion)
      (l : list Conversacion) :
  (forall c, conv_clave (f c) = conv_clave c) ->
  map conv_clave (Mongo.update_one cid f l) = map conv_clave l.
Proof.
  intros Hf. induction l as [|c r IH]; simpl; [reflexivity |].
  destruct (conv_conversation_id c =? cid); simpl;
    [now rewrite Hf | now rewrite IH].
Qed.

(** The rest of the handler adds no conversation and moves none to another
    owner. *)
Lemma completar_claves (dcid : json) (cid mensaje u : string) (st : Estado) :
  map conv_clave
      (conversaciones (snd (completar uuid4 now claude dcid cid mensaje u st)))
  = map conv_clave (conversaciones st).
Proof.
  unfold completar.
  destruct (claude _ _) as [respuesta|]; [| reflexivity].
  destruct (colecciones_ok st) eqn:Hc.
  - rewrite agregar_mensaje_estado by exact Hc. cbn [snd conversaciones].
    now apply update_one_claves.
  - rewrite agregar_mensaje_sin_colecciones by exact Hc. reflexivity.
Qed.

Lemma completar_bandera (d1 d2 : json) (cid mensaje u : string) (st : Estado) :
  truthy d1 = truthy d2 ->
  completar uuid4 now claude d1 cid mensaje u st
  = completar uuid4 now claude d2 cid mensaje u st.
Proof.
  intros Ht. unfold completar. now rewrite Ht.
Qed.

(** A valid request with a falsy [conversation_id] goes through
    [crear_conversacion]. *)
Lemma chat_nueva (kv : list (string * json)) (u mensaje : string)
      (st : Estado) :
  claude_ok st = true -> db_ok st = true -> colecciones_ok st = true ->
  dict_get "uid" kv = Some (JStr u) ->
  dict_get "message" kv = Some (JStr mensaje) ->
  PyStr.strip mensaje <> "" ->
  truthy (get_conversation_id kv) = false ->
  exists st1,
    crear_conversacion uuid4 now u st = Retorna (uuid4 (uuid_idx st)) st1
    /\ chat uuid4 now claude (JObj kv) st
       = Some (completar uuid4 now claude (get_conversation_id kv)
                         (uuid4 (uuid_idx st)) mensaje u st1).
Proof.
  intros Hcl Hdb Hc Hu Hm Hb Ht. rewrite chat_dict by assumption.
  rewrite Hu, Hm. apply String.eqb_neq in Hb. rewrite Hb.
  unfold resolver. rewrite Ht. cbn [negb].
  unfold crear_conversacion. rewrite Hc. cbn [negb].
  eexists. split; reflexivity.
Qed.

(** The flag of a successful answer. *)
Lemma chat_exito_bandera (kv : list (string * json)) (st : Estado)
      (resp : Respuesta) (st' : Estado) :
  chat uuid4 now claude (JObj kv) st = Some (resp, st') ->
  status resp = 200 ->
  exists r,
    cuerpo resp = Exito r
    /\ r_is_new_conversation r = negb (truthy (get_conversation_id kv))
    /\ (truthy (get_conversation_id kv) = false ->
        r_conversation_id r = uuid4 (uuid_idx st)
        /\ uuid_idx st' = 3 + uuid_idx st).
Proof.
  intros H Hs.
  destruct (chat_exito_inv _ _ _ _ H Hs)
    as (kv' & u & mensaje & cid & st1 & Hkv & Hu & Hm & Hb & Hres & Hcomp).
  injection Hkv as <-.
  destruct (completar_exito_estado _ _ _ _ _ _ _ Hcomp Hs)
    as (respuesta & _ & Hcuerpo & _ & _ & _ & Hidx).
  eexists. split; [exact Hcuerpo |].
  cbn [r_is_new_conversation r_conversation_id]. split; [reflexivity |].
  intros Ht. destruct Hres as [[_ Hcr] | (Hg & Hne & _ & _)].
  - apply crear_conversacion_retorna in Hcr. destruct Hcr as (_ & -> & ->).
    split; [reflexivity |]. rewrite Hidx. reflexivity.
  - rewrite Hg in Ht. cbn [truthy] in Ht. apply String.eqb_neq in Hne.
    rewrite Hne in Ht. discriminate Ht.
Qed.

(** C7, as the code has it.  A valid [/chat] request that carries no
    [conversation_id], or a falsy one, always creates a conversation for the
    caller, whatever conversations are stored: the collection grows by one
    conversation with the freshly drawn identifier, and a successful answer
    names that identifier.  As long as [uuid4] never repeats a value, a
    second such request answered successfully names another identifier.  The
    flag [is_new_conversation] of a successful answer is true exactly when
    the request carried no [conversation_id] or a falsy one. *)
Theorem chat_sin_conversation_id (kv : list (string * json))
        (u mensaje : string) (st : Estado) :
  (forall i j, uuid4 i = uuid4 j -> i = j) ->
  claude_ok st = true -> db_ok st = true -> colecciones_ok st = true ->
  dict_get "uid" kv = Some (JStr u) ->
  dict_get "message" kv = Some (JStr mensaje) ->
  PyStr.strip mensaje <> "" ->
  truthy (get_conversation_id kv) = false ->
  exists resp st',
    chat uuid4 now claude (JObj kv) st = Some (resp, st')
    /\ map conv_clave (conversaciones st')
       = map conv_clave (conversaciones st) ++ [(uuid4 (uuid_idx st), u)]
    /\ (status resp = 200 ->
        exists r,
          cuerpo resp = Exito r
          /\ r_conversation_id r = uuid4 (uuid_idx st)
          /\ r_is_new_conversation r = true
          /\ forall kv2 resp2 st2,
              truthy (get_conversation_id kv2) = false ->
              chat uuid4 now claude (JObj kv2) st' = Some (resp2, st2) ->
              status resp2 = 200 ->
              exists r2, cuerpo resp2 = Exito r2
                         /\ r_conversation_id r2 <> r_conversation_id r)
    /\ (forall kv0 st0 resp0 st0',
           chat uuid4 now claude (JObj kv0) st0 = Some (resp0, st0') ->
           status resp0 = 200 ->
           exists r0, cuerpo resp0 = Exito r0
                      /\ (r_is_new_conversation r0 = true
                          <-> truthy (get_conversation_id kv0) = false)).
Proof.
  intros Hinj Hcl Hdb Hc Hu Hm Hb Ht.
  destruct (chat_nueva kv u mensaje st Hcl Hdb Hc Hu Hm Hb Ht)
    as (st1 & Hcr & Hchat).
  destruct (completar uuid4 now claude (get_conversation_id kv)
                      (uuid4 (uuid_idx st)) mensaje u st1)
    as [resp st'] eqn:Hcomp.
  exists resp, st'. split; [exact Hchat |]. split; [| split].
  - pose proof (completar_claves (get_conversation_id kv)
                  (uuid4 (uuid_idx st)) mensaje u st1) as Hk.
    rewrite Hcomp in Hk. cbn [snd] in Hk. rewrite Hk.
    apply crear_conversacion_retorna in Hcr. destruct Hcr as (_ & _ & ->).
    cbn [conversaciones]. now rewrite map_app.
  - intros Hs.
    destruct (chat_exito_bandera kv st resp st' Hchat Hs)
      as (r & Hr & Hflag & Hid).
    destruct (Hid Ht) as [Hrid Hidx].
    exists r. split; [exact Hr |]. split; [exact Hrid |].
    split; [now rewrite Hflag, Ht |].
    intros kv2 resp2 st2 Ht2 Hchat2 Hs2.
    destruct (chat_exito_bandera kv2 st' resp2 st2 Hchat2 Hs2)
      as (r2 & Hr2 & _ & Hid2).
    destruct (Hid2 Ht2) as [Hrid2 _].
    exists r2. split; [exact Hr2 |].
    rewrite Hrid, Hrid2, Hidx. intros Heq. apply Hinj in Heq. lia.
  - intros kv0 st0 resp0 st0' Hchat0 Hs0.
    destruct (chat_exito_bandera kv0 st0 resp0 st0' Hchat0 Hs0)
      as (r0 & Hr0 & Hflag0 & _).
    exists r0. split; [exact Hr0 |]. rewrite Hflag0.
    destruct (truthy (get_conversation_id kv0)); simpl; split; congruence.
Qed.

(** C8, as the code has it.  A valid [/chat] request that names a
    conversation with a non-empty [conversation_id] is answered 404 when no
    such conversation is stored and 403 when the stored one belongs to
    another [uid]; in both cases the state is left exactly as it was: no
    conversation is created, no message is inserted, no conversation is
    updated. *)
Theorem chat_404_403_sin_escrituras (kv : list (string * json)) (uid : json)
        (mensaje cid : string) (st : Estado) :
  claude_ok st = true -> db_ok st = true -> colecciones_ok st = true ->
  dict_get "uid" kv = Some uid ->
  dict_get "message" kv = Some (JStr mensaje) ->
  PyStr.strip mensaje <> "" ->
  dict_get "conversation_id" kv = Some (JStr cid) ->
  cid <> "" ->
  (Mongo.find_one cid (conversaciones st) = None ->
   chat uuid4 now claude (JObj kv) st
   = Some (fallo 404 ErrConversacionNoEncontrada, st))
  /\ (forall c,
         Mongo.find_one cid (conversaciones st) = Some c ->
         uid <> JStr (conv_uid c) ->
         chat uuid4 now claude (JObj kv) st = Some (fallo 403 ErrSinAcceso, st)).
Proof.
  intros Hcl Hdb Hc Hu Hm Hb Hcid Hne.
  rewrite chat_dict by assumption. rewrite Hu, Hm.
  apply String.eqb_neq in Hb. rewrite Hb.
  unfold resolver, get_conversation_id. rewrite Hcid. cbn [truthy].
  apply String.eqb_neq in Hne. rewrite Hne, Hc. cbn [negb].
  split.
  - intros Hf. now rewrite Hf.
  - intros c Hf Huid. rewrite Hf.
    destruct uid as [| | | u | |]; try reflexivity.
    destruct (conv_uid c =? u) eqn:E; [| reflexivity].
    apply String.eqb_eq in E. subst u. contradiction.
Qed.

Lemma dict_get_del_otro (k k' : string) (kv : list (string * json)) :
  k <> k' -> dict_get k (dict_del k' kv) = dict_get k kv.
Proof.
  intros Hne. induction kv as [|[a v] r IH]; simpl; [reflexivity |].
  destruct (a =? k') eqn:E.
  - apply String.eqb_eq in E. subst a.
    apply not_eq_sym, String.eqb_neq in Hne. now rewrite Hne.
  - simpl. now rewrite IH.
Qed.

Lemma dict_get_del (k : string) (kv : list (string * json)) :
  dict_get k (dict_del k kv) = None.
Proof.
  induction kv as [|[a v] r IH]; simpl; [reflexivity |].
  destruct (a =? k) eqn:E; [exact IH | simpl; now rewrite E].
Qed.

(** A falsy [conversation_id] is handled as an absent one: answer and state
    are the same, whatever the other fields of the body are. *)
Lemma chat_falsy_igual_ausente (kv : list (string * json)) (j uid : json)
      (st : Estado) :
  dict_get "conversation_id" kv = Some j ->
  truthy j = false ->
  dict_get "uid" kv = Some uid ->
  chat uuid4 now claude (JObj kv) st
  = chat uuid4 now claude (JObj (dict_del "conversation_id" kv)) st.
Proof.
  intros Hj Ht Hu.
  assert (Hg : get_conversation_id kv = j)
    by (unfold get_conversation_id; now rewrite Hj).
  destruct (claude_ok st) eqn:Hcl; [| unfold chat; now rewrite Hcl].
  destruct (db_ok st) eqn:Hdb; [| unfold chat; now rewrite Hcl, Hdb].
  rewrite !chat_dict by assumption.
  rewrite !dict_get_del_otro by discriminate. rewrite Hu.
  destruct (dict_get "message" kv) as [m|]; [| reflexivity].
  destruct m as [| | | mensaje | |]; try reflexivity.
  destruct (PyStr.strip mensaje =? ""); [reflexivity |].
  unfold get_conversation_id at 2. rewrite dict_get_del, Hg.
  unfold resolver. rewrite Ht. cbn [truthy negb].
  destruct uid as [| | | u | |]; try reflexivity.
  destruct (crear_conversacion uuid4 now u st) as [cid st1|st1];
    [| reflexivity].
  f_equal. now apply completar_bandera.
Qed.

(** The prompt of a conversation that [crear_conversacion] has just added is
    computed from the messages, which the creation leaves as they were. *)
Lemma historial_enviado_tras_crear (u cid cid' mensaje : string)
      (st st1 : Estado) :
  crear_conversacion uuid4 now u st = Retorna cid st1 ->
  historial_enviado cid' mensaje st1 = historial_enviado cid' mensaje st
  /\ enviados st1 = enviados st
  /\ colecciones_ok st1 = true.
Proof.
  intros Hcr. apply crear_conversacion_retorna in Hcr.
  destruct Hcr as (Hc & _ & ->).
  unfold historial_enviado, obtener_historial_conversacion.
  cbn [colecciones_ok mensajes enviados]. now rewrite Hc.
Qed.

(** C10.  A valid [/chat] request whose [conversation_id] is the empty
    string, or any other falsy value, is answered as the same request without
    the key (same answer, same state), and it creates a conversation: no
    stored conversation is looked up, so whatever the store holds the answer
    is never 404 or 403, the collection has grown by one conversation of the
    caller with the freshly drawn identifier, and the prompt is sent.  When
    the completion client answers the prompt, the request is answered 200
    with that identifier and with the flag [is_new_conversation] set; when
    the completion call fails, the answer is 500 (and the conversation stays
    created). *)
Theorem conversation_id_falsy_como_ausente (kv : list (string * json))
        (j : json) (u mensaje : string) (st : Estado) :
  claude_ok st = true -> db_ok st = true -> colecciones_ok st = true ->
  dict_get "uid" kv = Some (JStr u) ->
  dict_get "message" kv = Some (JStr mensaje) ->
  PyStr.strip mensaje <> "" ->
  dict_get "conversation_id" kv = Some j ->
  truthy j = false ->
  exists resp st',
    chat uuid4 now claude (JObj kv) st = Some (resp, st')
    /\ chat uuid4 now claude (JObj (dict_del "conversation_id" kv)) st
       = Some (resp, st')
    /\ map conv_clave (conversaciones st')
       = map conv_clave (conversaciones st) ++ [(uuid4 (uuid_idx st), u)]
    /\ enviados st'
       = enviados st ++ [historial_enviado (uuid4 (uuid_idx st)) mensaje st]
    /\ status resp <> 404 /\ status resp <> 403
    /\ match claude (length (enviados st))
                    (historial_enviado (uuid4 (uuid_idx st)) mensaje st) with
       | Some respuesta =>
           exists r,
             resp = mkRespuesta 200 (Exito r)
             /\ r_conversation_id r = uuid4 (uuid_idx st)
             /\ r_is_new_conversation r = true
             /\ r_message r = mensaje
             /\ r_response r = respuesta
             /\ r_message_count r
                = Mongo.count_documents (uuid4 (uuid_idx st)) (mensajes st')
       | None => resp = fallo 500 ErrExcepcion
       end.
Proof.
  intros Hcl Hdb Hc Hu Hm Hb Hj Ht.
  assert (Hg : get_conversation_id kv = j)
    by (unfold get_conversation_id; now rewrite Hj).
  assert (Ht' : truthy (get_conversation_id kv) = false) by now rewrite Hg.
  destruct (chat_nueva kv u mensaje st Hcl Hdb Hc Hu Hm Hb Ht')
    as (st1 & Hcr & Hchat).
  pose proof (chat_falsy_igual_ausente kv j (JStr u) st Hj Ht Hu) as Heq.
  destruct (historial_enviado_tras_crear u _ (uuid4 (uuid_idx st)) mensaje
              st st1 Hcr) as (Hh & He1 & Hc1).
  assert (Hk1 : map conv_clave (conversaciones st1)
                = map conv_clave (conversaciones st)
                  ++ [(uuid4 (uuid_idx st), u)]).
  { apply crear_conversacion_retorna in Hcr. destruct Hcr as (_ & _ & ->).
    cbn [conversaciones]. now rewrite map_app. }
  destruct (completar uuid4 now claude (get_conversation_id kv)
                      (uuid4 (uuid_idx st)) mensaje u st1)
    as [resp st'] eqn:Hcomp.
  exists resp, st'. split; [exact Hchat |].
  split; [now rewrite <- Heq |].
  split.
  { pose proof (completar_claves (get_conversation_id kv)
                  (uuid4 (uuid_idx st)) mensaje u st1) as Hk.
    rewrite Hcomp in Hk. cbn [snd] in Hk. now rewrite Hk. }
  unfold completar in Hcomp. rewrite Hh, He1 in Hcomp.
  destruct (claude (length (enviados st))
                   (historial_enviado (uuid4 (uuid_idx st)) mensaje st))
    as [respuesta|].
  - rewrite agregar_mensaje_estado in Hcomp
      by (destruct st1; exact Hc1).
    injection Hcomp as <- <-.
    split; [destruct st1; reflexivity |].
    split; [simpl; discriminate |]. split; [simpl; discriminate |].
    eexists. split; [reflexivity |].
    cbn [r_conversation_id r_is_new_conversation r_message r_response
         r_message_count].
    rewrite Ht'. repeat split.
  - injection Hcomp as <- <-.
    split; [destruct st1; reflexivity |].
    split; [simpl; discriminate |]. split; [simpl; discriminate |].
    reflexivity.
Qed.

End Chat.

(** ** The properties on the concrete world *)

Lemma ejemplo_uuid4_inyectiva (i j : nat) :
  Ejemplo.uuid4 i = Ejemplo.uuid4 j -> i = j.
Proof.
  unfold Ejemplo.uuid4. intros H.
  apply (f_equal String.length) in H. rewrite !length_repeat_char in H. lia.
Qed.

(** First turn on the empty conversation ["x"]: two messages are appended. *)
Lemma agregar_mensaje_inserta_par_witness :
  colecciones_ok Ejemplo.con_x = true
  /\ exists v st' id_u id_a ts,
      agregar_mensaje Ejemplo.uuid4 Ejemplo.now "x" "Hello" "Hi" "u1"
                      Ejemplo.con_x = Retorna v st'
      /\ mensajes st'
         = mensajes Ejemplo.con_x
           ++ [ mkMensaje id_u "x" "u1" user "Hello" ts;
                mkMensaje id_a "x" "u1" assistant "Hi" ts ]
      /\ length (mensajes st') = 2 + length (mensajes Ejemplo.con_x).
Proof.
  split; [reflexivity |].
  apply (agregar_mensaje_inserta_par Ejemplo.uuid4 Ejemplo.now
           "x" "Hello" "Hi" "u1" Ejemplo.con_x).
  reflexivity.
Defined.



(** The scenario of the 60 letters [a]. *)
Lemma titulo_truncado_witness :
  let mu := PyStr.repeat_char "a"%char 60 in
  let st' :=
    estado_de (agregar_mensaje Ejemplo.uuid4 Ejemplo.now "x" mu "Hi" "u1"
                               Ejemplo.con_x) in
  Mongo.count_documents "x" (mensajes st') = 2
  /\ exists c',
      Mongo.find_one "x" (conversaciones st') = Some c'
      /\ (String.length mu <= 50 -> conv_title c' = mu)
      /\ (50 < String.length mu ->
          conv_title c' = String.append (PyStr.slice_to 50 mu) "..."
          /\ String.length (conv_title c') = 53)
      /\ (mu = PyStr.repeat_char "a"%char 60 ->
          String.length (conv_title c') = 53).
Proof.
  split; [reflexivity |].
  apply (titulo_truncado Ejemplo.uuid4 Ejemplo.now
           "x" (PyStr.repeat_char "a"%char 60) "Hi" "u1"
           Ejemplo.con_x Ejemplo.conv_x);
    reflexivity.
Defined.

(** Second turn on conversation ["x"]: the prompt is the two stored messages
    followed by the new one. *)
Lemma prompt_es_historial_y_mensaje_witness :
  exists resp st',
    chat Ejemplo.uuid4 Ejemplo.now Ejemplo.claude
         (JObj (Ejemplo.campos_cid "u1" "How are you?" "x"))
         Ejemplo.con_historia = Some (resp, st')
    /\ status resp = 200
    /\ enviados st'
       = [ [mkEntrada user "Hello"];
           [mkEntrada user "Hello"; mkEntrada assistant "Hi";
            mkEntrada user "How are you?"] ]
    /\ exists r previos,
        cuerpo resp = Exito r
        /\ dict_get "message" (Ejemplo.campos_cid "u1" "How are you?" "x")
           = Some (JStr (r_message r))
        /\ Permutation previos
             (Mongo.find (r_conversation_id r) (mensajes Ejemplo.con_historia))
        /\ Sorted ts_le previos
        /\ (Sorted ts_le
              (Mongo.find (r_conversation_id r) (mensajes Ejemplo.con_historia)) ->
            previos
            = Mongo.find (r_conversation_id r) (mensajes Ejemplo.con_historia))
        /\ enviados st'
           = enviados Ejemplo.con_historia
             ++ [map a_entrada previos ++ [mkEntrada user (r_message r)]]
        /\ (r_is_new_conversation r = true ->
            (forall m, In m (mensajes Ejemplo.con_historia) ->
                       msg_conversation_id m
                       <> Ejemplo.uuid4 (uuid_idx Ejemplo.con_historia)) ->
            enviados st'
            = enviados Ejemplo.con_historia
              ++ [[mkEntrada user (r_message r)]]).
Proof.
  eexists. eexists. split; [vm_compute; reflexivity |].
  split; [reflexivity |]. split; [reflexivity |].
  apply (prompt_es_historial_y_mensaje Ejemplo.uuid4 Ejemplo.now Ejemplo.claude
           (Ejemplo.campos_cid "u1" "How are you?" "x") "u1"
           Ejemplo.con_historia).
  - reflexivity.
  - right. exists "x". reflexivity.
  - vm_compute. reflexivity.
  - reflexivity.
Defined.

(** [Ejemplo.dos_usuarios] is the state that the first request of ["u2"]
    leaves behind ["u1"]'s first turn. *)
Lemma dos_usuarios_tras_chat :
  exists resp,
    chat Ejemplo.uuid4 Ejemplo.now Ejemplo.claude
         (JObj (Ejemplo.campos "u2" "Secreto")) Ejemplo.con_historia
    = Some (resp, Ejemplo.dos_usuarios)
    /\ status resp = 200.
Proof.
  eexists. split; [vm_compute; reflexivity | reflexivity].
Qed.

Lemma find_one_filtro_texto (cid : string) (l : list Conversacion) :
  MongoFiltro.find_one (filtro_texto cid) l = Mongo.find_one cid l.
Proof.
  induction l as [|c r IH]; simpl; [reflexivity |].
  unfold filtro_texto at 1. now rewrite IH.
Qed.

(** With the filter of a string, [chat_hasta_prompt] is the path of [chat]:
    the conversation is the one [resolver] looks up, with the same 404 and
    403 answers, and the prompt is the one [completar] sends. *)
Lemma chat_hasta_prompt_texto (cid u mensaje : string) (st : Estado) :
  colecciones_ok st = true ->
  chat_hasta_prompt (filtro_texto cid) u mensaje st
  = match Mongo.find_one cid (conversaciones st) with
    | None => inl 404
    | Some conversacion =>
        if negb (conv_uid conversacion =? u) then inl 403
        else inr (conversacion, historial_enviado cid mensaje st)
    end.
Proof.
  intros Hc. unfold chat_hasta_prompt, historial_enviado,
    obtener_historial_conversacion.
  rewrite Hc, find_one_filtro_texto. reflexivity.
Qed.

Lemma chat_hasta_prompt_es_chat (uuid4 : nat -> string) (now : nat -> Z)
      (claude : nat -> list Entrada -> option string)
      (kv : list (string * json)) (cid u mensaje : string) (st : Estado) :
  claude_ok st = true -> db_ok st = true -> colecciones_ok st = true ->
  dict_get "uid" kv = Some (JStr u) ->
  dict_get "message" kv = Some (JStr mensaje) ->
  PyStr.strip mensaje <> "" ->
  dict_get "conversation_id" kv = Some (JStr cid) ->
  cid <> "" ->
  match chat_hasta_prompt (filtro_texto cid) u mensaje st with
  | inl code =>
      exists e, chat uuid4 now claude (JObj kv) st = Some (fallo code e, st)
  | inr (_, prompt) =>
      exists resp st',
        chat uuid4 now claude (JObj kv) st = Some (resp, st')
        /\ enviados st' = enviados st ++ [prompt]
  end.
Proof.
  intros Hcl Hdb Hc Hu Hm Hb Hcid Hne.
  rewrite chat_hasta_prompt_texto by exact Hc.
  rewrite (chat_dict uuid4 now claude) by assumption. rewrite Hu, Hm.
  apply String.eqb_neq in Hb. rewrite Hb.
  unfold resolver, get_conversation_id. rewrite Hcid. cbn [truthy].
  apply String.eqb_neq in Hne. rewrite Hne, Hc. cbn [negb].
  destruct (Mongo.find_one cid (conversaciones st)) as [c|]; [| eauto].
  destruct (negb (conv_uid c =? u)); [eauto |].
  destruct (completar uuid4 now claude (JStr cid) cid mensaje u st)
    as [resp st'] eqn:Hcomp.
  exists resp, st'. split; [reflexivity |].
  unfold completar in Hcomp.
  destruct (claude (length (enviados st)) (historial_enviado cid mensaje st)).
  - rewrite agregar_mensaje_estado in Hcomp by (destruct st; exact Hc).
    injection Hcomp as _ <-. destruct st; reflexivity.
  - injection Hcomp as _ <-. destruct st; reflexivity.
Qed.

(** C1.  The prompt of a [/chat] request is to be the stored history of the
    resolved conversation, in ascending order of timestamps, followed by the
    user message of the request.  The code misses this at the request
    [{"uid": "u1", "message": "Hola", "conversation_id": {"$ne": ""}}] on the
    store of the two users.  The conversation that line 230 resolves is
    ["x"], which belongs to the caller, so the request goes on to line 244;
    the prompt handed to the completion client is not the stored history of
    ["x"] followed by ["Hola"]: the filter of lines 142-144 also matches the
    two messages of conversation ["xxxx"], which belongs to ["u2"], and
    they are part of the prompt. *)
Lemma prompt_con_operador_mezcla_conversaciones :
  exists conversacion prompt,
    chat_hasta_prompt (filtro_ne "") "u1" "Hola" Ejemplo.dos_usuarios
    = inr (conversacion, prompt)
    /\ conv_conversation_id conversacion = "x"
    /\ conv_uid conversacion = "u1"
    /\ prompt
       = [ mkEntrada user "Hello"; mkEntrada assistant "Hi";
           mkEntrada user "Secreto"; mkEntrada assistant "Hi";
           mkEntrada user "Hola" ]
    /\ historial_enviado "x" "Hola" Ejemplo.dos_usuarios
       = [ mkEntrada user "Hello"; mkEntrada assistant "Hi";
           mkEntrada user "Hola" ]
    /\ prompt <> historial_enviado "x" "Hola" Ejemplo.dos_usuarios
    /\ exists m,
        In m (mensajes Ejemplo.dos_usuarios)
        /\ msg_conversation_id m = "xxxx"
        /\ msg_uid m = "u2"
        /\ In (a_entrada m) prompt
        /\ ~ In (a_entrada m)
               (historial_enviado "x" "Hola" Ejemplo.dos_usuarios).
Proof.
  eexists. eexists. split; [vm_compute; reflexivity |].
  split; [reflexivity |]. split; [reflexivity |]. split; [reflexivity |].
  split; [reflexivity |]. split; [vm_compute; discriminate |].
  exists (mkMensaje "xxxxx" "xxxx" "u2" user "Secreto" 6).
  split; [vm_compute; tauto |]. split; [reflexivity |].
  split; [reflexivity |]. split; [vm_compute; tauto |].
  vm_compute. intros [H | [H | [H | []]]]; discriminate H.
Qed.

(** The body of that request is outside the model of [chat]: its
    [conversation_id] is truthy and not a string. *)
Lemma chat_operador_fuera_del_modelo :
  chat Ejemplo.uuid4 Ejemplo.now Ejemplo.claude
       (JObj [ ("uid", JStr "u1"); ("message", JStr "Hola");
               ("conversation_id", JObj [("$ne", JStr "")]) ])
       Ejemplo.dos_usuarios
  = None.
Proof. vm_compute. reflexivity. Qed.

(** C4 as stated fails: on the first turn of conversation ["x"] the count
    recomputed by [agregar_mensaje] is 2, and the value it returns is
    [None], not that count. *)
Lemma agregar_mensaje_retorna_none :
  let r := agregar_mensaje Ejemplo.uuid4 Ejemplo.now "x" "Hello" "Hi" "u1"
                           Ejemplo.con_x in
  (exists st', r = Retorna JNull st'
               /\ Mongo.count_documents "x" (mensajes st') = 2)
  /\ ~ (exists st', r = Retorna (JNum 2) st').
Proof.
  split.
  - eexists. split; reflexivity.
  - intros [st' H]. vm_compute in H. discriminate H.
Qed.

Lemma message_count_de_la_respuesta_witness :
  exists resp st',
    chat Ejemplo.uuid4 Ejemplo.now Ejemplo.claude
         (JObj (Ejemplo.campos "u1" "Hello")) Ejemplo.vacio = Some (resp, st')
    /\ status resp = 200
    /\ (forall cid mu rc uid st0 v st1,
           agregar_mensaje Ejemplo.uuid4 Ejemplo.now cid mu rc uid st0
           = Retorna v st1 -> v = JNull)
    /\ exists r c',
        cuerpo resp = Exito r
        /\ r_message_count r
           = Mongo.count_documents (r_conversation_id r) (mensajes st')
        /\ Mongo.find_one (r_conversation_id r) (conversaciones st') = Some c'
        /\ conv_message_count c' = r_message_count r.
Proof.
  eexists. eexists. split; [vm_compute; reflexivity |].
  split; [reflexivity |].
  apply (message_count_de_la_respuesta Ejemplo.uuid4 Ejemplo.now Ejemplo.claude
           (JObj (Ejemplo.campos "u1" "Hello")) Ejemplo.vacio);
    vm_compute; reflexivity.
Defined.

(** C6 as stated fails: a request whose [uid] is the empty string is not
    rejected; it is answered 200. *)
Lemma chat_uid_vacio_aceptado :
  dict_get "uid" (Ejemplo.campos "" "Hello") = Some (JStr "")
  /\ exists resp st',
      chat Ejemplo.uuid4 Ejemplo.now Ejemplo.claude
           (JObj (Ejemplo.campos "" "Hello")) Ejemplo.vacio = Some (resp, st')
      /\ status resp = 200
      /\ status resp <> 400.
Proof.
  split; [reflexivity |].
  eexists. eexists. split; [vm_compute; reflexivity |].
  split; [reflexivity | discriminate].
Qed.

(** A blank message is answered 400. *)
Lemma chat_400_sii_witness :
  claude_ok Ejemplo.vacio = true
  /\ db_ok Ejemplo.vacio = true
  /\ ((exists resp st',
          chat Ejemplo.uuid4 Ejemplo.now Ejemplo.claude
               (JObj (Ejemplo.campos "" "   ")) Ejemplo.vacio = Some (resp, st')
          /\ status resp = 400)
      <-> (dict_get "uid" (Ejemplo.campos "" "   ") = None
           \/ dict_get "message" (Ejemplo.campos "" "   ") = None
           \/ exists m, dict_get "message" (Ejemplo.campos "" "   ")
                        = Some (JStr m)
                        /\ PyStr.strip m = "")).
Proof.
  split; [reflexivity |]. split; [reflexivity |].
  apply (chat_400_sii Ejemplo.uuid4 Ejemplo.now Ejemplo.claude
           (Ejemplo.campos "" "   ") Ejemplo.vacio);
    reflexivity.
Defined.

(** C7 as stated fails: the request supplies a [conversation_id], the empty
    string, and the answer still has the flag [is_new_conversation] set. *)
Lemma chat_bandera_con_conversation_id_vacio :
  dict_get "conversation_id" (Ejemplo.campos_cid "u1" "Hello" "")
  = Some (JStr "")
  /\ exists resp st' r,
      chat Ejemplo.uuid4 Ejemplo.now Ejemplo.claude
           (JObj (Ejemplo.campos_cid "u1" "Hello" "")) Ejemplo.vacio
      = Some (resp, st')
      /\ cuerpo resp = Exito r
      /\ r_is_new_conversation r = true.
Proof.
  split; [reflexivity |].
  eexists. eexists. eexists. split; [vm_compute; reflexivity |].
  split; reflexivity.
Qed.

Lemma chat_sin_conversation_id_witness :
  truthy (get_conversation_id (Ejemplo.campos "u1" "Hello")) = false
  /\ exists resp st',
      chat Ejemplo.uuid4 Ejemplo.now Ejemplo.claude
           (JObj (Ejemplo.campos "u1" "Hello")) Ejemplo.con_x = Some (resp, st')
      /\ map conv_clave (conversaciones st')
         = map conv_clave (conversaciones Ejemplo.con_x)
           ++ [(Ejemplo.uuid4 (uuid_idx Ejemplo.con_x), "u1")]
      /\ (status resp = 200 ->
          exists r,
            cuerpo resp = Exito r
            /\ r_conversation_id r = Ejemplo.uuid4 (uuid_idx Ejemplo.con_x)
            /\ r_is_new_conversation r = true
            /\ forall kv2 resp2 st2,
                truthy (get_conversation_id kv2) = false ->
                chat Ejemplo.uuid4 Ejemplo.now Ejemplo.claude (JObj kv2) st'
                = Some (resp2, st2) ->
                status resp2 = 200 ->
                exists r2, cuerpo resp2 = Exito r2
                           /\ r_conversation_id r2 <> r_conversation_id r)
      /\ (forall kv0 st0 resp0 st0',
             chat Ejemplo.uuid4 Ejemplo.now Ejemplo.claude (JObj kv0) st0
             = Some (resp0, st0') ->
             status resp0 = 200 ->
             exists r0, cuerpo resp0 = Exito r0
                        /\ (r_is_new_conversation r0 = true
                            <-> truthy (get_conversation_id kv0) = false)).
Proof.
  split; [reflexivity |].
  apply (chat_sin_conversation_id Ejemplo.uuid4 Ejemplo.now Ejemplo.claude
           (Ejemplo.campos "u1" "Hello") "u1" "Hello" Ejemplo.con_x
           ejemplo_uuid4_inyectiva);
    try reflexivity.
  vm_compute. discriminate.
Defined.

(** C8 as stated fails: the request supplies a [conversation_id], the empty
    string, for which no conversation is stored; the answer is 200, not 404,
    and a conversation and two messages have been written. *)
Lemma chat_conversation_id_vacio_no_es_404 :
  dict_get "conversation_id" (Ejemplo.campos_cid "u1" "Hello" "")
  = Some (JStr "")
  /\ Mongo.find_one "" (conversaciones Ejemplo.vacio) = None
  /\ exists resp st',
      chat Ejemplo.uuid4 Ejemplo.now Ejemplo.claude
           (JObj (Ejemplo.campos_cid "u1" "Hello" "")) Ejemplo.vacio
      = Some (resp, st')
      /\ status resp = 200
      /\ status resp <> 404
      /\ length (conversaciones st') = 1
      /\ length (mensajes st') = 2.
Proof.
  split; [reflexivity |]. split; [reflexivity |].
  eexists. eexists. split; [vm_compute; reflexivity |].
  split; [reflexivity |]. split; [discriminate |]. split; reflexivity.
Qed.

(** Conversation ["y"] is not stored: 404.  Conversation ["x"] belongs to
    ["u1"], the caller is ["u2"]: 403.  The state is untouched. *)
Lemma chat_404_403_sin_escrituras_witness :
  chat Ejemplo.uuid4 Ejemplo.now Ejemplo.claude
       (JObj (Ejemplo.campos_cid "u2" "Hello" "y")) Ejemplo.con_x
  = Some (fallo 404 ErrConversacionNoEncontrada, Ejemplo.con_x)
  /\ chat Ejemplo.uuid4 Ejemplo.now Ejemplo.claude
          (JObj (Ejemplo.campos_cid "u2" "Hello" "x")) Ejemplo.con_x
     = Some (fallo 403 ErrSinAcceso, Ejemplo.con_x).
Proof.
  assert (Hb : PyStr.strip "Hello" <> "") by (vm_compute; discriminate).
  split.
  - apply (proj1 (chat_404_403_sin_escrituras
                    Ejemplo.uuid4 Ejemplo.now Ejemplo.claude
                    (Ejemplo.campos_cid "u2" "Hello" "y") (JStr "u2")
                    "Hello" "y" Ejemplo.con_x
                    eq_refl eq_refl eq_refl eq_refl eq_refl Hb eq_refl
                    ltac:(discriminate))).
    reflexivity.
  - apply (proj2 (chat_404_403_sin_escrituras
                    Ejemplo.uuid4 Ejemplo.now Ejemplo.claude
                    (Ejemplo.campos_cid "u2" "Hello" "x") (JStr "u2")
                    "Hello" "x" Ejemplo.con_x
                    eq_refl eq_refl eq_refl eq_refl eq_refl Hb eq_refl
                    ltac:(discriminate))
             Ejemplo.conv_x).
    + reflexivity.
    + discriminate.
Defined.

(** An empty [conversation_id] while a conversation ["x"] is stored: the
    request is answered 200 with the new identifier ["xx"] and the flag set,
    the collection holds both conversations, and the answer and the state
    are those of the request without the key. *)
Lemma conversation_id_falsy_como_ausente_witness :
  exists resp st',
    chat Ejemplo.uuid4 Ejemplo.now Ejemplo.claude
         (JObj (Ejemplo.campos_cid "u1" "Hello" "")) Ejemplo.con_x
    = Some (resp, st')
    /\ chat Ejemplo.uuid4 Ejemplo.now Ejemplo.claude
            (JObj (Ejemplo.campos "u1" "Hello")) Ejemplo.con_x
       = Some (resp, st')
    /\ map conv_clave (conversaciones st') = [("x", "u1"); ("xx", "u1")]
    /\ enviados st' = [[mkEntrada user "Hello"]]
    /\ status resp = 200
    /\ exists r,
        cuerpo resp = Exito r
        /\ r_conversation_id r = "xx"
        /\ r_is_new_conversation r = true
        /\ r_message_count r = 2.
Proof.
  destruct (conversation_id_falsy_como_ausente
              Ejemplo.uuid4 Ejemplo.now Ejemplo.claude
              (Ejemplo.campos_cid "u1" "Hello" "") (JStr "") "u1" "Hello"
              Ejemplo.con_x
              eq_refl eq_refl eq_refl eq_refl eq_refl
              ltac:(vm_compute; discriminate) eq_refl eq_refl)
    as (resp & st' & H1 & H2 & H3 & H4 & _ & _ & r & Hr & Hid & Hflag & _ & _
        & Hn).
  exists resp, st'. split; [exact H1 |]. split; [exact H2 |].
  split; [exact H3 |]. split; [exact H4 |].
  split; [rewrite Hr; reflexivity |].
  exists r. split; [rewrite Hr; reflexivity |].
  split; [exact Hid |]. split; [exact Hflag |].
  rewrite Hn. vm_compute in H1.
  injection H1 as _ <-. reflexivity.
Defined.

(** * Further properties of the handlers *)

Section Efectos.

Variable uuid4 : nat -> string.
Variable now : nat -> Z.
Variable claude : nat -> list Entrada -> option string.

Ltac sale_sin_cambios H :=
  injection H as <- <-; left; split; [reflexivity | simpl; tauto].

(** Everything a call of [chat] can do to the state: nothing (with an error
    answer), or resolve the conversation, send the prompt and then either
    fail (500) or store the turn (200). *)
Lemma chat_efecto (data : json) (st : Estado) (resp : Respuesta)
      (st' : Estado) :
  chat uuid4 now claude data st = Some (resp, st') ->
  (st' = st
   /\ (status resp = 400 \/ status resp = 403 \/ status resp = 404
       \/ status resp = 500))
  \/ exists u cid st1 mensaje,
      (crear_conversacion uuid4 now u st = Retorna cid st1
       \/ (st1 = st
           /\ exists c, Mongo.find_one cid (conversaciones st) = Some c
                        /\ conv_uid c = u))
      /\ colecciones_ok st1 = true
      /\ (exists kv, data = JObj kv
                     /\ dict_get "message" kv = Some (JStr mensaje))
      /\ let st2 :=
           set_enviados (enviados st1 ++ [historial_enviado cid mensaje st1])
                        st1 in
         (st' = st2 /\ status resp = 500
          /\ claude (length (enviados st1)) (historial_enviado cid mensaje st1)
             = None)
         \/ exists respuesta st3,
             claude (length (enviados st1)) (historial_enviado cid mensaje st1)
             = Some respuesta
             /\ agregar_mensaje uuid4 now cid mensaje respuesta u st2
                = Retorna JNull st3
             /\ st' = set_reloj_idx (S (reloj_idx st3)) st3
             /\ status resp = 200.
Proof.
  intros H.
  destruct (claude_ok st) eqn:Hcl;
    [| unfold chat in H; rewrite Hcl in H; sale_sin_cambios H].
  destruct (db_ok st) eqn:Hdb;
    [| unfold chat in H; rewrite Hcl, Hdb in H; sale_sin_cambios H].
  destruct data as [| b | z | s | l | kv].
  1-5: unfold chat in H; rewrite Hcl, Hdb in H; cbn [negb] in H.
  - sale_sin_cambios H.
  - destruct (negb (truthy (JBool b))); sale_sin_cambios H.
  - destruct (negb (truthy (JNum z))); sale_sin_cambios H.
  - destruct (negb (truthy (JStr s))); [sale_sin_cambios H |].
    destruct (validar_campos _ _); sale_sin_cambios H.
  - destruct (negb (truthy (JArr l))); [sale_sin_cambios H |].
    destruct (validar_campos _ _); sale_sin_cambios H.
  - rewrite chat_dict in H by assumption.
    destruct (dict_get "uid" kv) as [uid|] eqn:Hu; [| sale_sin_cambios H].
    destruct (dict_get "message" kv) as [m|] eqn:Hm; [| sale_sin_cambios H].
    destruct m as [| | | mensaje | |]; try sale_sin_cambios H.
    destruct (PyStr.strip mensaje =? ""); [sale_sin_cambios H |].
    assert (Hcomp : forall d u cid st1,
               (crear_conversacion uuid4 now u st = Retorna cid st1
                \/ (st1 = st
                    /\ exists c, Mongo.find_one cid (conversaciones st) = Some c
                                 /\ conv_uid c = u)) ->
               colecciones_ok st1 = true ->
               Some (completar uuid4 now claude d cid mensaje u st1)
               = Some (resp, st') ->
               exists u cid st1 mensaje,
                 (crear_conversacion uuid4 now u st = Retorna cid st1
                  \/ (st1 = st
                      /\ exists c, Mongo.find_one cid (conversaciones st) = Some c
                                   /\ conv_uid c = u))
                 /\ colecciones_ok st1 = true
                 /\ (exists kv0, JObj kv = JObj kv0
                                 /\ dict_get "message" kv0 = Some (JStr mensaje))
                 /\ let st2 :=
                      set_enviados
                        (enviados st1 ++ [historial_enviado cid mensaje st1])
                        st1 in
                    (st' = st2 /\ status resp = 500
                     /\ claude (length (enviados st1))
                               (historial_enviado cid mensaje st1) = None)
                    \/ exists respuesta st3,
                        claude (length (enviados st1))
                               (historial_enviado cid mensaje st1)
                        = Some respuesta
                        /\ agregar_mensaje uuid4 now cid mensaje respuesta u st2
                           = Retorna JNull st3
                        /\ st' = set_reloj_idx (S (reloj_idx st3)) st3
                        /\ status resp = 200).
    { intros d u cid st1 Hres Hc1 Hc.
      exists u, cid, st1, mensaje. split; [exact Hres |].
      split; [exact Hc1 |]. split; [now exists kv |].
      unfold completar in Hc. cbv zeta.
      destruct (claude (length (enviados st1))
                       (historial_enviado cid mensaje st1)) as [respuesta|].
      - right. exists respuesta.
        rewrite (agregar_mensaje_estado uuid4 now) in Hc by exact Hc1.
        rewrite (agregar_mensaje_estado uuid4 now) by exact Hc1.
        eexists. split; [reflexivity |]. split; [reflexivity |].
        injection Hc as <- <-. split; reflexivity.
      - left. injection Hc as <- <-. repeat split. }
    unfold resolver in H.
    destruct (truthy (get_conversation_id kv)); cbn [negb] in H.
    + destruct (get_conversation_id kv) as [| | | cid | |];
        try discriminate H.
      destruct (colecciones_ok st) eqn:Hc; cbn [negb] in H;
        [| sale_sin_cambios H].
      destruct (Mongo.find_one cid (conversaciones st)) as [c|] eqn:Hf;
        [| sale_sin_cambios H].
      destruct uid as [| | | u | |]; try sale_sin_cambios H.
      destruct (conv_uid c =? u) eqn:Hcu; cbn [negb] in H;
        [| sale_sin_cambios H].
      apply String.eqb_eq in Hcu. right.
      apply (Hcomp (JStr cid) u cid st); [| exact Hc | exact H].
      right. split; [reflexivity |]. now exists c.
    + destruct uid as [| | | u | |]; try discriminate H.
      destruct (crear_conversacion uuid4 now u st) as [cid st1|st1] eqn:Hcr.
      2:{ unfold crear_conversacion in Hcr.
          destruct (negb (colecciones_ok st)); [| discriminate Hcr].
          injection Hcr as <-. sale_sin_cambios H. }
      right.
      apply (Hcomp (get_conversation_id kv) u cid st1);
        [now left | | exact H].
      apply crear_conversacion_retorna in Hcr.
      destruct Hcr as (_ & _ & ->). reflexivity.
Qed.

Lemma update_one_proj {B : Type} (g : Conversacion -> B) (cid : string)
      (f : Conversacion -> Conversacion) (l : list Conversacion) :
  (forall c, g (f c) = g c) ->
  map g (Mongo.update_one cid f l) = map g l.
Proof.
  intros Hf. induction l as [|c r IH]; simpl; [reflexivity |].
  destruct (conv_conversation_id c =? cid); simpl;
    [now rewrite Hf | now rewrite IH].
Qed.

(** X1.  [chat] answers with one of the codes 200, 400, 403, 404, 500.  An
    answer 400, 403 or 404 leaves the whole state as it was, and no request
    calls the completion client more than once. *)
Theorem chat_codigos (data : json) (st : Estado) (resp : Respuesta)
        (st' : Estado) :
  chat uuid4 now claude data st = Some (resp, st') ->
  (status resp = 200 \/ status resp = 400 \/ status resp = 403
   \/ status resp = 404 \/ status resp = 500)
  /\ (status resp = 400 \/ status resp = 403 \/ status resp = 404 ->
      st' = st)
  /\ (enviados st' = enviados st
      \/ exists p, enviados st' = enviados st ++ [p])
  /\ (status resp = 200 -> exists p, enviados st' = enviados st ++ [p]).
Proof.
  intros H.
  destruct (chat_efecto _ _ _ _ H)
    as [[-> Hs] | (u & cid & st1 & mensaje & Hres & Hc1 & _ & Hfin)].
  - split; [tauto |]. split; [reflexivity |]. split; [now left |].
    intros H2. rewrite H2 in Hs.
    destruct Hs as [Hs | [Hs | [Hs | Hs]]]; discriminate Hs.
  - assert (He : enviados st1 = enviados st).
    { destruct Hres as [Hcr | [-> _]]; [| reflexivity].
      apply crear_conversacion_retorna in Hcr.
      destruct Hcr as (_ & _ & ->). reflexivity. }
    cbv zeta in Hfin.
    assert (Hp : exists p, enviados st' = enviados st ++ [p]
                           /\ (status resp = 500 \/ status resp = 200)).
    { destruct Hfin as [(-> & Hs & _) | (respuesta & st3 & _ & Hag & -> & Hs)].
      - eexists. cbn [set_enviados enviados]. rewrite He.
        split; [reflexivity | now left].
      - rewrite (agregar_mensaje_estado uuid4 now) in Hag by exact Hc1.
        injection Hag as <-. eexists. cbn [set_reloj_idx enviados set_enviados].
        rewrite He. split; [reflexivity | now right]. }
    destruct Hp as (p & Hp & Hs).
    split; [tauto |]. split.
    + intros H4. exfalso.
      destruct Hs as [Hs | Hs]; rewrite Hs in H4;
        destruct H4 as [H4 | [H4 | H4]]; discriminate H4.
    + split; [right; now exists p | intros _; now exists p].
Qed.

(** X2.  A request body that is not a JSON object never gets further than
    validation: the answer is 400 or 500 and the state is untouched. *)
Theorem chat_cuerpo_no_objeto (data : json) (st : Estado) :
  (forall kv, data <> JObj kv) ->
  exists resp,
    chat uuid4 now claude data st = Some (resp, st)
    /\ (status resp = 400 \/ status resp = 500).
Proof.
  intros Hno. unfold chat.
  destruct (negb (claude_ok st)); [eexists; split; [reflexivity | now right] |].
  destruct (negb (db_ok st)); [eexists; split; [reflexivity | now right] |].
  destruct (negb (truthy data)); [eexists; split; [reflexivity | now left] |].
  destruct (validar_campos _ data);
    try (eexists; split; [reflexivity | simpl; tauto]).
  destruct data; try (eexists; split; [reflexivity | simpl; tauto]).
  exfalso. now apply (Hno kv).
Qed.

(** X3.  A [message] that is present but is not a string (a number, a list,
    [null], ...) is not a validation error: [mensaje.strip()] raises and the
    answer is 500, with the state untouched. *)
Theorem chat_mensaje_no_texto (kv : list (string * json)) (uid m : json)
        (st : Estado) :
  claude_ok st = true -> db_ok st = true ->
  dict_get "uid" kv = Some uid ->
  dict_get "message" kv = Some m ->
  (forall s, m <> JStr s) ->
  chat uuid4 now claude (JObj kv) st = Some (fallo 500 ErrExcepcion, st).
Proof.
  intros Hcl Hdb Hu Hm Hno. rewrite chat_dict by assumption. rewrite Hu, Hm.
  destruct m; try reflexivity. exfalso. now apply (Hno s).
Qed.

(** X4.  When the completion call of a request fails, the answer is not a
    success, no message is stored and no stored conversation is touched; the
    only things that stay are the prompt that was sent and, if the request
    had created a conversation, that conversation, empty. *)
Theorem chat_completion_falla (data : json) (st : Estado) (resp : Respuesta)
        (st' : Estado) :
  (forall p, claude (length (enviados st)) p = None) ->
  chat uuid4 now claude data st = Some (resp, st') ->
  status resp <> 200
  /\ mensajes st' = mensajes st
  /\ (conversaciones st' = conversaciones st
      \/ exists u,
          conversaciones st'
          = conversaciones st
            ++ [mkConversacion (uuid4 (uuid_idx st)) u (now (reloj_idx st))
                               (now (S (reloj_idx st))) 0 titulo_inicial
                               "active"]).
Proof.
  intros Hfalla H.
  destruct (chat_efecto _ _ _ _ H)
    as [[-> Hs] | (u & cid & st1 & mensaje & Hres & Hc1 & _ & Hfin)].
  - split; [| split; [reflexivity | now left]].
    intros H2. rewrite H2 in Hs.
    destruct Hs as [Hs | [Hs | [Hs | Hs]]]; discriminate Hs.
  - assert (He : enviados st1 = enviados st
                 /\ mensajes st1 = mensajes st
                 /\ (conversaciones st1 = conversaciones st
                     \/ conversaciones st1
                        = conversaciones st
                          ++ [mkConversacion (uuid4 (uuid_idx st)) u
                                (now (reloj_idx st)) (now (S (reloj_idx st)))
                                0 titulo_inicial "active"])).
    { destruct Hres as [Hcr | [-> _]]; [| repeat split; now left].
      apply crear_conversacion_retorna in Hcr.
      destruct Hcr as (_ & -> & ->). repeat split. now right. }
    destruct He as (He & Hm & Hcv). cbv zeta in Hfin.
    destruct Hfin as [(-> & Hs & _) | (respuesta & st3 & Hcl & _)].
    + split; [rewrite Hs; discriminate |].
      cbn [set_enviados mensajes conversaciones]. split; [exact Hm |].
      destruct Hcv as [-> | ->]; [now left | right; now exists u].
    + rewrite He, Hfalla in Hcl. discriminate Hcl.
Qed.

(** X5.  [chat] only ever appends: the stored messages stay, in place and
    unchanged, followed by nothing or (on success) by two new ones; every
    stored conversation keeps its identifier, owner, creation time and
    status, and at most one conversation is added; the configuration is not
    touched. *)
Theorem chat_solo_agrega (data : json) (st : Estado) (resp : Respuesta)
        (st' : Estado) :
  chat uuid4 now claude data st = Some (resp, st') ->
  (exists nuevos,
      mensajes st' = mensajes st ++ nuevos
      /\ (nuevos = [] \/ (status resp = 200 /\ length nuevos = 2)))
  /\ (exists nuevas,
         map conv_fijo (conversaciones st')
         = map conv_fijo (conversaciones st) ++ nuevas
         /\ length nuevas <= 1)
  /\ claude_ok st' = claude_ok st
  /\ db_ok st' = db_ok st
  /\ colecciones_ok st' = colecciones_ok st.
Proof.
  intros H.
  destruct (chat_efecto _ _ _ _ H)
    as [[-> Hs] | (u & cid & st1 & mensaje & Hres & Hc1 & _ & Hfin)].
  - split; [exists []; rewrite app_nil_r; split; [reflexivity | now left] |].
    split; [exists []; rewrite app_nil_r; split; [reflexivity | simpl; lia] |].
    repeat split.
  - assert (H1 : mensajes st1 = mensajes st
                 /\ (exists nuevas,
                        map conv_fijo (conversaciones st1)
                        = map conv_fijo (conversaciones st) ++ nuevas
                        /\ length nuevas <= 1)
                 /\ claude_ok st1 = claude_ok st
                 /\ db_ok st1 = db_ok st
                 /\ colecciones_ok st1 = colecciones_ok st).
    { destruct Hres as [Hcr | [-> _]].
      - apply crear_conversacion_retorna in Hcr.
        destruct Hcr as (Hc & _ & ->). cbn [mensajes conversaciones claude_ok
          db_ok colecciones_ok]. split; [reflexivity |]. split.
        + eexists. rewrite map_app. split; [reflexivity | simpl; lia].
        + now rewrite Hc.
      - split; [reflexivity |]. split; [| repeat split].
        exists []. rewrite app_nil_r. split; [reflexivity | simpl; lia]. }
    destruct H1 as (Hm & Hcv & Ha & Hb & Hc). cbv zeta in Hfin.
    destruct Hfin as [(-> & Hs & _) | (respuesta & st3 & _ & Hag & -> & Hs)].
    + cbn [set_enviados mensajes conversaciones claude_ok db_ok colecciones_ok].
      split; [exists []; rewrite app_nil_r; split; [exact Hm | now left] |].
      split; [exact Hcv |]. now repeat split.
    + rewrite (agregar_mensaje_estado uuid4 now) in Hag by exact Hc1.
      injection Hag as <-.
      cbn [set_reloj_idx set_enviados mensajes conversaciones claude_ok db_ok
           colecciones_ok].
      split.
      * eexists. rewrite Hm. split; [reflexivity |]. right. now split.
      * split; [| now repeat split].
        rewrite update_one_proj by reflexivity. exact Hcv.
Qed.

Lemma slice_to_append (n : nat) (a b : string) :
  n <= String.length a ->
  PyStr.slice_to n (String.append a b) = PyStr.slice_to n a.
Proof.
  revert a. induction n as [|n IH]; intros a Hn; [reflexivity |].
  destruct a as [|c r]; simpl in *; [lia |]. rewrite IH by lia. reflexivity.
Qed.

Lemma slice_to_slice_to (n : nat) (s : string) :
  PyStr.slice_to n (PyStr.slice_to n s) = PyStr.slice_to n s.
Proof.
  revert s. induction n as [|n IH]; intros s; [reflexivity |].
  destruct s as [|c r]; simpl; [reflexivity | now rewrite IH].
Qed.

(** X6.  The title derived from a user text never has more than 53
    characters, and its first 50 characters are those of the text. *)
Theorem titulo_acotado (mensaje_usuario : string) :
  String.length (titulo mensaje_usuario) <= 53
  /\ PyStr.slice_to 50 (titulo mensaje_usuario)
     = PyStr.slice_to 50 mensaje_usuario.
Proof.
  unfold titulo.
  destruct (50 <? String.length mensaje_usuario)%nat eqn:E.
  - apply Nat.ltb_lt in E. split.
    + rewrite length_append, length_slice_to by lia. simpl. lia.
    + rewrite slice_to_append by (rewrite length_slice_to; lia).
      apply slice_to_slice_to.
  - apply Nat.ltb_ge in E. split; [lia | reflexivity].
Qed.

End Efectos.

(** ** The conversation routes *)

Lemma insert_updated_perm (c : Conversacion) (l : list Conversacion) :
  Permutation (c :: l) (MongoConv.insert_updated c l).
Proof.
  induction l as [|x r IH]; simpl.
  - apply Permutation_refl.
  - destruct (conv_updated_at x <=? conv_updated_at c)%Z.
    + apply Permutation_refl.
    + eapply perm_trans; [apply perm_swap | apply perm_skip, IH].
Qed.

Lemma sort_updated_perm (l : list Conversacion) :
  Permutation l (MongoConv.sort_updated l).
Proof.
  induction l as [|c r IH]; simpl.
  - apply perm_nil.
  - eapply perm_trans; [apply perm_skip, IH | apply insert_updated_perm].
Qed.

Lemma insert_updated_sorted (c : Conversacion) (l : list Conversacion) :
  Sorted updated_ge l -> Sorted updated_ge (MongoConv.insert_updated c l).
Proof.
  induction 1 as [|x r Hr IH Hx]; simpl.
  - repeat constructor.
  - destruct (conv_updated_at x <=? conv_updated_at c)%Z eqn:E.
    + constructor; [now constructor |].
      constructor. apply Z.leb_le in E. exact E.
    + constructor; [exact IH |].
      apply Z.leb_gt in E.
      destruct r as [|y r']; simpl.
      * constructor. unfold updated_ge. lia.
      * destruct (conv_updated_at y <=? conv_updated_at c)%Z.
        -- constructor. unfold updated_ge. lia.
        -- constructor. now inversion Hx.
Qed.

Lemma sort_updated_sorted (l : list Conversacion) :
  Sorted updated_ge (MongoConv.sort_updated l).
Proof.
  induction l as [|c r IH]; simpl.
  - constructor.
  - now apply insert_updated_sorted.
Qed.

(** X7.  With the collections set and a non-empty [uid], [GET /conversations]
    answers 200 with exactly the stored conversations of that owner (each of
    them once, none of anybody else), latest update first, and [total] is
    their number. *)
Theorem get_conversations_del_usuario (u : string) (st : Estado) :
  colecciones_ok st = true ->
  u <> "" ->
  exists convs,
    get_conversations (Some u) st = (200, ListaExito u convs (length convs))
    /\ Permutation convs (MongoConv.find u (conversaciones st))
    /\ Sorted updated_ge convs
    /\ (forall c, In c convs <-> In c (conversaciones st) /\ conv_uid c = u).
Proof.
  intros Hc Hu. unfold get_conversations. rewrite Hc. cbn [negb].
  apply String.eqb_neq in Hu. rewrite Hu.
  eexists. split; [reflexivity |].
  assert (Hp : Permutation
                 (MongoConv.sort_updated (MongoConv.find u (conversaciones st)))
                 (MongoConv.find u (conversaciones st)))
    by apply Permutation_sym, sort_updated_perm.
  split; [exact Hp |]. split; [apply sort_updated_sorted |].
  intros c. split.
  - intros Hin. apply (Permutation_in _ Hp) in Hin.
    unfold MongoConv.find in Hin. apply filter_In in Hin.
    destruct Hin as [Hin E]. apply String.eqb_eq in E. now split.
  - intros [Hin E]. apply (Permutation_in _ (Permutation_sym Hp)).
    unfold MongoConv.find. apply filter_In. split; [exact Hin |].
    now apply String.eqb_eq.
Qed.

(** X8.  With the collections set and a non-empty [uid],
    [GET /conversations/<id>] answers 404 exactly when no conversation with
    that identifier is stored, 403 exactly when the stored one has another
    owner, and 200 otherwise; a 200 answer carries the stored conversation
    and all its messages in ascending order of timestamps, which are the
    very messages [chat] would send as history. *)
Theorem get_conversation_acceso (cid u : string) (st : Estado) :
  colecciones_ok st = true ->
  u <> "" ->
  let r := get_conversation cid (Some u) st in
  (fst r = 404 <-> Mongo.find_one cid (conversaciones st) = None)
  /\ (fst r = 403 <->
      exists c, Mongo.find_one cid (conversaciones st) = Some c
                /\ conv_uid c <> u)
  /\ (fst r = 200 <->
      exists c, Mongo.find_one cid (conversaciones st) = Some c
                /\ conv_uid c = u)
  /\ (fst r = 200 \/ fst r = 403 \/ fst r = 404)
  /\ forall c ms,
      snd r = DetalleExito c ms ->
      Mongo.find_one cid (conversaciones st) = Some c
      /\ Permutation ms (Mongo.find cid (mensajes st))
      /\ Sorted ts_le ms
      /\ map a_entrada ms = obtener_historial_conversacion cid st.
Proof.
  intros Hc Hu r. subst r. unfold get_conversation. rewrite Hc. cbn [negb].
  apply String.eqb_neq in Hu. rewrite Hu.
  destruct (Mongo.find_one cid (conversaciones st)) as [c|] eqn:Hf.
  - destruct (conv_uid c =? u) eqn:E; cbn [negb fst snd].
    + apply String.eqb_eq in E.
      split; [split; discriminate |]. split.
      { split; [discriminate |]. intros (c' & Hc' & Hne).
        injection Hc' as <-. contradiction. }
      split; [split; [intros _; now exists c | reflexivity] |].
      split; [now left |].
      intros c' ms Hb. injection Hb as <- <-. split; [reflexivity |].
      split; [apply Permutation_sym, sort_ts_perm |].
      split; [apply sort_ts_sorted |].
      unfold obtener_historial_conversacion. now rewrite Hc.
    + apply String.eqb_neq in E.
      split; [split; discriminate |]. split.
      { split; [intros _; now exists c | reflexivity]. }
      split.
      { split; [discriminate |]. intros (c' & Hc' & He).
        injection Hc' as <-. contradiction. }
      split; [right; now left |]. intros c' ms Hb. discriminate Hb.
  - cbn [fst snd]. split; [split; reflexivity |].
    split; [split; [discriminate | intros (c & Hc' & _); discriminate] |].
    split; [split; [discriminate | intros (c & Hc' & _); discriminate] |].
    split; [right; now right |]. intros c ms Hb. discriminate Hb.
Qed.

Lemma find_one_app (cid : string) (l1 l2 : list Conversacion) :
  Mongo.find_one cid (l1 ++ l2)
  = match Mongo.find_one cid l1 with
    | Some c => Some c
    | None => Mongo.find_one cid l2
    end.
Proof.
  induction l1 as [|x r IH]; simpl; [reflexivity |].
  destruct (conv_conversation_id x =? cid); [reflexivity | exact IH].
Qed.

Lemma find_one_in (cid : string) (l : list Conversacion) (c : Conversacion) :
  Mongo.find_one cid l = Some c -> In c l /\ conv_conversation_id c = cid.
Proof.
  induction l as [|x r IH]; simpl; [discriminate |].
  destruct (conv_conversation_id x =? cid) eqn:E.
  - intros H. injection H as <-. apply String.eqb_eq in E. split; [now left | exact E].
  - intros H. destruct (IH H) as [Hin Hid]. split; [now right | exact Hid].
Qed.

Section Rutas.

Variable uuid4 : nat -> string.
Variable now : nat -> Z.
Variable claude : nat -> list Entrada -> option string.

(** X9.  With the collections set, [POST /conversations/new] with a string
    [uid] answers 200 with the identifier just drawn and appends one
    conversation for that owner with no messages counted, the default title
    and status [active]; messages are untouched.  The conversation shown in
    the answer is the first stored one with that identifier: the new one
    when the identifier was not in use, the older one otherwise. *)
Theorem new_conversation_crea (kv : list (string * json)) (u : string)
        (st : Estado) :
  colecciones_ok st = true ->
  dict_get "uid" kv = Some (JStr u) ->
  let cid := uuid4 (uuid_idx st) in
  let doc := mkConversacion cid u (now (reloj_idx st)) (now (S (reloj_idx st)))
                            0 titulo_inicial "active" in
  exists c st1,
    new_conversation uuid4 now (JObj kv) st
    = Some (Responde 200 (NuevaExito cid (Some c)), st1)
    /\ conversaciones st1 = conversaciones st ++ [doc]
    /\ mensajes st1 = mensajes st
    /\ enviados st1 = enviados st
    /\ (Mongo.find_one cid (conversaciones st) = None -> c = doc)
    /\ (forall c0, Mongo.find_one cid (conversaciones st) = Some c0 -> c = c0).
Proof.
  intros Hc Hu cid doc. unfold new_conversation. rewrite Hc. cbn [negb].
  destruct kv as [|p kv']; [discriminate Hu |].
  cbn [truthy negb py_in]. rewrite Hu.
  unfold crear_conversacion. rewrite Hc. cbn [negb].
  cbn [set_conversaciones set_reloj_idx set_uuid_idx conversaciones mensajes
       enviados uuid_idx reloj_idx claude_ok db_ok colecciones_ok].
  fold cid. fold doc. rewrite find_one_app.
  destruct (Mongo.find_one cid (conversaciones st)) as [c0|] eqn:Hf.
  - exists c0. eexists. split; [reflexivity |]. repeat split.
    + discriminate.
    + intros c1 H1. now injection H1.
  - exists doc. eexists. split.
    + cbn [Mongo.find_one]. subst doc. cbn [conv_conversation_id].
      rewrite String.eqb_refl. reflexivity.
    + repeat split. intros c0 H0. discriminate H0.
Qed.

(** X10.  A body of [POST /conversations/new] that is not a JSON object
    creates nothing.  The membership test stands before the [try] there: for
    a body that is [true] or a non-zero number the exception leaves the view
    function, whereas [chat] catches the same exception and answers 500. *)
Theorem new_conversation_cuerpo_no_objeto (data : json) (st : Estado) :
  (forall kv, data <> JObj kv) ->
  (exists v, new_conversation uuid4 now data st = Some (v, st)
             /\ forall cid c, v <> Responde 200 (NuevaExito cid c))
  /\ (colecciones_ok st = true -> truthy data = true ->
      py_in "uid" data = None ->
      new_conversation uuid4 now data st = Some (Escapa, st)
      /\ (claude_ok st = true -> db_ok st = true ->
          chat uuid4 now claude data st = Some (fallo 500 ErrExcepcion, st))).
Proof.
  intros Hno. split.
  - unfold new_conversation.
    destruct (negb (colecciones_ok st));
      [eexists; split; [reflexivity | discriminate] |].
    destruct (negb (truthy data));
      [eexists; split; [reflexivity | discriminate] |].
    destruct (py_in "uid" data) as [[|]|];
      try (eexists; split; [reflexivity | discriminate]).
    destruct data; try (eexists; split; [reflexivity | discriminate]).
    exfalso. now apply (Hno kv).
  - intros Hc Ht Hin. split.
    + unfold new_conversation. now rewrite Hc, Ht, Hin.
    + intros Hcl Hdb. unfold chat. rewrite Hcl, Hdb, Ht. cbn [negb].
      cbn [validar_campos]. now rewrite Hin.
Qed.

(** X11.  A conversation of the empty [uid] can be created but not read:
    [POST /conversations/new] accepts [uid = ""], while both reading routes
    answer 400 to the empty [uid], and any other caller is refused (403)
    when the identifier was fresh. *)
Theorem uid_vacio_no_se_lee (kv : list (string * json)) (st : Estado) :
  colecciones_ok st = true ->
  dict_get "uid" kv = Some (JStr "") ->
  exists cid c st1,
    new_conversation uuid4 now (JObj kv) st
    = Some (Responde 200 (NuevaExito cid c), st1)
    /\ fst (get_conversations (Some "") st1) = 400
    /\ fst (get_conversation cid (Some "") st1) = 400
    /\ (forall u, u <> "" ->
                  Mongo.find_one cid (conversaciones st) = None ->
                  fst (get_conversation cid (Some u) st1) = 403).
Proof.
  intros Hc Hu. unfold new_conversation. rewrite Hc. cbn [negb].
  destruct kv as [|p kv']; [discriminate Hu |].
  cbn [truthy negb py_in]. rewrite Hu.
  unfold crear_conversacion. rewrite Hc. cbn [negb].
  eexists. eexists. eexists. split; [reflexivity |].
  unfold get_conversations, get_conversation.
  cbn [set_conversaciones set_reloj_idx set_uuid_idx colecciones_ok
       conversaciones]. rewrite Hc. cbn [negb fst].
  split; [reflexivity |]. split; [reflexivity |].
  intros u Hne Hf. apply String.eqb_neq in Hne. rewrite Hne.
  rewrite find_one_app, Hf. cbn [Mongo.find_one conv_conversation_id].
  rewrite String.eqb_refl. cbn [conv_uid].
  rewrite String.eqb_sym in Hne. rewrite Hne. reflexivity.
Qed.

Lemma completar_codigos (dcid : json) (cid mensaje u : string) (st : Estado) :
  status (fst (completar uuid4 now claude dcid cid mensaje u st)) = 200
  \/ status (fst (completar uuid4 now claude dcid cid mensaje u st)) = 500.
Proof.
  unfold completar.
  destruct (claude _ _); [| now right].
  destruct (agregar_mensaje _ _ _ _ _ _ _); [now left | now right].
Qed.

(** X12.  Writing and reading apply the same access rule: for a valid
    request that names a non-empty [conversation_id] with a non-empty string
    [uid], [chat] answers 404 exactly when [GET /conversations/<id>] does,
    and 403 exactly when it does. *)
Theorem chat_y_get_conversation_acceso (kv : list (string * json))
        (u mensaje cid : string) (st : Estado) (resp : Respuesta)
        (st' : Estado) :
  claude_ok st = true -> db_ok st = true -> colecciones_ok st = true ->
  dict_get "uid" kv = Some (JStr u) -> u <> "" ->
  dict_get "message" kv = Some (JStr mensaje) ->
  PyStr.strip mensaje <> "" ->
  dict_get "conversation_id" kv = Some (JStr cid) -> cid <> "" ->
  chat uuid4 now claude (JObj kv) st = Some (resp, st') ->
  (status resp = 404 <-> fst (get_conversation cid (Some u) st) = 404)
  /\ (status resp = 403 <-> fst (get_conversation cid (Some u) st) = 403).
Proof.
  intros Hcl Hdb Hc Hu Hune Hm Hb Hcid Hne H.
  rewrite chat_dict in H by assumption. rewrite Hu, Hm in H.
  apply String.eqb_neq in Hb. rewrite Hb in H.
  unfold resolver, get_conversation_id in H. rewrite Hcid in H.
  cbn [truthy] in H. apply String.eqb_neq in Hne. rewrite Hne, Hc in H.
  cbn [negb] in H.
  unfold get_conversation. rewrite Hc. cbn [negb].
  apply String.eqb_neq in Hune. rewrite Hune.
  destruct (Mongo.find_one cid (conversaciones st)) as [c|].
  - destruct (conv_uid c =? u); cbn [negb fst] in *.
    + injection H as H.
      pose proof (completar_codigos (JStr cid) cid mensaje u st) as Hco.
      rewrite H in Hco. cbn [fst] in Hco.
      split; split; intros Hx; try discriminate Hx;
        destruct Hco as [Hco | Hco]; rewrite Hco in Hx; discriminate Hx.
    + injection H as <- <-. split; split; intros Hx;
        try discriminate Hx; reflexivity.
  - injection H as <- <-. cbn [fst]. split; split; intros Hx;
      try discriminate Hx; reflexivity.
Qed.

(** Everything about a successful call of [chat]. *)
Lemma chat_exito_total (data : json) (st : Estado) (resp : Respuesta)
      (st' : Estado) :
  chat uuid4 now claude data st = Some (resp, st') ->
  status resp = 200 ->
  exists kv u mensaje cid st1 respuesta,
    data = JObj kv
    /\ dict_get "uid" kv = Some (JStr u)
    /\ dict_get "message" kv = Some (JStr mensaje)
    /\ ((truthy (get_conversation_id kv) = false
         /\ cid = uuid4 (uuid_idx st)
         /\ colecciones_ok st = true
         /\ st1 = mkEstado (claude_ok st) (db_ok st) true
                    (conversaciones st
                     ++ [mkConversacion cid u (now (reloj_idx st))
                                        (now (S (reloj_idx st))) 0
                                        titulo_inicial "active"])
                    (mensajes st) (S (uuid_idx st)) (2 + reloj_idx st)
                    (enviados st))
        \/ (truthy (get_conversation_id kv) = true /\ st1 = st
            /\ exists c, Mongo.find_one cid (conversaciones st) = Some c
                         /\ conv_uid c = u))
    /\ colecciones_ok st1 = true
    /\ let ts := now (reloj_idx st1) in
       let almacenados :=
         mensajes st1
         ++ [ mkMensaje (uuid4 (uuid_idx st1)) cid u user mensaje ts;
              mkMensaje (uuid4 (S (uuid_idx st1))) cid u assistant respuesta ts ] in
       let n := Mongo.count_documents cid almacenados in
       resp = mkRespuesta 200
                (Exito (mkChatOk cid mensaje respuesta n
                          (negb (truthy (get_conversation_id kv)))
                          (now (S (reloj_idx st1)))))
       /\ st' = mkEstado (claude_ok st1) (db_ok st1) true
                  (Mongo.update_one cid (aplicar_update ts n mensaje)
                                    (conversaciones st1))
                  almacenados (2 + uuid_idx st1) (2 + reloj_idx st1)
                  (enviados st1 ++ [historial_enviado cid mensaje st1]).
Proof.
  intros H Hs.
  destruct (chat_exito_inv uuid4 now claude _ _ _ _ H Hs)
    as (kv & u & mensaje & cid & st1 & -> & Hu & Hm & _ & Hres & Hcomp).
  destruct (completar_exito uuid4 now claude _ _ _ _ _ _ _ Hcomp Hs)
    as (Hc1 & respuesta & _ & Hr).
  cbv zeta in Hr.
  rewrite (agregar_mensaje_estado uuid4 now) in Hr by exact Hc1.
  cbn [estado_de set_reloj_idx set_enviados claude_ok db_ok colecciones_ok
       conversaciones mensajes uuid_idx reloj_idx enviados] in Hr.
  destruct Hr as [-> ->].
  exists kv, u, mensaje, cid, st1, respuesta.
  split; [reflexivity |]. split; [exact Hu |]. split; [exact Hm |].
  split.
  - destruct Hres as [[Ht Hcr] | (Hg & Hne & -> & Hex)].
    + left. apply crear_conversacion_retorna in Hcr.
      destruct Hcr as (Hc & -> & ->). repeat split; assumption.
    + right. split; [| split; [reflexivity | exact Hex]].
      rewrite Hg. cbn [truthy]. apply String.eqb_neq in Hne. now rewrite Hne.
  - split; [exact Hc1 |]. cbv zeta. rewrite Hc1. split; reflexivity.
Qed.

(** X13.  After a successful [chat] the totals shown by [GET /] have grown
    by exactly two messages, and by one conversation exactly when the answer
    says [is_new_conversation]. *)
Theorem home_tras_chat (data : json) (st : Estado) (resp : Respuesta)
        (st' : Estado) :
  chat uuid4 now claude data st = Some (resp, st') ->
  status resp = 200 ->
  exists r,
    cuerpo resp = Exito r
    /\ h_stats_mensajes (home st') = 2 + h_stats_mensajes (home st)
    /\ h_stats_conversaciones (home st')
       = (if r_is_new_conversation r then 1 else 0)
         + h_stats_conversaciones (home st).
Proof.
  intros H Hs.
  destruct (chat_exito_total _ _ _ _ H Hs)
    as (kv & u & mensaje & cid & st1 & respuesta & _ & _ & _ & Hres & Hc1 & Hr).
  cbv zeta in Hr. destruct Hr as [-> ->].
  eexists. split; [reflexivity |].
  cbn [r_is_new_conversation]. unfold home.
  cbn [colecciones_ok conversaciones mensajes h_stats_mensajes
       h_stats_conversaciones].
  rewrite length_update_one, length_app. cbn [length].
  destruct Hres as [(Ht & _ & Hc & ->) | (Ht & -> & _)].
  - rewrite Ht, Hc. cbn [negb mensajes conversaciones].
    rewrite length_app. cbn [length]. split; lia.
  - rewrite Ht, Hc1. cbn [negb]. split; lia.
Qed.

(** X14.  What a successful [chat] with string identifiers stored can be
    read back: when the [uid] of the request is a non-empty string and its
    [conversation_id] is absent, falsy or a string (and, for a new
    conversation, the identifier drawn was not in use),
    [GET /conversations/<id>] for the identifier of the answer and the same
    [uid] answers 200 with a conversation of that owner whose
    [message_count], like the number of messages shown, is the
    [message_count] of the answer; the user message and the reply are among
    the messages. *)
Theorem chat_luego_get_conversation (kv : list (string * json)) (u : string)
        (st : Estado) (resp : Respuesta) (st' : Estado) (r : ChatOk) :
  dict_get "uid" kv = Some (JStr u) ->
  u <> "" ->
  id_texto (get_conversation_id kv) ->
  chat uuid4 now claude (JObj kv) st = Some (resp, st') ->
  status resp = 200 ->
  cuerpo resp = Exito r ->
  (r_is_new_conversation r = true ->
   Mongo.find_one (uuid4 (uuid_idx st)) (conversaciones st) = None) ->
  exists c ms,
    get_conversation (r_conversation_id r) (Some u) st'
    = (200, DetalleExito c ms)
    /\ conv_uid c = u
    /\ conv_message_count c = r_message_count r
    /\ length ms = r_message_count r
    /\ In (mkEntrada user (r_message r)) (map a_entrada ms)
    /\ In (mkEntrada assistant (r_response r)) (map a_entrada ms).
Proof.
  intros Hu Hne _ H Hs Hr Hfresh.
  destruct (chat_exito_total _ _ _ _ H Hs)
    as (kv' & u' & mensaje & cid & st1 & respuesta & Hkv & Hu' & _ & Hres
        & Hc1 & Hfin).
  injection Hkv as <-. rewrite Hu in Hu'. injection Hu' as <-.
  cbv zeta in Hfin. destruct Hfin as [-> ->].
  cbn [cuerpo] in Hr. injection Hr as <-.
  cbn [r_conversation_id r_message_count r_message r_response
       r_is_new_conversation] in *.
  assert (Hf : exists c, Mongo.find_one cid (conversaciones st1) = Some c
                         /\ conv_uid c = u).
  { destruct Hres as [(Ht & -> & _ & ->) | (_ & -> & Hex)]; [| exact Hex].
    rewrite Ht in Hfresh. cbn [conversaciones]. rewrite find_one_app.
    rewrite (Hfresh eq_refl). cbn [Mongo.find_one conv_conversation_id].
    rewrite String.eqb_refl. eexists. split; reflexivity. }
  destruct Hf as (c & Hf & Hcu).
  unfold get_conversation. cbn [colecciones_ok negb conversaciones mensajes].
  apply String.eqb_neq in Hne. rewrite Hne.
  rewrite find_one_update_one_same by reflexivity. rewrite Hf.
  cbn [option_map aplicar_update conv_uid]. rewrite Hcu, String.eqb_refl.
  cbn [negb]. eexists. eexists. split; [reflexivity |].
  cbn [conv_uid conv_message_count]. split; [exact Hcu |].
  split; [reflexivity |].
  match goal with
  | |- context [Mongo.sort_ts ?l] =>
      pose proof (sort_ts_perm l) as Hp; set (ms := Mongo.sort_ts l) in *
  end.
  split; [symmetry; apply (Permutation_length Hp) |].
  assert (Hin : forall m, In m (Mongo.find cid
                  (mensajes st1
                   ++ [ mkMensaje (uuid4 (uuid_idx st1)) cid u user mensaje
                                  (now (reloj_idx st1));
                        mkMensaje (uuid4 (S (uuid_idx st1))) cid u assistant
                                  respuesta (now (reloj_idx st1)) ])) ->
                          In (a_entrada m) (map a_entrada ms)).
  { intros m Hm. apply in_map. exact (Permutation_in _ Hp Hm). }
  split.
  - apply (Hin (mkMensaje (uuid4 (uuid_idx st1)) cid u user mensaje
                          (now (reloj_idx st1)))).
    unfold Mongo.find. apply filter_In. split.
    + apply in_or_app. right. now left.
    + apply String.eqb_refl.
  - apply (Hin (mkMensaje (uuid4 (S (uuid_idx st1))) cid u assistant respuesta
                          (now (reloj_idx st1)))).
    unfold Mongo.find. apply filter_In. split.
    + apply in_or_app. right. right. now left.
    + apply String.eqb_refl.
Qed.

End Rutas.

(** ** Invariants of the store along any sequence of requests *)

Lemma alterna_app_turno (l : list Rol) :
  alterna l = true -> alterna (l ++ [user; assistant]) = true.
Proof.
  assert (H : forall n l, length l <= n -> alterna l = true ->
                          alterna (l ++ [user; assistant]) = true).
  { induction n as [|n IH]; intros l0 Hn Ha.
    - destruct l0; [reflexivity | simpl in Hn; lia].
    - destruct l0 as [|[|] [|[|] r]]; simpl in *; try discriminate Ha;
        try reflexivity.
      apply IH; [lia | exact Ha]. }
  apply (H (length l)). lia.
Qed.

Lemma prompt_alterna_app_user (l : list Rol) :
  alterna l = true -> prompt_alterna (l ++ [user]) = true.
Proof.
  assert (H : forall n l, length l <= n -> alterna l = true ->
                          prompt_alterna (l ++ [user]) = true).
  { induction n as [|n IH]; intros l0 Hn Ha.
    - destruct l0; [reflexivity | simpl in Hn; lia].
    - destruct l0 as [|[|] [|[|] r]]; simpl in *; try discriminate Ha;
        try reflexivity.
      apply IH; [lia | exact Ha]. }
  apply (H (length l)). lia.
Qed.

Lemma alterna_par (l : list Rol) :
  alterna l = true -> Nat.even (length l) = true.
Proof.
  assert (H : forall n l, length l <= n -> alterna l = true ->
                          Nat.even (length l) = true).
  { induction n as [|n IH]; intros l0 Hn Ha.
    - destruct l0; [reflexivity | simpl in Hn; lia].
    - destruct l0 as [|[|] [|[|] r]]; simpl in *; try discriminate Ha;
        try reflexivity.
      apply IH; [lia | exact Ha]. }
  apply (H (length l)). lia.
Qed.

Lemma find_one_update_one_inv (cid cid' : string)
      (f : Conversacion -> Conversacion) (l : list Conversacion)
      (c' : Conversacion) :
  (forall c, conv_conversation_id (f c) = conv_conversation_id c) ->
  Mongo.find_one cid' (Mongo.update_one cid f l) = Some c' ->
  exists c, Mongo.find_one cid' l = Some c
            /\ ((cid' = cid /\ c' = f c) \/ (cid' <> cid /\ c' = c)).
Proof.
  intros Hf H. destruct (String.eqb_spec cid' cid) as [-> | Hne].
  - rewrite find_one_update_one_same in H by exact Hf.
    destruct (Mongo.find_one cid l) as [c|]; [| discriminate H].
    injection H as <-. exists c. split; [reflexivity | now left].
  - rewrite find_one_update_one_other in H by assumption.
    exists c'. split; [exact H | now right].
Qed.

Lemma find_one_update_one_ex (cid cid' : string)
      (f : Conversacion -> Conversacion) (l : list Conversacion) :
  (forall c, conv_conversation_id (f c) = conv_conversation_id c) ->
  (exists c, Mongo.find_one cid' l = Some c) ->
  exists c, Mongo.find_one cid' (Mongo.update_one cid f l) = Some c.
Proof.
  intros Hf [c Hc]. destruct (String.eqb_spec cid' cid) as [-> | Hne].
  - rewrite find_one_update_one_same by exact Hf. rewrite Hc. now eexists.
  - rewrite find_one_update_one_other by assumption. now exists c.
Qed.

Lemma find_turno (cid cid' uid i1 i2 mu rc : string) (ts : Z)
      (l : list Mensaje) :
  Mongo.find cid
    (l ++ [ mkMensaje i1 cid' uid user mu ts;
            mkMensaje i2 cid' uid assistant rc ts ])
  = Mongo.find cid l
    ++ (if cid' =? cid
        then [ mkMensaje i1 cid' uid user mu ts;
               mkMensaje i2 cid' uid assistant rc ts ]
        else []).
Proof.
  rewrite find_app. f_equal. unfold Mongo.find. simpl.
  destruct (cid' =? cid); reflexivity.
Qed.

Lemma find_in (cid : string) (l : list Mensaje) (m : Mensaje) :
  In m (Mongo.find cid l) <-> In m l /\ msg_conversation_id m = cid.
Proof.
  unfold Mongo.find. rewrite filter_In.
  split; intros [H1 H2]; split; try assumption; now apply String.eqb_eq.
Qed.

(** ** The requests the model answers *)

Section Dominio.

Variable uuid4 : nat -> string.
Variable now : nat -> Z.
Variable claude : nat -> list Entrada -> option string.

(** [resolver] has an answer whenever the [uid] is a string and the
    [conversation_id] is absent, falsy or a string. *)
Lemma resolver_definido (dcid : json) (u mensaje : string) (st : Estado) :
  id_texto dcid ->
  exists resp st',
    resolver uuid4 now claude dcid (JStr u) mensaje st = Some (resp, st').
Proof.
  intros Hid. unfold resolver.
  destruct (truthy dcid) eqn:Ht; cbn [negb].
  - destruct Hid as [Hf | [s ->]]; [congruence |].
    destruct (negb (colecciones_ok st)); [eauto |].
    destruct (Mongo.find_one s (conversaciones st)) as [c|]; [| eauto].
    destruct (negb (conv_uid c =? u)); [eauto |].
    destruct (completar uuid4 now claude (JStr s) s mensaje u st); eauto.
  - destruct (crear_conversacion uuid4 now u st) as [cid st1|st1]; [| eauto].
    destruct (completar uuid4 now claude dcid cid mensaje u st1); eauto.
Qed.

(** [chat] answers every request with string identifiers. *)
Lemma chat_definido (data : json) (st : Estado) :
  cuerpo_texto data ->
  exists resp st', chat uuid4 now claude data st = Some (resp, st').
Proof.
  intros (kv & u & -> & Hu & Hid).
  destruct (claude_ok st) eqn:Hcl;
    [| unfold chat; rewrite Hcl; do 2 eexists; reflexivity].
  destruct (db_ok st) eqn:Hdb;
    [| unfold chat; rewrite Hcl, Hdb; do 2 eexists; reflexivity].
  rewrite chat_dict by assumption. rewrite Hu.
  destruct (dict_get "message" kv) as [m|]; [| eauto].
  destruct m as [| | | mensaje | |]; try (do 2 eexists; reflexivity).
  destruct (PyStr.strip mensaje =? ""); [eauto |].
  now apply resolver_definido.
Qed.

(** [new_conversation] answers every request whose [uid] is a string. *)
Lemma new_conversation_definido (kv : list (string * json)) (u : string)
      (st : Estado) :
  dict_get "uid" kv = Some (JStr u) ->
  exists v st',
    new_conversation uuid4 now (JObj kv) st = Some (v, st').
Proof.
  intros Hu. unfold new_conversation.
  destruct (negb (colecciones_ok st)); [eauto |].
  destruct (negb (truthy (JObj kv))); [eauto |].
  destruct (py_in "uid" (JObj kv)) as [[|]|]; eauto.
  rewrite Hu.
  destruct (crear_conversacion uuid4 now u st); eauto.
Qed.

Lemma atender_definido (p : Peticion) (st : Estado) :
  peticion_texto p -> exists st', atender uuid4 now claude p st = Some st'.
Proof.
  destruct p as [data|data]; cbn [peticion_texto atender].
  - intros H. destruct (chat_definido data st H) as (resp & st' & ->).
    cbn. eauto.
  - intros (kv & u & -> & Hu).
    destruct (new_conversation_definido kv u st Hu) as (v & st' & ->).
    cbn. eauto.
Qed.

(** A run is a path of [Alcanzable]. *)
Lemma ejecutar_alcanzable (ps : list Peticion) (st0 st st' : Estado) :
  Alcanzable uuid4 now claude st0 st ->
  ejecutar uuid4 now claude ps st = Some st' ->
  Alcanzable uuid4 now claude st0 st'.
Proof.
  revert st. induction ps as [|p r IH]; intros st Halc H; cbn in H.
  - now injection H as <-.
  - destruct (atender uuid4 now claude p st) as [st1|] eqn:Hp;
      [| discriminate H].
    apply (IH st1); [| exact H].
    now apply (alc_paso _ _ _ _ st st1 p).
Qed.

(** Every sequence of requests with string identifiers runs to its end, and
    the state it ends in is one of [Alcanzable]. *)
Lemma ejecutar_definido (ps : list Peticion) (st0 : Estado) :
  Forall peticion_texto ps ->
  exists st,
    ejecutar uuid4 now claude ps st0 = Some st
    /\ Alcanzable uuid4 now claude st0 st.
Proof.
  intros Hps.
  assert (H : forall st, exists st',
               ejecutar uuid4 now claude ps st = Some st').
  { induction Hps as [|p r Hp _ IH]; intros st; cbn; [eauto |].
    destruct (atender_definido p st Hp) as [st1 ->]. apply IH. }
  destruct (H st0) as [st Hst]. exists st. split; [exact Hst |].
  apply (ejecutar_alcanzable ps st0 st0 st); [constructor | exact Hst].
Qed.

(** What holds in every state of [Alcanzable] holds at the end of every
    sequence of requests with string identifiers, and there is such an
    end. *)
Lemma invariante_por_peticiones (st0 : Estado) (P : Estado -> Prop) :
  (forall st, Alcanzable uuid4 now claude st0 st -> P st) ->
  (forall ps, Forall peticion_texto ps ->
              exists st, ejecutar uuid4 now claude ps st0 = Some st /\ P st)
  /\ (forall st, Alcanzable uuid4 now claude st0 st -> P st).
Proof.
  intros H. split; [| exact H].
  intros ps Hps. destruct (ejecutar_definido ps st0 Hps) as (st & Hr & Halc).
  exists st. split; [exact Hr | now apply H].
Qed.

End Dominio.


Section Invariantes.

Variable uuid4 : nat -> string.
Variable now : nat -> Z.
Variable claude : nat -> list Entrada -> option string.

Hypothesis uuid4_inyectiva : forall i j, uuid4 i = uuid4 j -> i = j.

Lemma id_fresco (st : Estado) (n : nat) :
  (forall x, In x (ids_almacenados st) ->
             exists k, k < uuid_idx st /\ x = uuid4 k) ->
  uuid_idx st <= n ->
  ~ In (uuid4 n) (ids_almacenados st).
Proof.
  intros Hd Hn Hin. destruct (Hd _ Hin) as (k & Hk & He).
  apply uuid4_inyectiva in He. lia.
Qed.

(** Messages only reference stored conversations, so an identifier without
    conversation has no messages. *)
Lemma sin_conversacion_sin_mensajes (st : Estado) (cid : string) :
  (forall m, In m (mensajes st) ->
             exists c, Mongo.find_one (msg_conversation_id m)
                                      (conversaciones st) = Some c) ->
  Mongo.find_one cid (conversaciones st) = None ->
  Mongo.find cid (mensajes st) = [].
Proof.
  intros Hr Hf. apply find_none. intros m Hm He.
  destruct (Hr m Hm) as [c Hc]. rewrite He, Hf in Hc. discriminate Hc.
Qed.

Lemma consistente_crear (u : string) (st : Estado) (cid : string)
      (st1 : Estado) :
  Consistente uuid4 st ->
  crear_conversacion uuid4 now u st = Retorna cid st1 ->
  Consistente uuid4 st1
  /\ exists c, Mongo.find_one cid (conversaciones st1) = Some c
               /\ conv_uid c = u.
Proof.
  intros [Hd Hn Hr Hcu Hdu Hal Hti] Hcr.
  apply crear_conversacion_retorna in Hcr. destruct Hcr as (_ & -> & ->).
  assert (Hfr : ~ In (uuid4 (uuid_idx st)) (ids_almacenados st))
    by (apply id_fresco; [exact Hd | lia]).
  assert (Hnone : Mongo.find_one (uuid4 (uuid_idx st)) (conversaciones st)
                  = None).
  { destruct (Mongo.find_one (uuid4 (uuid_idx st)) (conversaciones st))
      as [c|] eqn:Hf; [| reflexivity].
    exfalso. apply Hfr. apply find_one_in in Hf. destruct Hf as [Hin Hid].
    unfold ids_almacenados. apply in_or_app. left. rewrite <- Hid.
    now apply in_map. }
  assert (Hids : ids_almacenados
                   (mkEstado (claude_ok st) (db_ok st) true
                      (conversaciones st
                       ++ [mkConversacion (uuid4 (uuid_idx st)) u
                             (now (reloj_idx st)) (now (S (reloj_idx st))) 0
                             titulo_inicial "active"])
                      (mensajes st) (S (uuid_idx st)) (2 + reloj_idx st)
                      (enviados st))
                 = map conv_conversation_id (conversaciones st)
                   ++ uuid4 (uuid_idx st) :: map msg_id (mensajes st)).
  { unfold ids_almacenados. cbn [conversaciones mensajes].
    rewrite map_app, <- app_assoc. reflexivity. }
  split.
  - constructor; cbn [conversaciones mensajes uuid_idx].
    + rewrite Hids. intros x Hx. apply in_app_or in Hx.
      destruct Hx as [Hx | [<- | Hx]].
      * destruct (Hd x) as (k & Hk & He);
          [unfold ids_almacenados; apply in_or_app; now left |].
        exists k. split; [lia | exact He].
      * exists (uuid_idx st). split; [lia | reflexivity].
      * destruct (Hd x) as (k & Hk & He);
          [unfold ids_almacenados; apply in_or_app; now right |].
        exists k. split; [lia | exact He].
    + rewrite Hids. apply (Permutation_NoDup (Permutation_middle _ _ _)).
      constructor; assumption.
    + intros m Hm. destruct (Hr m Hm) as [c Hc]. exists c.
      rewrite find_one_app. now rewrite Hc.
    + intros cid c Hc. rewrite find_one_app in Hc.
      destruct (Mongo.find_one cid (conversaciones st)) as [c0|] eqn:Hf.
      * injection Hc as <-. now apply Hcu.
      * cbn [Mongo.find_one conv_conversation_id] in Hc.
        destruct (uuid4 (uuid_idx st) =? cid); [| discriminate Hc].
        injection Hc as <-. cbn [conv_message_count].
        unfold Mongo.count_documents.
        now rewrite (sin_conversacion_sin_mensajes st cid Hr Hf).
    + intros m c Hm Hc. rewrite find_one_app in Hc.
      destruct (Hr m Hm) as [c0 Hc0]. rewrite Hc0 in Hc. injection Hc as <-.
      now apply Hdu.
    + exact Hal.
    + intros cid c Hc. rewrite find_one_app in Hc.
      destruct (Mongo.find_one cid (conversaciones st)) as [c0|] eqn:Hf.
      * injection Hc as <-. now apply Hti.
      * cbn [Mongo.find_one conv_conversation_id] in Hc.
        destruct (uuid4 (uuid_idx st) =? cid); [| discriminate Hc].
        injection Hc as <-. cbn [conv_title].
        now rewrite (sin_conversacion_sin_mensajes st cid Hr Hf).
  - cbn [conversaciones]. rewrite find_one_app, Hnone.
    cbn [Mongo.find_one conv_conversation_id]. rewrite String.eqb_refl.
    eexists. split; reflexivity.
Qed.

Lemma consistente_contadores (st : Estado) (l : list (list Entrada)) (n : nat) :
  Consistente uuid4 st ->
  Consistente uuid4 (set_reloj_idx n (set_enviados l st)).
Proof.
  intros [Hd Hn Hr Hcu Hdu Hal Hti]. constructor; assumption.
Qed.

Lemma consistente_agregar (cid mu rc u : string) (st : Estado) (v : json)
      (st' : Estado) :
  Consistente uuid4 st ->
  (exists c, Mongo.find_one cid (conversaciones st) = Some c
             /\ conv_uid c = u) ->
  agregar_mensaje uuid4 now cid mu rc u st = Retorna v st' ->
  Consistente uuid4 st'.
Proof.
  intros [Hd Hn Hr Hcu Hdu Hal Hti] (c0 & Hc0 & Hu0) Hag.
  assert (Hc : colecciones_ok st = true).
  { unfold agregar_mensaje in Hag.
    destruct (colecciones_ok st); [reflexivity | discriminate Hag]. }
  rewrite (agregar_mensaje_estado uuid4 now) in Hag by exact Hc.
  injection Hag as _ <-.
  set (ts := now (reloj_idx st)).
  set (m1 := mkMensaje (uuid4 (uuid_idx st)) cid u user mu ts).
  set (m2 := mkMensaje (uuid4 (S (uuid_idx st))) cid u assistant rc ts).
  set (n := Mongo.count_documents cid (mensajes st ++ [m1; m2])).
  assert (Hfid : forall c, conv_conversation_id (aplicar_update ts n mu c)
                           = conv_conversation_id c) by reflexivity.
  assert (Hids : forall l,
             map conv_conversation_id
                 (Mongo.update_one cid (aplicar_update ts n mu) l)
             ++ map msg_id (mensajes st ++ [m1; m2])
             = (map conv_conversation_id l ++ map msg_id (mensajes st))
               ++ [uuid4 (uuid_idx st); uuid4 (S (uuid_idx st))]).
  { intros l. rewrite update_one_proj by exact Hfid.
    rewrite map_app, app_assoc. reflexivity. }
  constructor; cbn [conversaciones mensajes uuid_idx].
  - unfold ids_almacenados. cbn [conversaciones mensajes]. rewrite Hids.
    fold (ids_almacenados st). intros x Hx. apply in_app_or in Hx.
    destruct Hx as [Hx | [<- | [<- | []]]].
    + destruct (Hd x Hx) as (k & Hk & He). exists k. split; [lia | exact He].
    + exists (uuid_idx st). split; [lia | reflexivity].
    + exists (S (uuid_idx st)). split; [lia | reflexivity].
  - unfold ids_almacenados. cbn [conversaciones mensajes]. rewrite Hids.
    fold (ids_almacenados st).
    apply (Permutation_NoDup (Permutation_app_comm _ _)). cbn [app].
    constructor.
    + intros [He | Hin].
      * apply uuid4_inyectiva in He. lia.
      * revert Hin. apply id_fresco; [exact Hd | lia].
    + constructor; [| exact Hn]. apply id_fresco; [exact Hd | lia].
  - intros m Hm. apply find_one_update_one_ex; [exact Hfid |].
    apply in_app_or in Hm. destruct Hm as [Hm | [<- | [<- | []]]].
    + now apply Hr.
    + now exists c0.
    + now exists c0.
  - intros cid' c' Hc'.
    apply find_one_update_one_inv in Hc'; [| exact Hfid].
    destruct Hc' as (c & Hfc & [[-> ->] | [Hne ->]]).
    + reflexivity.
    + unfold m1, m2. rewrite count_documents_turno.
      apply not_eq_sym, String.eqb_neq in Hne. rewrite Hne.
      rewrite Nat.add_0_r. now apply Hcu.
  - intros m c' Hm Hc'.
    apply find_one_update_one_inv in Hc'; [| exact Hfid].
    destruct Hc' as (c & Hfc & Hcases).
    assert (Huid : conv_uid c' = conv_uid c)
      by (destruct Hcases as [[_ ->] | [_ ->]]; reflexivity).
    rewrite Huid. apply in_app_or in Hm.
    destruct Hm as [Hm | [<- | [<- | []]]].
    + now apply Hdu.
    + cbn [msg_conversation_id m1] in Hfc. rewrite Hc0 in Hfc.
      injection Hfc as <-. now rewrite Hu0.
    + cbn [msg_conversation_id m2] in Hfc. rewrite Hc0 in Hfc.
      injection Hfc as <-. now rewrite Hu0.
  - intros cid'. unfold m1, m2. rewrite find_turno.
    destruct (cid =? cid'); rewrite map_app; cbn [map msg_role].
    + apply alterna_app_turno, Hal.
    + rewrite app_nil_r. apply Hal.
  - intros cid' c' Hc'.
    apply find_one_update_one_inv in Hc'; [| exact Hfid].
    destruct Hc' as (c & Hfc & [[-> ->] | [Hne ->]]).
    + unfold aplicar_update. cbn [conv_title].
      pose proof (Hti cid c Hfc) as Ht.
      unfold n, m1, m2.
      rewrite count_documents_turno, find_turno, String.eqb_refl.
      unfold Mongo.count_documents.
      destruct (Mongo.find cid (mensajes st)) as [|m r]; cbn [length app].
      * reflexivity.
      * replace (S (length r) + 2 =? 2)%nat with false
          by (symmetry; apply Nat.eqb_neq; lia).
        exact Ht.
    + unfold m1, m2. rewrite find_turno.
      apply not_eq_sym, String.eqb_neq in Hne. rewrite Hne, app_nil_r.
      now apply Hti.
Qed.

Lemma consistente_chat (data : json) (st : Estado) (resp : Respuesta)
      (st' : Estado) :
  Consistente uuid4 st ->
  chat uuid4 now claude data st = Some (resp, st') ->
  Consistente uuid4 st'.
Proof.
  intros HC H.
  destruct (chat_efecto _ _ _ _ _ _ _ H)
    as [[-> _] | (u & cid & st1 & mensaje & Hres & Hc1 & _ & Hfin)];
    [exact HC |].
  assert (H1 : Consistente uuid4 st1
               /\ exists c, Mongo.find_one cid (conversaciones st1) = Some c
                            /\ conv_uid c = u).
  { destruct Hres as [Hcr | [-> Hex]]; [| now split].
    now apply (consistente_crear u st). }
  destruct H1 as [HC1 Hex]. cbv zeta in Hfin.
  assert (HC2 : Consistente uuid4
                  (set_enviados
                     (enviados st1 ++ [historial_enviado cid mensaje st1]) st1)).
  { destruct HC1 as [Hd Hn Hr Hcu Hdu Hal Hti]. constructor; assumption. }
  destruct Hfin as [(-> & _) | (respuesta & st3 & _ & Hag & -> & _)];
    [exact HC2 |].
  apply (consistente_agregar _ _ _ _ _ _ _ HC2) in Hag; [| exact Hex].
  destruct Hag as [Hd Hn Hr Hcu Hdu Hal Hti]. constructor; assumption.
Qed.

Lemma consistente_new_conversation (data : json) (st : Estado)
      (v : Vista CuerpoNueva) (st' : Estado) :
  Consistente uuid4 st ->
  new_conversation uuid4 now data st = Some (v, st') ->
  Consistente uuid4 st'.
Proof.
  intros HC H. unfold new_conversation in H.
  destruct (negb (colecciones_ok st)); [now injection H as _ <- |].
  destruct (negb (truthy data)); [now injection H as _ <- |].
  destruct (py_in "uid" data) as [[|]|]; try (now injection H as _ <-).
  destruct data; try (now injection H as _ <-).
  destruct (dict_get "uid" kv) as [[| | | u | |]|];
    try discriminate H; try (now injection H as _ <-).
  destruct (crear_conversacion uuid4 now u st) as [cid st1|st1] eqn:Hcr.
  - injection H as _ <-. now apply (consistente_crear u st cid st1).
  - unfold crear_conversacion in Hcr.
    destruct (negb (colecciones_ok st)); [| discriminate Hcr].
    injection Hcr as <-. now injection H as _ <-.
Qed.

Lemma consistente_alcanzable (st0 st : Estado) :
  Consistente uuid4 st0 ->
  Alcanzable uuid4 now claude st0 st ->
  Consistente uuid4 st.
Proof.
  intros HC0. induction 1 as [|st st' p Halc IH Hp]; [exact HC0 |].
  destruct p as [data | data]; cbn [atender] in Hp.
  - destruct (chat uuid4 now claude data st) as [[resp st1]|] eqn:Hch;
      [| discriminate Hp].
    injection Hp as <-. now apply (consistente_chat data st resp).
  - destruct (new_conversation uuid4 now data st) as [[v st1]|] eqn:Hn;
      [| discriminate Hp].
    injection Hp as <-. now apply (consistente_new_conversation data st v).
Qed.

Hypothesis now_monotona : forall i j, i <= j -> (now i <= now j)%Z.

Lemma strongly_sorted_filter {A : Type} (R : A -> A -> Prop) (f : A -> bool)
      (l : list A) :
  StronglySorted R l -> StronglySorted R (filter f l).
Proof.
  induction 1 as [|x r Hr IH Hx]; simpl; [constructor |].
  destruct (f x); [| exact IH].
  constructor; [exact IH |].
  apply Forall_forall. intros y Hy. apply filter_In in Hy.
  destruct Hy as [Hy _]. exact (proj1 (Forall_forall _ _) Hx y Hy).
Qed.

Lemma strongly_sorted_app {A : Type} (R : A -> A -> Prop) (l1 l2 : list A) :
  StronglySorted R l1 -> StronglySorted R l2 ->
  (forall x y, In x l1 -> In y l2 -> R x y) ->
  StronglySorted R (l1 ++ l2).
Proof.
  intros H1 H2 H12. induction H1 as [|x r Hr IH Hx]; simpl; [exact H2 |].
  constructor.
  - apply IH. intros a b Ha Hb. apply H12; [now right | exact Hb].
  - apply Forall_forall. intros y Hy. apply in_app_or in Hy.
    destruct Hy as [Hy | Hy].
    + exact (proj1 (Forall_forall _ _) Hx y Hy).
    + apply H12; [now left | exact Hy].
Qed.

(** With the stored messages in ascending order of timestamps, the history
    of a conversation is its messages in the order they were written. *)
Lemma historial_en_orden (cid : string) (st : Estado) :
  StronglySorted ts_le (mensajes st) ->
  colecciones_ok st = true ->
  obtener_historial_conversacion cid st
  = map a_entrada (Mongo.find cid (mensajes st)).
Proof.
  intros Hs Hc. unfold obtener_historial_conversacion. rewrite Hc. cbn [negb].
  rewrite sort_ts_ordenada; [reflexivity |].
  apply StronglySorted_Sorted. unfold Mongo.find.
  now apply strongly_sorted_filter.
Qed.

Lemma cronologico_crear (u : string) (st : Estado) (cid : string)
      (st1 : Estado) :
  Cronologico now st ->
  crear_conversacion uuid4 now u st = Retorna cid st1 ->
  Cronologico now st1.
Proof.
  intros [Ht Ho Hp] Hcr.
  apply crear_conversacion_retorna in Hcr. destruct Hcr as (_ & _ & ->).
  constructor; cbn [mensajes reloj_idx enviados]; try assumption.
  intros m Hm. destruct (Ht m Hm) as (k & Hk & He).
  exists k. split; [lia | exact He].
Qed.

Lemma cronologico_prompt (cid mensaje : string) (st : Estado) :
  Consistente uuid4 st ->
  Cronologico now st ->
  colecciones_ok st = true ->
  Cronologico now
    (set_enviados (enviados st ++ [historial_enviado cid mensaje st]) st).
Proof.
  intros HC [Ht Ho Hp] Hc.
  constructor; cbn [set_enviados mensajes reloj_idx enviados];
    try assumption.
  intros p Hin. apply in_app_or in Hin. destruct Hin as [Hin | [<- | []]].
  - now apply Hp.
  - unfold historial_enviado. rewrite historial_en_orden by assumption.
    rewrite map_app, map_map. cbn [map role a_entrada].
    apply prompt_alterna_app_user.
    change (fun x : Mensaje => msg_role x) with msg_role.
    apply (alternan _ _ HC).
Qed.

Lemma cronologico_agregar (cid mu rc u : string) (st : Estado) (v : json)
      (st' : Estado) :
  Cronologico now st ->
  agregar_mensaje uuid4 now cid mu rc u st = Retorna v st' ->
  Cronologico now (set_reloj_idx (S (reloj_idx st')) st').
Proof.
  intros [Ht Ho Hp] Hag.
  assert (Hc : colecciones_ok st = true).
  { unfold agregar_mensaje in Hag.
    destruct (colecciones_ok st); [reflexivity | discriminate Hag]. }
  rewrite (agregar_mensaje_estado uuid4 now) in Hag by exact Hc.
  injection Hag as _ <-.
  constructor; cbn [set_reloj_idx mensajes reloj_idx enviados];
    [| | exact Hp].
  - intros m Hm. apply in_app_or in Hm.
    destruct Hm as [Hm | [<- | [<- | []]]].
    + destruct (Ht m Hm) as (k & Hk & He). exists k. split; [lia | exact He].
    + exists (reloj_idx st). split; [lia | reflexivity].
    + exists (reloj_idx st). split; [lia | reflexivity].
  - apply strongly_sorted_app; [exact Ho | |].
    + repeat constructor. unfold ts_le. cbn [msg_timestamp]. lia.
    + intros x y Hx Hy. destruct (Ht x Hx) as (k & Hk & He).
      assert (Hy' : msg_timestamp y = now (reloj_idx st))
        by (destruct Hy as [<- | [<- | []]]; reflexivity).
      unfold ts_le. rewrite He, Hy'. apply now_monotona. lia.
Qed.

(** Both invariants together are kept by every request that writes. *)
Lemma invariantes_chat (data : json) (st : Estado) (resp : Respuesta)
      (st' : Estado) :
  Consistente uuid4 st -> Cronologico now st ->
  chat uuid4 now claude data st = Some (resp, st') ->
  Cronologico now st'.
Proof.
  intros HC HT H.
  destruct (chat_efecto _ _ _ _ _ _ _ H)
    as [[-> _] | (u & cid & st1 & mensaje & Hres & Hc1 & _ & Hfin)];
    [exact HT |].
  assert (H1 : Consistente uuid4 st1 /\ Cronologico now st1).
  { destruct Hres as [Hcr | [-> Hex]]; [| now split]. split.
    - now apply (consistente_crear u st cid st1).
    - now apply (cronologico_crear u st cid st1). }
  destruct H1 as [HC1 HT1]. cbv zeta in Hfin.
  pose proof (cronologico_prompt cid mensaje st1 HC1 HT1 Hc1) as HT2.
  destruct Hfin as [(-> & _) | (respuesta & st3 & _ & Hag & -> & _)];
    [exact HT2 |].
  exact (cronologico_agregar _ _ _ _ _ _ _ HT2 Hag).
Qed.

Lemma cronologico_new_conversation (data : json) (st : Estado)
      (v : Vista CuerpoNueva) (st' : Estado) :
  Cronologico now st ->
  new_conversation uuid4 now data st = Some (v, st') ->
  Cronologico now st'.
Proof.
  intros HT H. unfold new_conversation in H.
  destruct (negb (colecciones_ok st)); [now injection H as _ <- |].
  destruct (negb (truthy data)); [now injection H as _ <- |].
  destruct (py_in "uid" data) as [[|]|]; try (now injection H as _ <-).
  destruct data; try (now injection H as _ <-).
  destruct (dict_get "uid" kv) as [[| | | u | |]|];
    try discriminate H; try (now injection H as _ <-).
  destruct (crear_conversacion uuid4 now u st) as [cid st1|st1] eqn:Hcr.
  - injection H as _ <-. now apply (cronologico_crear u st cid st1).
  - unfold crear_conversacion in Hcr.
    destruct (negb (colecciones_ok st)); [| discriminate Hcr].
    injection Hcr as <-. now injection H as _ <-.
Qed.

Lemma invariantes_alcanzable (st0 st : Estado) :
  Consistente uuid4 st0 -> Cronologico now st0 ->
  Alcanzable uuid4 now claude st0 st ->
  Consistente uuid4 st /\ Cronologico now st.
Proof.
  intros HC0 HT0 Halc.
  split; [now apply (consistente_alcanzable st0) |].
  induction Halc as [|st st' p Halc IH Hp]; [exact HT0 |].
  pose proof (consistente_alcanzable st0 st HC0 Halc) as HC.
  destruct p as [data | data]; cbn [atender] in Hp.
  - destruct (chat uuid4 now claude data st) as [[resp st1]|] eqn:Hch;
      [| discriminate Hp].
    injection Hp as <-. now apply (invariantes_chat data st resp).
  - destruct (new_conversation uuid4 now data st) as [[v st1]|] eqn:Hn;
      [| discriminate Hp].
    injection Hp as <-. now apply (cronologico_new_conversation data st v).
Qed.

(** An empty store satisfies both invariants. *)
Lemma invariantes_vacio (st0 : Estado) :
  conversaciones st0 = [] -> mensajes st0 = [] ->
  Consistente uuid4 st0
  /\ (enviados st0 = [] -> Cronologico now st0).
Proof.
  intros Hcv Hm. split.
  - constructor; unfold ids_almacenados; rewrite ?Hcv, ?Hm; cbn;
      try constructor; try tauto; try discriminate.
  - intros He. constructor; rewrite ?Hm, ?He; cbn;
      try constructor; tauto.
Qed.

Lemma find_one_unico (l : list Conversacion) (c : Conversacion) :
  NoDup (map conv_conversation_id l) ->
  In c l ->
  Mongo.find_one (conv_conversation_id c) l = Some c.
Proof.
  induction l as [|x r IH]; intros Hn Hin; [destruct Hin |].
  cbn [map] in Hn. inversion Hn as [|? ? Hx Hr]; subst.
  cbn [Mongo.find_one]. destruct Hin as [-> | Hin].
  - now rewrite String.eqb_refl.
  - destruct (conv_conversation_id x =? conv_conversation_id c) eqn:E.
    + apply String.eqb_eq in E. exfalso. apply Hx. rewrite E.
      now apply in_map.
    + now apply IH.
Qed.

Lemma alcanzable_desde_vacio (st0 st : Estado) :
  conversaciones st0 = [] -> mensajes st0 = [] ->
  Alcanzable uuid4 now claude st0 st ->
  Consistente uuid4 st
  /\ NoDup (map conv_conversation_id (conversaciones st)).
Proof.
  intros Hcv Hm Halc.
  destruct (invariantes_vacio st0 Hcv Hm) as [HC0 _].
  pose proof (consistente_alcanzable st0 st HC0 Halc) as HC.
  split; [exact HC |].
  pose proof (ids_distintos _ _ HC) as Hn. unfold ids_almacenados in Hn.
  now apply NoDup_app_remove_r in Hn.
Qed.

(** X15.  Starting from an empty store, after any sequence of [/chat] and
    [/conversations/new] requests all identifiers held in the store, those
    of conversations and those of messages, are pairwise distinct (as long
    as [uuid4] never repeats a value). *)
Theorem ids_unicos (st0 st : Estado) :
  conversaciones st0 = [] -> mensajes st0 = [] ->
  Alcanzable uuid4 now claude st0 st ->
  NoDup (map conv_conversation_id (conversaciones st)
         ++ map msg_id (mensajes st)).
Proof.
  intros Hcv Hm Halc.
  destruct (alcanzable_desde_vacio st0 st Hcv Hm Halc) as [HC _].
  exact (ids_distintos _ _ HC).
Qed.

(** X16.  Starting from an empty store, every sequence of [/chat] and
    [/conversations/new] requests with string identifiers is served to its
    end, and after it every stored message belongs to a stored conversation
    and carries the [uid] of that conversation's owner (as long as [uuid4]
    never repeats a value).  The same holds in every state of [Alcanzable]. *)
Theorem mensajes_de_su_conversacion (st0 : Estado) :
  conversaciones st0 = [] -> mensajes st0 = [] ->
  (forall ps, Forall peticion_texto ps ->
              exists st, ejecutar uuid4 now claude ps st0 = Some st
                         /\ mensajes_con_dueno st)
  /\ (forall st, Alcanzable uuid4 now claude st0 st -> mensajes_con_dueno st).
Proof.
  intros Hcv Hm.
  apply (invariante_por_peticiones uuid4 now claude st0 mensajes_con_dueno).
  intros st Halc m Hin.
  destruct (alcanzable_desde_vacio st0 st Hcv Hm Halc) as [HC _].
  destruct (mensajes_referencian _ _ HC m Hin) as [c Hc].
  exists c. destruct (find_one_in _ _ _ Hc) as [Hcin Hid].
  split; [exact Hcin |]. split; [exact Hid |].
  symmetry. exact (duenos _ _ HC m c Hin Hc).
Qed.

(** X17.  Starting from an empty store, every sequence of [/chat] and
    [/conversations/new] requests with string identifiers is served to its
    end, and after it the [message_count] of every stored conversation is
    the number of stored messages with its identifier, and that number is
    even (as long as [uuid4] never repeats a value).  The same holds in
    every state of [Alcanzable]. *)
Theorem message_count_siempre (st0 : Estado) :
  conversaciones st0 = [] -> mensajes st0 = [] ->
  (forall ps, Forall peticion_texto ps ->
              exists st, ejecutar uuid4 now claude ps st0 = Some st
                         /\ cuentas_al_dia st)
  /\ (forall st, Alcanzable uuid4 now claude st0 st -> cuentas_al_dia st).
Proof.
  intros Hcv Hm.
  apply (invariante_por_peticiones uuid4 now claude st0 cuentas_al_dia).
  intros st Halc c Hin.
  destruct (alcanzable_desde_vacio st0 st Hcv Hm Halc) as [HC Hn].
  pose proof (find_one_unico _ c Hn Hin) as Hf.
  pose proof (cuentas _ _ HC _ c Hf) as Hcu.
  split; [exact Hcu |]. rewrite Hcu. unfold Mongo.count_documents.
  rewrite <- (length_map msg_role).
  apply alterna_par. apply (alternan _ _ HC).
Qed.

(** X18.  Starting from an empty store, after any sequence of requests the
    messages of each conversation, in the order they were written, go user,
    assistant, user, assistant, ... and end with an assistant message. *)
Theorem turnos_alternan (st0 st : Estado) :
  conversaciones st0 = [] -> mensajes st0 = [] ->
  Alcanzable uuid4 now claude st0 st ->
  forall cid,
    alterna (map msg_role (Mongo.find cid (mensajes st))) = true.
Proof.
  intros Hcv Hm Halc cid.
  destruct (alcanzable_desde_vacio st0 st Hcv Hm Halc) as [HC _].
  apply (alternan _ _ HC).
Qed.

(** X19.  Starting from an empty store, every sequence of [/chat] and
    [/conversations/new] requests with string identifiers is served to its
    end, and after it a conversation without messages has the default
    title, and a conversation with messages has the title derived from its
    first message, which is a user message (as long as [uuid4] never repeats
    a value).  The same holds in every state of [Alcanzable]. *)
Theorem titulo_del_primer_mensaje (st0 : Estado) :
  conversaciones st0 = [] -> mensajes st0 = [] ->
  (forall ps, Forall peticion_texto ps ->
              exists st, ejecutar uuid4 now claude ps st0 = Some st
                         /\ titulos_al_dia st)
  /\ (forall st, Alcanzable uuid4 now claude st0 st -> titulos_al_dia st).
Proof.
  intros Hcv Hm.
  apply (invariante_por_peticiones uuid4 now claude st0 titulos_al_dia).
  intros st Halc c Hin.
  destruct (alcanzable_desde_vacio st0 st Hcv Hm Halc) as [HC Hn].
  pose proof (find_one_unico _ c Hn Hin) as Hf.
  pose proof (titulos _ _ HC _ c Hf) as Ht.
  pose proof (alternan _ _ HC (conv_conversation_id c)) as Ha.
  destruct (Mongo.find (conv_conversation_id c) (mensajes st)) as [|m r];
    [exact Ht |].
  split; [exact Ht |]. cbn [map] in Ha.
  destruct (msg_role m); [reflexivity |]. discriminate Ha.
Qed.

(** X20.  Starting from an empty store with nothing sent yet and with a
    clock that never goes back, every prompt ever sent to the completion
    client goes user, assistant, ..., user: it alternates and ends with the
    user message of its request. *)
Theorem prompts_alternan (st0 st : Estado) :
  conversaciones st0 = [] -> mensajes st0 = [] -> enviados st0 = [] ->
  Alcanzable uuid4 now claude st0 st ->
  forall p, In p (enviados st) -> prompt_alterna (map role p) = true.
Proof.
  intros Hcv Hm He Halc.
  destruct (invariantes_vacio st0 Hcv Hm) as [HC0 HT0].
  destruct (invariantes_alcanzable st0 st HC0 (HT0 He) Halc) as [_ HT].
  exact (prompts _ _ HT).
Qed.

(** X21.  Starting from an empty store and after any sequence of requests
    with string identifiers, with a clock that never goes back, a successful
    [chat] with string identifiers (the [uid] a string, the
    [conversation_id] absent, falsy or a string) extends the history of its
    conversation by exactly its user message followed by the reply: the
    history read after the request is the one read before it plus these two
    entries. *)
Theorem historial_crece (st0 st : Estado) (ps : list Peticion) (data : json)
        (resp : Respuesta) (st' : Estado) (r : ChatOk) :
  conversaciones st0 = [] -> mensajes st0 = [] -> enviados st0 = [] ->
  Forall peticion_texto ps ->
  ejecutar uuid4 now claude ps st0 = Some st ->
  cuerpo_texto data ->
  chat uuid4 now claude data st = Some (resp, st') ->
  status resp = 200 ->
  cuerpo resp = Exito r ->
  obtener_historial_conversacion (r_conversation_id r) st'
  = obtener_historial_conversacion (r_conversation_id r) st
    ++ [mkEntrada user (r_message r); mkEntrada assistant (r_response r)].
Proof.
  intros Hcv Hm He _ Hrun _ H Hs Hr.
  pose proof (ejecutar_alcanzable uuid4 now claude ps st0 st0 st
                (alc_inicio _ _ _ st0) Hrun) as Halc.
  destruct (invariantes_vacio st0 Hcv Hm) as [HC0 HT0].
  assert (Halc' : Alcanzable uuid4 now claude st0 st').
  { apply (alc_paso _ _ _ _ st st' (PChat data)); [exact Halc |].
    cbn [atender]. now rewrite H. }
  destruct (invariantes_alcanzable st0 st HC0 (HT0 He) Halc) as [_ HT].
  destruct (invariantes_alcanzable st0 st' HC0 (HT0 He) Halc') as [_ HT'].
  pose proof (en_orden _ _ HT) as Ho. pose proof (en_orden _ _ HT') as Ho'.
  destruct (chat_exito_total _ _ _ _ _ _ _ H Hs)
    as (kv & u & mensaje & cid & st1 & respuesta & _ & _ & _ & Hres & Hc1
        & Hfin).
  cbv zeta in Hfin. destruct Hfin as [-> ->].
  cbn [cuerpo] in Hr. injection Hr as <-.
  cbn [r_conversation_id r_message r_response].
  assert (H1 : mensajes st1 = mensajes st /\ colecciones_ok st = true).
  { destruct Hres as [(_ & _ & Hc & ->) | (_ & -> & _)]; now split. }
  destruct H1 as [Hm1 Hc].
  rewrite historial_en_orden by (assumption || reflexivity).
  rewrite (historial_en_orden cid st) by assumption.
  cbn [mensajes]. rewrite find_turno, String.eqb_refl, Hm1, map_app.
  reflexivity.
Qed.

End Invariantes.

(** ** The further properties on the concrete world *)

Lemma ejemplo_now_monotona (i j : nat) :
  i <= j -> (Ejemplo.now i <= Ejemplo.now j)%Z.
Proof. unfold Ejemplo.now. lia. Qed.

(** The state after [POST /chat {uid: "u1", message: "Hello"}] on the empty
    store. *)
Lemma alcanzable_con_historia :
  Alcanzable Ejemplo.uuid4 Ejemplo.now Ejemplo.claude
             Ejemplo.vacio Ejemplo.con_historia.
Proof.
  apply (alc_paso _ _ _ _ Ejemplo.vacio Ejemplo.con_historia
                  (PChat (JObj (Ejemplo.campos "u1" "Hello")))).
  - apply alc_inicio.
  - vm_compute. reflexivity.
Qed.

(** A caller that does not own conversation ["x"]: 403, nothing changes. *)
Lemma chat_codigos_witness :
  exists resp st',
    chat Ejemplo.uuid4 Ejemplo.now Ejemplo.claude
         (JObj (Ejemplo.campos_cid "u2" "Hello" "x")) Ejemplo.con_x
    = Some (resp, st')
    /\ status resp = 403
    /\ (status resp = 200 \/ status resp = 400 \/ status resp = 403
        \/ status resp = 404 \/ status resp = 500)
    /\ (status resp = 400 \/ status resp = 403 \/ status resp = 404 ->
        st' = Ejemplo.con_x)
    /\ (enviados st' = enviados Ejemplo.con_x
        \/ exists p, enviados st' = enviados Ejemplo.con_x ++ [p])
    /\ (status resp = 200 ->
        exists p, enviados st' = enviados Ejemplo.con_x ++ [p]).
Proof.
  eexists. eexists. split; [vm_compute; reflexivity |].
  split; [reflexivity |].
  apply (chat_codigos Ejemplo.uuid4 Ejemplo.now Ejemplo.claude
           (JObj (Ejemplo.campos_cid "u2" "Hello" "x")) Ejemplo.con_x).
  vm_compute. reflexivity.
Defined.

(** A body that is a JSON list. *)
Lemma chat_cuerpo_no_objeto_witness :
  (forall kv, JArr [JStr "uid"] <> JObj kv)
  /\ exists resp,
      chat Ejemplo.uuid4 Ejemplo.now Ejemplo.claude (JArr [JStr "uid"])
           Ejemplo.con_x = Some (resp, Ejemplo.con_x)
      /\ (status resp = 400 \/ status resp = 500).
Proof.
  split; [discriminate |].
  apply (chat_cuerpo_no_objeto Ejemplo.uuid4 Ejemplo.now Ejemplo.claude).
  discriminate.
Defined.

(** [{"uid": "u1", "message": 5}]. *)
Lemma chat_mensaje_no_texto_witness :
  chat Ejemplo.uuid4 Ejemplo.now Ejemplo.claude
       (JObj [("uid", JStr "u1"); ("message", JNum 5)]) Ejemplo.con_x
  = Some (fallo 500 ErrExcepcion, Ejemplo.con_x).
Proof.
  apply (chat_mensaje_no_texto Ejemplo.uuid4 Ejemplo.now Ejemplo.claude
           [("uid", JStr "u1"); ("message", JNum 5)] (JStr "u1") (JNum 5)
           Ejemplo.con_x);
    try reflexivity.
  discriminate.
Defined.

(** The completion client is down while a new conversation is asked for. *)
Lemma chat_completion_falla_witness :
  exists resp st',
    chat Ejemplo.uuid4 Ejemplo.now Ejemplo.claude_caido
         (JObj (Ejemplo.campos "u1" "Hello")) Ejemplo.con_x = Some (resp, st')
    /\ length (conversaciones st') = 2
    /\ status resp <> 200
    /\ mensajes st' = mensajes Ejemplo.con_x
    /\ (conversaciones st' = conversaciones Ejemplo.con_x
        \/ exists u,
            conversaciones st'
            = conversaciones Ejemplo.con_x
              ++ [mkConversacion (Ejemplo.uuid4 (uuid_idx Ejemplo.con_x)) u
                    (Ejemplo.now (reloj_idx Ejemplo.con_x))
                    (Ejemplo.now (S (reloj_idx Ejemplo.con_x))) 0
                    titulo_inicial "active"]).
Proof.
  eexists. eexists. split; [vm_compute; reflexivity |].
  split; [reflexivity |].
  apply (chat_completion_falla Ejemplo.uuid4 Ejemplo.now Ejemplo.claude_caido
           (JObj (Ejemplo.campos "u1" "Hello")) Ejemplo.con_x).
  - reflexivity.
  - vm_compute. reflexivity.
Defined.

Lemma chat_solo_agrega_witness :
  exists resp st',
    chat Ejemplo.uuid4 Ejemplo.now Ejemplo.claude
         (JObj (Ejemplo.campos_cid "u1" "How are you?" "x"))
         Ejemplo.con_historia = Some (resp, st')
    /\ (exists nuevos,
           mensajes st' = mensajes Ejemplo.con_historia ++ nuevos
           /\ (nuevos = [] \/ (status resp = 200 /\ length nuevos = 2)))
    /\ (exists nuevas,
           map conv_fijo (conversaciones st')
           = map conv_fijo (conversaciones Ejemplo.con_historia) ++ nuevas
           /\ length nuevas <= 1)
    /\ claude_ok st' = claude_ok Ejemplo.con_historia
    /\ db_ok st' = db_ok Ejemplo.con_historia
    /\ colecciones_ok st' = colecciones_ok Ejemplo.con_historia.
Proof.
  eexists. eexists. split; [vm_compute; reflexivity |].
  apply (chat_solo_agrega Ejemplo.uuid4 Ejemplo.now Ejemplo.claude
           (JObj (Ejemplo.campos_cid "u1" "How are you?" "x"))
           Ejemplo.con_historia).
  vm_compute. reflexivity.
Defined.

Lemma get_conversations_del_usuario_witness :
  colecciones_ok Ejemplo.con_historia = true
  /\ exists convs,
      get_conversations (Some "u1") Ejemplo.con_historia
      = (200, ListaExito "u1" convs (length convs))
      /\ Permutation convs
           (MongoConv.find "u1" (conversaciones Ejemplo.con_historia))
      /\ Sorted updated_ge convs
      /\ (forall c, In c convs <->
                    In c (conversaciones Ejemplo.con_historia)
                    /\ conv_uid c = "u1").
Proof.
  split; [reflexivity |].
  apply (get_conversations_del_usuario "u1" Ejemplo.con_historia);
    [reflexivity | discriminate].
Defined.

Lemma get_conversation_acceso_witness :
  let r := get_conversation "x" (Some "u1") Ejemplo.con_historia in
  fst r = 200
  /\ (fst r = 404 <->
      Mongo.find_one "x" (conversaciones Ejemplo.con_historia) = None)
  /\ (fst r = 403 <->
      exists c, Mongo.find_one "x" (conversaciones Ejemplo.con_historia)
                = Some c /\ conv_uid c <> "u1")
  /\ (fst r = 200 <->
      exists c, Mongo.find_one "x" (conversaciones Ejemplo.con_historia)
                = Some c /\ conv_uid c = "u1")
  /\ (fst r = 200 \/ fst r = 403 \/ fst r = 404)
  /\ forall c ms,
      snd r = DetalleExito c ms ->
      Mongo.find_one "x" (conversaciones Ejemplo.con_historia) = Some c
      /\ Permutation ms (Mongo.find "x" (mensajes Ejemplo.con_historia))
      /\ Sorted ts_le ms
      /\ map a_entrada ms
         = obtener_historial_conversacion "x" Ejemplo.con_historia.
Proof.
  split; [reflexivity |].
  apply (get_conversation_acceso "x" "u1" Ejemplo.con_historia);
    [reflexivity | discriminate].
Defined.

Lemma new_conversation_crea_witness :
  let cid := Ejemplo.uuid4 (uuid_idx Ejemplo.con_x) in
  let doc := mkConversacion cid "u2" (Ejemplo.now (reloj_idx Ejemplo.con_x))
                            (Ejemplo.now (S (reloj_idx Ejemplo.con_x)))
                            0 titulo_inicial "active" in
  exists c st1,
    new_conversation Ejemplo.uuid4 Ejemplo.now (JObj [("uid", JStr "u2")])
                     Ejemplo.con_x
    = Some (Responde 200 (NuevaExito cid (Some c)), st1)
    /\ conversaciones st1 = conversaciones Ejemplo.con_x ++ [doc]
    /\ mensajes st1 = mensajes Ejemplo.con_x
    /\ enviados st1 = enviados Ejemplo.con_x
    /\ (Mongo.find_one cid (conversaciones Ejemplo.con_x) = None -> c = doc)
    /\ (forall c0, Mongo.find_one cid (conversaciones Ejemplo.con_x) = Some c0 ->
                   c = c0).
Proof.
  apply (new_conversation_crea Ejemplo.uuid4 Ejemplo.now
           [("uid", JStr "u2")] "u2" Ejemplo.con_x);
    reflexivity.
Defined.

(** The body [42]. *)
Lemma new_conversation_cuerpo_no_objeto_witness :
  (exists v, new_conversation Ejemplo.uuid4 Ejemplo.now (JNum 42) Ejemplo.con_x
             = Some (v, Ejemplo.con_x)
             /\ forall cid c, v <> Responde 200 (NuevaExito cid c))
  /\ (colecciones_ok Ejemplo.con_x = true -> truthy (JNum 42) = true ->
      py_in "uid" (JNum 42) = None ->
      new_conversation Ejemplo.uuid4 Ejemplo.now (JNum 42) Ejemplo.con_x
      = Some (Escapa, Ejemplo.con_x)
      /\ (claude_ok Ejemplo.con_x = true -> db_ok Ejemplo.con_x = true ->
          chat Ejemplo.uuid4 Ejemplo.now Ejemplo.claude (JNum 42) Ejemplo.con_x
          = Some (fallo 500 ErrExcepcion, Ejemplo.con_x))).
Proof.
  apply (new_conversation_cuerpo_no_objeto
           Ejemplo.uuid4 Ejemplo.now Ejemplo.claude (JNum 42) Ejemplo.con_x).
  discriminate.
Defined.

Lemma uid_vacio_no_se_lee_witness :
  exists cid c st1,
    new_conversation Ejemplo.uuid4 Ejemplo.now (JObj [("uid", JStr "")])
                     Ejemplo.con_x
    = Some (Responde 200 (NuevaExito cid c), st1)
    /\ fst (get_conversations (Some "") st1) = 400
    /\ fst (get_conversation cid (Some "") st1) = 400
    /\ (forall u, u <> "" ->
                  Mongo.find_one cid (conversaciones Ejemplo.con_x) = None ->
                  fst (get_conversation cid (Some u) st1) = 403).
Proof.
  apply (uid_vacio_no_se_lee Ejemplo.uuid4 Ejemplo.now
           [("uid", JStr "")] Ejemplo.con_x);
    reflexivity.
Defined.

(** Conversation ["x"] belongs to ["u1"]: both routes refuse ["u2"]. *)
Lemma chat_y_get_conversation_acceso_witness :
  exists resp st',
    chat Ejemplo.uuid4 Ejemplo.now Ejemplo.claude
         (JObj (Ejemplo.campos_cid "u2" "Hello" "x")) Ejemplo.con_x
    = Some (resp, st')
    /\ status resp = 403
    /\ (status resp = 404 <->
        fst (get_conversation "x" (Some "u2") Ejemplo.con_x) = 404)
    /\ (status resp = 403 <->
        fst (get_conversation "x" (Some "u2") Ejemplo.con_x) = 403).
Proof.
  eexists. eexists. split; [vm_compute; reflexivity |].
  split; [reflexivity |].
  eapply (chat_y_get_conversation_acceso
            Ejemplo.uuid4 Ejemplo.now Ejemplo.claude
            (Ejemplo.campos_cid "u2" "Hello" "x") "u2" "Hello" "x"
            Ejemplo.con_x);
    try reflexivity; try discriminate.
Defined.

Lemma home_tras_chat_witness :
  exists resp st',
    chat Ejemplo.uuid4 Ejemplo.now Ejemplo.claude
         (JObj (Ejemplo.campos "u1" "Hello")) Ejemplo.con_x = Some (resp, st')
    /\ status resp = 200
    /\ exists r,
        cuerpo resp = Exito r
        /\ h_stats_mensajes (home st')
           = 2 + h_stats_mensajes (home Ejemplo.con_x)
        /\ h_stats_conversaciones (home st')
           = (if r_is_new_conversation r then 1 else 0)
             + h_stats_conversaciones (home Ejemplo.con_x).
Proof.
  eexists. eexists. split; [vm_compute; reflexivity |].
  split; [reflexivity |].
  apply (home_tras_chat Ejemplo.uuid4 Ejemplo.now Ejemplo.claude
           (JObj (Ejemplo.campos "u1" "Hello")) Ejemplo.con_x);
    vm_compute; reflexivity.
Defined.

Lemma chat_luego_get_conversation_witness :
  exists resp st' r,
    chat Ejemplo.uuid4 Ejemplo.now Ejemplo.claude
         (JObj (Ejemplo.campos "u1" "Hello")) Ejemplo.vacio = Some (resp, st')
    /\ status resp = 200
    /\ cuerpo resp = Exito r
    /\ exists c ms,
        get_conversation (r_conversation_id r) (Some "u1") st'
        = (200, DetalleExito c ms)
        /\ conv_uid c = "u1"
        /\ conv_message_count c = r_message_count r
        /\ length ms = r_message_count r
        /\ In (mkEntrada user (r_message r)) (map a_entrada ms)
        /\ In (mkEntrada assistant (r_response r)) (map a_entrada ms).
Proof.
  eexists. eexists. eexists. split; [vm_compute; reflexivity |].
  split; [reflexivity |]. split; [reflexivity |].
  eapply (chat_luego_get_conversation
            Ejemplo.uuid4 Ejemplo.now Ejemplo.claude
            (Ejemplo.campos "u1" "Hello") "u1" Ejemplo.vacio);
    try (vm_compute; reflexivity).
  - discriminate.
  - left. reflexivity.
Defined.

Lemma ids_unicos_witness :
  Alcanzable Ejemplo.uuid4 Ejemplo.now Ejemplo.claude
             Ejemplo.vacio Ejemplo.con_historia
  /\ NoDup (map conv_conversation_id (conversaciones Ejemplo.con_historia)
            ++ map msg_id (mensajes Ejemplo.con_historia)).
Proof.
  split; [exact alcanzable_con_historia |].
  apply (ids_unicos Ejemplo.uuid4 Ejemplo.now Ejemplo.claude
           ejemplo_uuid4_inyectiva Ejemplo.vacio Ejemplo.con_historia);
    [reflexivity | reflexivity | exact alcanzable_con_historia].
Defined.

(** Three requests on the empty store: a first turn, a second turn on the
    conversation it created, and a conversation opened for another user. *)
Lemma mensajes_de_su_conversacion_witness :
  (exists st,
      ejecutar Ejemplo.uuid4 Ejemplo.now Ejemplo.claude
               [PChat (JObj (Ejemplo.campos "u1" "Hello"));
                PChat (JObj (Ejemplo.campos_cid "u1" "How are you?" "x"));
                PNueva (JObj [("uid", JStr "u2")])]
               Ejemplo.vacio = Some st
      /\ length (conversaciones st) = 2
      /\ length (mensajes st) = 4
      /\ mensajes_con_dueno st)
  /\ mensajes_con_dueno Ejemplo.con_historia.
Proof.
  destruct (mensajes_de_su_conversacion
              Ejemplo.uuid4 Ejemplo.now Ejemplo.claude
              ejemplo_uuid4_inyectiva Ejemplo.vacio eq_refl eq_refl)
    as [Hps Halc].
  split; [| exact (Halc _ alcanzable_con_historia)].
  destruct (Hps [PChat (JObj (Ejemplo.campos "u1" "Hello"));
                 PChat (JObj (Ejemplo.campos_cid "u1" "How are you?" "x"));
                 PNueva (JObj [("uid", JStr "u2")])])
    as (st & Hr & HP).
  - repeat constructor.
    + exists (Ejemplo.campos "u1" "Hello"), "u1".
      split; [reflexivity |]. split; [reflexivity |]. left. reflexivity.
    + exists (Ejemplo.campos_cid "u1" "How are you?" "x"), "u1".
      split; [reflexivity |]. split; [reflexivity |].
      right. exists "x". reflexivity.
    + exists [("uid", JStr "u2")], "u2". split; reflexivity.
  - exists st. split; [exact Hr |].
    vm_compute in Hr. injection Hr as <-.
    split; [reflexivity |]. split; [reflexivity |]. exact HP.
Defined.

Lemma message_count_siempre_witness :
  (exists st,
      ejecutar Ejemplo.uuid4 Ejemplo.now Ejemplo.claude
               [PChat (JObj (Ejemplo.campos "u1" "Hello"));
                PChat (JObj (Ejemplo.campos_cid "u1" "How are you?" "x"));
                PNueva (JObj [("uid", JStr "u2")])]
               Ejemplo.vacio = Some st
      /\ length (conversaciones st) = 2
      /\ length (mensajes st) = 4
      /\ cuentas_al_dia st)
  /\ cuentas_al_dia Ejemplo.con_historia.
Proof.
  destruct (message_count_siempre
              Ejemplo.uuid4 Ejemplo.now Ejemplo.claude
              ejemplo_uuid4_inyectiva Ejemplo.vacio eq_refl eq_refl)
    as [Hps Halc].
  split; [| exact (Halc _ alcanzable_con_historia)].
  destruct (Hps [PChat (JObj (Ejemplo.campos "u1" "Hello"));
                 PChat (JObj (Ejemplo.campos_cid "u1" "How are you?" "x"));
                 PNueva (JObj [("uid", JStr "u2")])])
    as (st & Hr & HP).
  - repeat constructor.
    + exists (Ejemplo.campos "u1" "Hello"), "u1".
      split; [reflexivity |]. split; [reflexivity |]. left. reflexivity.
    + exists (Ejemplo.campos_cid "u1" "How are you?" "x"), "u1".
      split; [reflexivity |]. split; [reflexivity |].
      right. exists "x". reflexivity.
    + exists [("uid", JStr "u2")], "u2". split; reflexivity.
  - exists st. split; [exact Hr |].
    vm_compute in Hr. injection Hr as <-.
    split; [reflexivity |]. split; [reflexivity |]. exact HP.
Defined.

Lemma turnos_alternan_witness :
  Alcanzable Ejemplo.uuid4 Ejemplo.now Ejemplo.claude
             Ejemplo.vacio Ejemplo.con_historia
  /\ forall cid,
      alterna (map msg_role (Mongo.find cid (mensajes Ejemplo.con_historia)))
      = true.
Proof.
  split; [exact alcanzable_con_historia |].
  apply (turnos_alternan
           Ejemplo.uuid4 Ejemplo.now Ejemplo.claude
           ejemplo_uuid4_inyectiva Ejemplo.vacio Ejemplo.con_historia);
    [reflexivity | reflexivity | exact alcanzable_con_historia].
Defined.

Lemma titulo_del_primer_mensaje_witness :
  (exists st,
      ejecutar Ejemplo.uuid4 Ejemplo.now Ejemplo.claude
               [PChat (JObj (Ejemplo.campos "u1" "Hello"));
                PChat (JObj (Ejemplo.campos_cid "u1" "How are you?" "x"));
                PNueva (JObj [("uid", JStr "u2")])]
               Ejemplo.vacio = Some st
      /\ length (conversaciones st) = 2
      /\ length (mensajes st) = 4
      /\ titulos_al_dia st)
  /\ titulos_al_dia Ejemplo.con_historia.
Proof.
  destruct (titulo_del_primer_mensaje
              Ejemplo.uuid4 Ejemplo.now Ejemplo.claude
              ejemplo_uuid4_inyectiva Ejemplo.vacio eq_refl eq_refl)
    as [Hps Halc].
  split; [| exact (Halc _ alcanzable_con_historia)].
  destruct (Hps [PChat (JObj (Ejemplo.campos "u1" "Hello"));
                 PChat (JObj (Ejemplo.campos_cid "u1" "How are you?" "x"));
                 PNueva (JObj [("uid", JStr "u2")])])
    as (st & Hr & HP).
  - repeat constructor.
    + exists (Ejemplo.campos "u1" "Hello"), "u1".
      split; [reflexivity |]. split; [reflexivity |]. left. reflexivity.
    + exists (Ejemplo.campos_cid "u1" "How are you?" "x"), "u1".
      split; [reflexivity |]. split; [reflexivity |].
      right. exists "x". reflexivity.
    + exists [("uid", JStr "u2")], "u2". split; reflexivity.
  - exists st. split; [exact Hr |].
    vm_compute in Hr. injection Hr as <-.
    split; [reflexivity |]. split; [reflexivity |]. exact HP.
Defined.

Lemma prompts_alternan_witness :
  Alcanzable Ejemplo.uuid4 Ejemplo.now Ejemplo.claude
             Ejemplo.vacio Ejemplo.con_historia
  /\ forall p, In p (enviados Ejemplo.con_historia) ->
               prompt_alterna (map role p) = true.
Proof.
  split; [exact alcanzable_con_historia |].
  apply (prompts_alternan
           Ejemplo.uuid4 Ejemplo.now Ejemplo.claude
           ejemplo_uuid4_inyectiva ejemplo_now_monotona
           Ejemplo.vacio Ejemplo.con_historia);
    [reflexivity | reflexivity | reflexivity | exact alcanzable_con_historia].
Defined.

(** The second turn on conversation ["x"]. *)
Lemma historial_crece_witness :
  ejecutar Ejemplo.uuid4 Ejemplo.now Ejemplo.claude
           [PChat (JObj (Ejemplo.campos "u1" "Hello"))] Ejemplo.vacio
  = Some Ejemplo.con_historia
  /\ exists resp st' r,
      chat Ejemplo.uuid4 Ejemplo.now Ejemplo.claude
           (JObj (Ejemplo.campos_cid "u1" "How are you?" "x"))
           Ejemplo.con_historia = Some (resp, st')
      /\ status resp = 200
      /\ cuerpo resp = Exito r
      /\ obtener_historial_conversacion (r_conversation_id r) st'
         = obtener_historial_conversacion (r_conversation_id r)
                                          Ejemplo.con_historia
           ++ [mkEntrada user (r_message r);
               mkEntrada assistant (r_response r)].
Proof.
  split; [vm_compute; reflexivity |].
  eexists. eexists. eexists. split; [vm_compute; reflexivity |].
  split; [reflexivity |]. split; [reflexivity |].
  eapply (historial_crece
            Ejemplo.uuid4 Ejemplo.now Ejemplo.claude
            ejemplo_uuid4_inyectiva ejemplo_now_monotona
            Ejemplo.vacio Ejemplo.con_historia
            [PChat (JObj (Ejemplo.campos "u1" "Hello"))]
            (JObj (Ejemplo.campos_cid "u1" "How are you?" "x")));
    try (vm_compute; reflexivity).
  - repeat constructor.
    exists (Ejemplo.campos "u1" "Hello"), "u1".
    split; [reflexivity |]. split; [reflexivity |]. left. reflexivity.
  - exists (Ejemplo.campos_cid "u1" "How are you?" "x"), "u1".
    split; [reflexivity |]. split; [reflexivity |].
    right. exists "x". reflexivity.
Defined.

(** ** The list of conversations after a turn *)

Lemma in_update_one (cid : string) (f : Conversacion -> Conversacion)
      (l : list Conversacion) (x : Conversacion) :
  In x (Mongo.update_one cid f l) ->
  In x l \/ exists c0, Mongo.find_one cid l = Some c0 /\ x = f c0.
Proof.
  induction l as [|c r IH]; simpl; [tauto |].
  destruct (conv_conversation_id c =? cid).
  - intros [<- | Hin]; [right; now exists c | left; now right].
  - intros [<- | Hin]; [left; now left |].
    destruct (IH Hin) as [H | H]; [left; now right | now right].
Qed.

Lemma update_one_in_actualizado (cid : string)
      (f : Conversacion -> Conversacion) (l : list Conversacion)
      (c0 : Conversacion) :
  Mongo.find_one cid l = Some c0 -> In (f c0) (Mongo.update_one cid f l).
Proof.
  induction l as [|c r IH]; simpl; [discriminate |].
  destruct (conv_conversation_id c =? cid).
  - intros H. injection H as <-. now left.
  - intros H. right. now apply IH.
Qed.

Lemma update_one_in_clave (cid : string) (f : Conversacion -> Conversacion)
      (l : list Conversacion) (c : Conversacion) :
  (forall x, conv_clave (f x) = conv_clave x) ->
  In c l ->
  exists c', In c' (Mongo.update_one cid f l) /\ conv_clave c' = conv_clave c.
Proof.
  intros Hf. induction l as [|x r IH]; simpl; [tauto |].
  destruct (conv_conversation_id x =? cid).
  - intros [<- | Hin].
    + exists (f x). split; [now left | apply Hf].
    + exists c. split; [now right | reflexivity].
  - intros [<- | Hin].
    + exists x. split; [now left | reflexivity].
    + destruct (IH Hin) as (c' & Hc' & Hk). exists c'. split; [now right | exact Hk].
Qed.

Lemma sort_updated_cabeza (l : list Conversacion) (c : Conversacion) :
  In c l ->
  (forall x, In x l ->
             x = c \/ (conv_updated_at x < conv_updated_at c)%Z) ->
  exists resto, MongoConv.sort_updated l = c :: resto.
Proof.
  induction l as [|x r IH]; intros Hin Hmax; [destruct Hin |].
  cbn [MongoConv.sort_updated].
  destruct (Hmax x (or_introl eq_refl)) as [-> | Hlt].
  - destruct (MongoConv.sort_updated r) as [|y r'] eqn:Hs;
      [now exists [] |].
    cbn [MongoConv.insert_updated].
    assert (Hy : In y r).
    { apply (Permutation_in _ (Permutation_sym (sort_updated_perm r))).
      rewrite Hs. now left. }
    destruct (Hmax y (or_intror Hy)) as [-> | Hlt].
    + rewrite Z.leb_refl. now eexists.
    + replace (conv_updated_at y <=? conv_updated_at c)%Z with true
        by (symmetry; apply Z.leb_le; lia).
      now eexists.
  - destruct Hin as [-> | Hin]; [lia |].
    destruct (IH Hin (fun y Hy => Hmax y (or_intror Hy))) as [resto Hs].
    rewrite Hs. cbn [MongoConv.insert_updated].
    replace (conv_updated_at c <=? conv_updated_at x)%Z with false
      by (symmetry; apply Z.leb_gt; lia).
    now eexists.
Qed.

Section Recientes.

Variable uuid4 : nat -> string.
Variable now : nat -> Z.
Variable claude : nat -> list Entrada -> option string.

Hypothesis uuid4_inyectiva : forall i j, uuid4 i = uuid4 j -> i = j.
Hypothesis now_estricta : forall i j, i < j -> (now i < now j)%Z.

(** X22.  After a successful [chat] with string identifiers (the [uid] a
    non-empty string, the [conversation_id] absent, falsy or a string), the
    conversation of the answer is in the list that [GET /conversations]
    gives to that [uid]. *)
Theorem chat_luego_get_conversations (kv : list (string * json)) (u : string)
        (st : Estado) (resp : Respuesta) (st' : Estado) (r : ChatOk) :
  dict_get "uid" kv = Some (JStr u) ->
  u <> "" ->
  id_texto (get_conversation_id kv) ->
  chat uuid4 now claude (JObj kv) st = Some (resp, st') ->
  status resp = 200 ->
  cuerpo resp = Exito r ->
  exists convs,
    get_conversations (Some u) st' = (200, ListaExito u convs (length convs))
    /\ exists c, In c convs
                 /\ conv_conversation_id c = r_conversation_id r
                 /\ conv_uid c = u.
Proof.
  intros Hu Hne _ H Hs Hr.
  destruct (chat_exito_total _ _ _ _ _ _ _ H Hs)
    as (kv' & u' & mensaje & cid & st1 & respuesta & Hkv & Hu' & _ & Hres
        & Hc1 & Hfin).
  injection Hkv as <-. rewrite Hu in Hu'. injection Hu' as <-.
  cbv zeta in Hfin. destruct Hfin as [-> ->].
  cbn [cuerpo] in Hr. injection Hr as <-. cbn [r_conversation_id].
  assert (Hin : exists c, In c (conversaciones st1)
                          /\ conv_clave c = (cid, u)).
  { destruct Hres as [(_ & _ & _ & ->) | (_ & -> & c & Hf & Hcu)].
    - eexists. split; [cbn [conversaciones]; apply in_or_app; right; now left |].
      reflexivity.
    - destruct (find_one_in _ _ _ Hf) as [Hcin Hid].
      exists c. split; [exact Hcin |]. unfold conv_clave. now rewrite Hid, Hcu. }
  destruct Hin as (c & Hcin & Hk).
  unfold get_conversations. cbn [colecciones_ok negb conversaciones].
  apply String.eqb_neq in Hne. rewrite Hne.
  eexists. split; [reflexivity |].
  match goal with
  | |- context [Mongo.update_one cid ?f _] =>
      destruct (update_one_in_clave cid f (conversaciones st1) c
                  (fun x => eq_refl) Hcin) as (c' & Hc' & Hk')
  end.
  rewrite Hk in Hk'. unfold conv_clave in Hk'. injection Hk' as Hid Huid.
  exists c'. split; [| now split].
  apply (Permutation_in _ (sort_updated_perm _)).
  unfold MongoConv.find. apply filter_In. split; [exact Hc' |].
  now apply String.eqb_eq.
Qed.

Lemma actualizadas_chat (data : json) (st : Estado) (resp : Respuesta)
      (st' : Estado) :
  actualizadas_antes now st ->
  chat uuid4 now claude data st = Some (resp, st') ->
  actualizadas_antes now st'.
Proof.
  intros HA H.
  destruct (chat_efecto _ _ _ _ _ _ _ H)
    as [[-> _] | (u & cid & st1 & mensaje & Hres & Hc1 & _ & Hfin)];
    [exact HA |].
  assert (HA1 : actualizadas_antes now st1).
  { destruct Hres as [Hcr | [-> _]]; [| exact HA].
    apply crear_conversacion_retorna in Hcr. destruct Hcr as (_ & _ & ->).
    intros c Hc. cbn [conversaciones reloj_idx] in *.
    apply in_app_or in Hc. destruct Hc as [Hc | [<- | []]].
    - destruct (HA c Hc) as (k & Hk & He). exists k. split; [lia | exact He].
    - exists (S (reloj_idx st)). split; [lia | reflexivity]. }
  cbv zeta in Hfin.
  destruct Hfin as [(-> & _) | (respuesta & st3 & _ & Hag & -> & _)];
    [exact HA1 |].
  rewrite (agregar_mensaje_estado uuid4 now) in Hag by exact Hc1.
  injection Hag as <-. intros c Hc.
  cbn [set_reloj_idx set_enviados conversaciones reloj_idx] in *.
  apply in_update_one in Hc. destruct Hc as [Hc | (c0 & _ & ->)].
  - destruct (HA1 c Hc) as (k & Hk & He). exists k. split; [lia | exact He].
  - exists (reloj_idx st1). split; [lia | reflexivity].
Qed.

Lemma actualizadas_alcanzable (st0 st : Estado) :
  conversaciones st0 = [] ->
  Alcanzable uuid4 now claude st0 st ->
  actualizadas_antes now st.
Proof.
  intros Hcv. induction 1 as [|st st' p Halc IH Hp].
  - intros c Hc. rewrite Hcv in Hc. destruct Hc.
  - destruct p as [data | data]; cbn [atender] in Hp.
    + destruct (chat uuid4 now claude data st) as [[resp st1]|] eqn:Hch;
        [| discriminate Hp].
      injection Hp as <-. now apply (actualizadas_chat data st resp).
    + destruct (new_conversation uuid4 now data st) as [[v st1]|] eqn:Hn;
        [| discriminate Hp].
      injection Hp as <-. unfold new_conversation in Hn.
      destruct (negb (colecciones_ok st)); [now injection Hn as _ <- |].
      destruct (negb (truthy data)); [now injection Hn as _ <- |].
      destruct (py_in "uid" data) as [[|]|]; try (now injection Hn as _ <-).
      destruct data; try (now injection Hn as _ <-).
      destruct (dict_get "uid" kv) as [[| | | u | |]|];
        try discriminate Hn; try (now injection Hn as _ <-).
      destruct (crear_conversacion uuid4 now u st) as [cid st2|st2] eqn:Hcr.
      * injection Hn as _ <-.
        apply crear_conversacion_retorna in Hcr. destruct Hcr as (_ & _ & ->).
        intros c Hc. cbn [conversaciones reloj_idx] in *.
        apply in_app_or in Hc. destruct Hc as [Hc | [<- | []]].
        -- destruct (IH c Hc) as (k & Hk & He). exists k. split; [lia | exact He].
        -- exists (S (reloj_idx st)). split; [lia | reflexivity].
      * unfold crear_conversacion in Hcr.
        destruct (negb (colecciones_ok st)); [| discriminate Hcr].
        injection Hcr as <-. now injection Hn as _ <-.
Qed.

(** X23.  Starting from an empty store and after any sequence of requests
    with string identifiers, with identifiers that never repeat and a clock
    that always advances, the conversation of a successful [chat] with
    string identifiers (the [uid] a non-empty string, the [conversation_id]
    absent, falsy or a string) is the first one of the list that
    [GET /conversations] then gives to its owner. *)
Theorem chat_luego_primera_de_la_lista (st0 st : Estado)
        (ps : list Peticion) (kv : list (string * json)) (u : string)
        (resp : Respuesta) (st' : Estado) (r : ChatOk) :
  conversaciones st0 = [] -> mensajes st0 = [] ->
  Forall peticion_texto ps ->
  ejecutar uuid4 now claude ps st0 = Some st ->
  dict_get "uid" kv = Some (JStr u) ->
  u <> "" ->
  id_texto (get_conversation_id kv) ->
  chat uuid4 now claude (JObj kv) st = Some (resp, st') ->
  status resp = 200 ->
  cuerpo resp = Exito r ->
  exists c resto,
    get_conversations (Some u) st'
    = (200, ListaExito u (c :: resto) (S (length resto)))
    /\ conv_conversation_id c = r_conversation_id r.
Proof.
  intros Hcv Hm _ Hrun Hu Hne _ H Hs Hr.
  pose proof (ejecutar_alcanzable uuid4 now claude ps st0 st0 st
                (alc_inicio _ _ _ st0) Hrun) as Halc.
  destruct (invariantes_vacio uuid4 now st0 Hcv Hm) as [HC0 _].
  pose proof (consistente_alcanzable uuid4 now claude uuid4_inyectiva
                st0 st HC0 Halc) as HC.
  pose proof (actualizadas_alcanzable st0 st Hcv Halc) as HA.
  destruct (chat_exito_total _ _ _ _ _ _ _ H Hs)
    as (kv' & u' & mensaje & cid & st1 & respuesta & Hkv & Hu' & _ & Hres
        & Hc1 & Hfin).
  injection Hkv as <-. rewrite Hu in Hu'. injection Hu' as <-.
  cbv zeta in Hfin. destruct Hfin as [-> ->].
  cbn [cuerpo] in Hr. injection Hr as <-. cbn [r_conversation_id].
  assert (H1 : (exists c0, Mongo.find_one cid (conversaciones st1) = Some c0
                           /\ conv_uid c0 = u)
               /\ forall c, In c (conversaciones st1) ->
                            exists k, k < reloj_idx st1
                                      /\ conv_updated_at c = now k).
  { destruct Hres as [(_ & Hcid & Hc & Hst1) | (_ & -> & Hex)];
      [| split; [exact Hex | exact HA]].
    assert (Hcr : crear_conversacion uuid4 now u st = Retorna cid st1).
    { unfold crear_conversacion. rewrite Hc, Hcid, Hst1. cbn [negb].
      destruct st; cbn in *. subst. reflexivity. }
    split.
    - exact (proj2 (consistente_crear uuid4 now uuid4_inyectiva u st cid st1
                      HC Hcr)).
    - rewrite Hst1. intros c Hcin. cbn [conversaciones reloj_idx] in *.
      apply in_app_or in Hcin. destruct Hcin as [Hcin | [<- | []]].
      + destruct (HA c Hcin) as (k & Hk & He). exists k. split; [lia | exact He].
      + exists (S (reloj_idx st)). split; [lia | reflexivity]. }
  destruct H1 as [(c0 & Hf & Hcu) HA1].
  unfold get_conversations. cbn [colecciones_ok negb conversaciones].
  apply String.eqb_neq in Hne. rewrite Hne.
  match goal with
  | |- context [Mongo.update_one cid ?f _] => set (f0 := f)
  end.
  destruct (sort_updated_cabeza
              (MongoConv.find u (Mongo.update_one cid f0 (conversaciones st1)))
              (f0 c0)) as [resto Hsort].
  - unfold MongoConv.find. apply filter_In. split.
    + now apply update_one_in_actualizado.
    + unfold f0. cbn [aplicar_update conv_uid]. now apply String.eqb_eq.
  - intros x Hx. unfold MongoConv.find in Hx. apply filter_In in Hx.
    destruct Hx as [Hx _]. apply in_update_one in Hx.
    destruct Hx as [Hx | (c1 & Hf1 & ->)].
    + right. destruct (HA1 x Hx) as (k & Hk & He).
      unfold f0. cbn [aplicar_update conv_updated_at]. rewrite He.
      now apply now_estricta.
    + left. rewrite Hf in Hf1. now injection Hf1 as <-.
  - exists (f0 c0), resto. rewrite Hsort. cbn [length]. split; [reflexivity |].
    unfold f0. cbn [aplicar_update conv_conversation_id].
    exact (proj2 (find_one_in _ _ _ Hf)).
Qed.

End Recientes.

Lemma ejemplo_now_estricta (i j : nat) :
  i < j -> (Ejemplo.now i < Ejemplo.now j)%Z.
Proof. unfold Ejemplo.now. lia. Qed.

Lemma chat_luego_get_conversations_witness :
  exists resp st' r,
    chat Ejemplo.uuid4 Ejemplo.now Ejemplo.claude
         (JObj (Ejemplo.campos "u1" "Hello")) Ejemplo.con_x = Some (resp, st')
    /\ status resp = 200
    /\ cuerpo resp = Exito r
    /\ exists convs,
        get_conversations (Some "u1") st'
        = (200, ListaExito "u1" convs (length convs))
        /\ exists c, In c convs
                     /\ conv_conversation_id c = r_conversation_id r
                     /\ conv_uid c = "u1".
Proof.
  eexists. eexists. eexists. split; [vm_compute; reflexivity |].
  split; [reflexivity |]. split; [reflexivity |].
  eapply (chat_luego_get_conversations
            Ejemplo.uuid4 Ejemplo.now Ejemplo.claude
            (Ejemplo.campos "u1" "Hello") "u1" Ejemplo.con_x);
    try (vm_compute; reflexivity).
  - discriminate.
  - left. reflexivity.
Defined.

(** The second turn on conversation ["x"] puts it first in the list. *)
Lemma chat_luego_primera_de_la_lista_witness :
  ejecutar Ejemplo.uuid4 Ejemplo.now Ejemplo.claude
           [PChat (JObj (Ejemplo.campos "u1" "Hello"))] Ejemplo.vacio
  = Some Ejemplo.con_historia
  /\ exists resp st' r,
      chat Ejemplo.uuid4 Ejemplo.now Ejemplo.claude
           (JObj (Ejemplo.campos_cid "u1" "How are you?" "x"))
           Ejemplo.con_historia = Some (resp, st')
      /\ status resp = 200
      /\ cuerpo resp = Exito r
      /\ exists c resto,
          get_conversations (Some "u1") st'
          = (200, ListaExito "u1" (c :: resto) (S (length resto)))
          /\ conv_conversation_id c = r_conversation_id r.
Proof.
  split; [vm_compute; reflexivity |].
  eexists. eexists. eexists. split; [vm_compute; reflexivity |].
  split; [reflexivity |]. split; [reflexivity |].
  eapply (chat_luego_primera_de_la_lista
            Ejemplo.uuid4 Ejemplo.now Ejemplo.claude
            ejemplo_uuid4_inyectiva ejemplo_now_estricta
            Ejemplo.vacio Ejemplo.con_historia
            [PChat (JObj (Ejemplo.campos "u1" "Hello"))]
            (Ejemplo.campos_cid "u1" "How are you?" "x") "u1");
    try (vm_compute; reflexivity).
  - repeat constructor.
    exists (Ejemplo.campos "u1" "Hello"), "u1".
    split; [reflexivity |]. split; [reflexivity |]. left. reflexivity.
  - discriminate.
  - right. exists "x". reflexivity.
Defined.
